(** * Nordic legacy DFU over BLE: the update engine of [dfu.py]

    A shallow embedding of the firmware-update client: the package loader
    [parse_zip], the notification handler and response wait, the packet
    streamer, the update sequence with its retry loop, the scan locator
    [find_device] and the bootloader rediscovery of [main].

    Conventions.
    - Bytes are [Byte.byte]; Python [int]s are [Z]; lengths and offsets [nat].
    - Durations are in milliseconds ([5.0] seconds is [5000]).
    - The transport (bleak) and the event loop are an environment: at every
      [await] the next [reply] of a script says whether the awaited call
      raises and which notifications reach [_notification_handler] meanwhile.
      The script may deliver notifications at any suspension, a superset of
      what a real link does.  An exhausted script answers [quiet].
    - Every transport call, sleep, wait and write to stdout is recorded in
      a trace, oldest first.  Logging is not recorded. *)

From Stdlib Require Import String Ascii ZArith NArith Lia Bool Arith List.
From Stdlib Require Import DecimalString.
From Stdlib.Strings Require Import Byte.
Import ListNotations.

Set Implicit Arguments.

(** ** Python helpers *)

Module Py.

Definition bytes := list byte.

Definition byte_val (b : byte) : Z := Z.of_N (Byte.to_N b).

(** [xs[i:j]] for [0 <= i <= j]: clipped to the sequence, never raises. *)
Definition slice {A} (xs : list A) (i j : nat) : list A :=
  firstn (j - i) (skipn i xs).

(** [range(start, stop, step)] for a positive step. *)
Definition range (start stop step : nat) : list nat :=
  map (fun k => start + k * step) (seq 0 ((stop - start + (step - 1)) / step)).

(** Truthiness of an optional string: [None] and [""] are falsy. *)
Definition truthy (s : option string) : bool :=
  match s with
  | None => false
  | Some s => negb (String.eqb s "")
  end.

(** [a or b] on optional strings. *)
Definition or_else (a b : option string) : option string :=
  if truthy a then a else b.

Definition str_of_Z (z : Z) : string := NilZero.string_of_int (Z.to_int z).

End Py.
Import Py.

(** ** Constants of the protocol *)

Definition DFU_SERVICE_UUID := "00001530-1212-efde-1523-785feabcd123"%string.
Definition DFU_CONTROL_POINT_UUID := "00001531-1212-efde-1523-785feabcd123"%string.
Definition DFU_PACKET_UUID := "00001532-1212-efde-1523-785feabcd123"%string.

Definition OP_CODE_START_DFU : byte := x01.
Definition OP_CODE_INIT_DFU_PARAMS : byte := x02.
Definition OP_CODE_RECEIVE_FIRMWARE_IMAGE : byte := x03.
Definition OP_CODE_VALIDATE : byte := x04.
Definition OP_CODE_ACTIVATE_AND_RESET : byte := x05.
Definition OP_CODE_RESET : byte := x06.
Definition OP_CODE_PACKET_RECEIPT_NOTIF_REQ : byte := x08.
Definition OP_CODE_RESPONSE_CODE : byte := x10.
Definition OP_CODE_PACKET_RECEIPT_NOTIF : byte := x11.
Definition OP_CODE_ENTER_BOOTLOADER : byte := x01.
Definition UPLOAD_MODE_APPLICATION : byte := x04.

(** ** Exceptions *)

(** What a bleak call can raise. *)
Inductive transport_error :=
| BleakError (msg : string)
| BleakTimeout
| OSError (msg : string).

(** The [DfuException]s of the program, one constructor per raise site. *)
Inductive dfu_error :=
| NoApplicationManifest
| NoFirmwareFiles
| StartDfuFailed
| InitPacketFailed (status : Z)
| UploadFailed (status : Z)
| ValidationFailed (status : Z)
| DeviceNotFound
| BootloaderNotFound.

Definition dfu_message (e : dfu_error) : string :=
  match e with
  | NoApplicationManifest => "Zip must contain an Application firmware manifest."
  | NoFirmwareFiles => "Could not auto-detect firmware files in ZIP."
  | StartDfuFailed => "Start DFU sequence failed"
  | InitPacketFailed s => "Init Packet failed. Status: " ++ str_of_Z s
  | UploadFailed s => "Upload failed. Status: " ++ str_of_Z s
  | ValidationFailed s => "Validation failed. Status: " ++ str_of_Z s
  | DeviceNotFound => "Device not found."
  | BootloaderNotFound => "Could not locate DFU Bootloader device."
  end%string.

Inductive exn :=
| DfuException (e : dfu_error)
| Transport (e : transport_error)
| AsyncTimeoutError
| FileNotFoundError
| BadZipFile
| JSONDecodeError
| KeyError
| TypeError
| AttributeError
| StructError
| ValueError
| SystemExit (code : Z).

(** [except Exception] catches everything but [SystemExit]. *)
Definition is_Exception (e : exn) : bool :=
  match e with
  | SystemExit _ => false
  | _ => true
  end.

Definition is_DfuException (e : exn) : bool :=
  match e with
  | DfuException _ => true
  | _ => false
  end.

Definition is_BleakError (e : exn) : bool :=
  match e with
  | Transport (BleakError _) => true
  | _ => false
  end.

(** ** Data *)

(** A decoded JSON document ([json.load]); an object keeps its members in
    document order, later duplicates of a key win on lookup. *)
Inductive json :=
| JNull
| JBool (b : bool)
| JNum (n : Z)
| JStr (s : string)
| JArr (xs : list json)
| JObj (members : list (string * json)).

Record BLEDevice := mkDevice {
  address : string;
  name : option string }.

Record AdvertisementData := mkAdv {
  local_name : option string;
  service_uuids : list string }.

Inductive stdout_msg :=
| Uploading (sent total : nat)   (* "\rUploading: {int((sent / total) * 100)}%" *)
| Uploading100.                  (* "\rUploading: 100%\n" *)

Inductive event :=
| EvFindByAddress (id : string) (timeout : Z)
| EvDiscover (timeout : Z)
| EvConnect (addr : string)
| EvDisconnect (addr : string)
| EvStartNotify (uuid : string)
| EvWrite (uuid : string) (payload : bytes) (response : bool)
| EvSleep (ms : Z)
| EvQueueGet (timeout : Z)       (* wait_for(response_queue.get(), timeout) *)
| EvReceiptClear                 (* pkg_receipt_event.clear() *)
| EvReceiptWait (timeout : Z)    (* wait_for(pkg_receipt_event.wait(), timeout) *)
| EvStdout (m : stdout_msg).

(** The mutable object [self]. *)
Record NordicLegacyDFU := mkDFU {
  zip_path : string;
  prn : Z;
  packet_delay : Z;
  adapter : option string;
  manifest : option json;
  bin_data : option bytes;
  dat_data : option bytes;
  client : option BLEDevice;
  response_queue : list (byte * byte);
  pkg_receipt_event : bool;
  bytes_sent : nat }.

(** [NordicLegacyDFU.__init__] *)
Definition new_dfu (zip : string) (prn : Z) (delay : Z) (adapter : option string)
  : NordicLegacyDFU :=
  mkDFU zip prn delay adapter None None None None [] false 0.

Definition set_manifest v (o : NordicLegacyDFU) :=
  mkDFU (zip_path o) (prn o) (packet_delay o) (adapter o) v (bin_data o)
        (dat_data o) (client o) (response_queue o) (pkg_receipt_event o) (bytes_sent o).
Definition set_bin_data v (o : NordicLegacyDFU) :=
  mkDFU (zip_path o) (prn o) (packet_delay o) (adapter o) (manifest o) v
        (dat_data o) (client o) (response_queue o) (pkg_receipt_event o) (bytes_sent o).
Definition set_dat_data v (o : NordicLegacyDFU) :=
  mkDFU (zip_path o) (prn o) (packet_delay o) (adapter o) (manifest o) (bin_data o)
        v (client o) (response_queue o) (pkg_receipt_event o) (bytes_sent o).
Definition set_client v (o : NordicLegacyDFU) :=
  mkDFU (zip_path o) (prn o) (packet_delay o) (adapter o) (manifest o) (bin_data o)
        (dat_data o) v (response_queue o) (pkg_receipt_event o) (bytes_sent o).
Definition set_response_queue v (o : NordicLegacyDFU) :=
  mkDFU (zip_path o) (prn o) (packet_delay o) (adapter o) (manifest o) (bin_data o)
        (dat_data o) (client o) v (pkg_receipt_event o) (bytes_sent o).
Definition set_pkg_receipt_event v (o : NordicLegacyDFU) :=
  mkDFU (zip_path o) (prn o) (packet_delay o) (adapter o) (manifest o) (bin_data o)
        (dat_data o) (client o) (response_queue o) v (bytes_sent o).
Definition set_bytes_sent v (o : NordicLegacyDFU) :=
  mkDFU (zip_path o) (prn o) (packet_delay o) (adapter o) (manifest o) (bin_data o)
        (dat_data o) (client o) (response_queue o) (pkg_receipt_event o) v.

(** ** The environment *)

(** What happens during one suspension. *)
Record reply := mkReply {
  fault : option transport_error;   (* the awaited transport call raises *)
  notes : list bytes;               (* notifications delivered meanwhile *)
  found : option BLEDevice;         (* answer of a lookup by address *)
  scanned : list (BLEDevice * AdvertisementData) }.  (* answer of a sweep *)

Definition quiet : reply := mkReply None [] None [].
Definition fails (e : transport_error) : reply := mkReply (Some e) [] None [].
Definition notifies (ns : list bytes) : reply := mkReply None ns None [].
Definition sees (ds : list (BLEDevice * AdvertisementData)) : reply :=
  mkReply None [] None ds.

Record world := mkWorld {
  self : NordicLegacyDFU;
  future : list reply;
  trace : list event }.

(** ** A state and exception monad over [world] *)

Inductive result (A : Type) :=
| Ok (a : A)
| Raise (e : exn).
Arguments Raise {A} e.

Definition M (A : Type) := world -> result A * world.

Definition ret {A} (a : A) : M A := fun w => (Ok a, w).
Definition raise {A} (e : exn) : M A := fun w => (Raise e, w).
Definition bind {A B} (m : M A) (k : A -> M B) : M B :=
  fun w => match m w with
           | (Ok a, w') => k a w'
           | (Raise e, w') => (Raise e, w')
           end.

(** [try: m except <class selected by sel> as e: h e] *)
Definition try_except {A} (sel : exn -> bool) (m : M A) (h : exn -> M A) : M A :=
  fun w => match m w with
           | (Ok a, w') => (Ok a, w')
           | (Raise e, w') => if sel e then h e w' else (Raise e, w')
           end.

Declare Scope dfu_scope.
Delimit Scope dfu_scope with dfu.
Notation "x <- m ;; k" := (bind m (fun x => k))
  (at level 61, m at next level, right associativity) : dfu_scope.
Notation "m ;; k" := (bind m (fun _ => k))
  (at level 61, right associativity) : dfu_scope.
Local Open Scope dfu_scope.

Definition get_self : M NordicLegacyDFU := fun w => (Ok (self w), w).
Definition modify_self (f : NordicLegacyDFU -> NordicLegacyDFU) : M unit :=
  fun w => (Ok tt, mkWorld (f (self w)) (future w) (trace w)).
Definition emit (e : event) : M unit :=
  fun w => (Ok tt, mkWorld (self w) (future w) (trace w ++ [e])).

(** ** Notifications *)

(** [_notification_handler]: a status notification [0x10 op status] is
    queued, a receipt notification [0x11 ...] sets the receipt event.  A
    payload too short for the bytes it reads ends the handler task with an
    [IndexError] that reaches nobody, so the object stays as it was. *)
Definition _notification_handler (data : bytes) (o : NordicLegacyDFU)
  : NordicLegacyDFU :=
  match nth_error data 0 with
  | None => o
  | Some opcode =>
      if Byte.eqb opcode OP_CODE_RESPONSE_CODE then
        match nth_error data 1, nth_error data 2 with
        | Some request_op, Some status =>
            set_response_queue (response_queue o ++ [(request_op, status)]) o
        | _, _ => o
        end
      else if Byte.eqb opcode OP_CODE_PACKET_RECEIPT_NOTIF then
        set_pkg_receipt_event true o
      else o
  end.

Definition deliver (ns : list bytes) (o : NordicLegacyDFU) : NordicLegacyDFU :=
  fold_left (fun o data => _notification_handler data o) ns o.

(** One [await]: the next reply of the script is consumed and its
    notifications are handled before the awaiting code resumes. *)
Definition suspend : M reply :=
  fun w => match future w with
           | [] => (Ok quiet, w)
           | r :: rest => (Ok r, mkWorld (deliver (notes r) (self w)) rest (trace w))
           end.

(** An awaited transport call. *)
Definition transport (e : event) : M reply :=
  emit e ;;
  r <- suspend ;;
  match fault r with
  | Some err => raise (Transport err)
  | None => ret r
  end.

Definition write_gatt_char (uuid : string) (payload : bytes) (response : bool)
  : M unit :=
  transport (EvWrite uuid payload response) ;; ret tt.

Definition start_notify (uuid : string) : M unit :=
  transport (EvStartNotify uuid) ;; ret tt.

(** [asyncio.sleep] *)
Definition sleep (ms : Z) : M unit :=
  emit (EvSleep ms) ;; suspend ;; ret tt.

(** [async with BleakClient(device, ...) as client: body client]: connect,
    run the body, disconnect on every way out of the body.  An error of the
    disconnect replaces the outcome of the body. *)
Definition with_client {A} (device : BLEDevice) (body : BLEDevice -> M A) : M A :=
  transport (EvConnect (address device)) ;;
  fun w => match body device w with
           | (r, w') =>
               match transport (EvDisconnect (address device)) w' with
               | (Ok _, w'') => (r, w'')
               | (Raise e, w'') => (Raise e, w'')
               end
           end.

(** ** Response Correlator *)

(** [asyncio.wait_for(self.response_queue.get(), timeout)].  With a
    timeout of zero or less [wait_for] cancels the [get] before it has
    run: nothing is taken from the queue, also when an event is pending,
    and the wait times out.  With a positive timeout the oldest event
    pending when the wait is over is taken. *)
Definition queue_get (timeout : Z) : M (byte * byte) :=
  emit (EvQueueGet timeout) ;;
  suspend ;;
  if (timeout <=? 0)%Z then raise AsyncTimeoutError
  else
    o <- get_self ;;
    match response_queue o with
    | [] => raise AsyncTimeoutError
    | item :: rest => modify_self (set_response_queue rest) ;; ret item
    end.

Definition is_AsyncTimeout (e : exn) : bool :=
  match e with
  | AsyncTimeoutError => true
  | _ => false
  end.

(** [_wait_for_response(expected_op_code, timeout)] *)
Definition _wait_for_response (expected_op_code : byte) (timeout : Z) : M Z :=
  try_except is_AsyncTimeout
    (item <- queue_get timeout ;;
     let '(request_op, status) := item in
     if negb (Byte.eqb request_op expected_op_code) then ret (-1)%Z
     else if negb (Z.eqb (byte_val status) 1) then ret (byte_val status)
     else ret 1%Z)
    (fun _ => ret (-1)%Z).

(** ** Packet Streamer *)

Definition chunk_size : nat := 20.

(** [for x in xs: acc = body x acc] *)
Fixpoint for_each {A S} (xs : list A) (body : A -> S -> M S) (acc : S) : M S :=
  match xs with
  | [] => ret acc
  | x :: rest => acc' <- body x acc ;; for_each rest body acc'
  end.

(** [self.client.write_gatt_char(...)] *)
Definition client_write (uuid : string) (payload : bytes) (response : bool)
  : M unit :=
  o <- get_self ;;
  match client o with
  | None => raise AttributeError
  | Some _ => write_gatt_char uuid payload response
  end.

(** The wait on the receipt event of the streamer, timeout swallowed. *)
Definition receipt_wait : M unit :=
  emit EvReceiptClear ;;
  modify_self (set_pkg_receipt_event false) ;;
  try_except is_AsyncTimeout
    (emit (EvReceiptWait 5000) ;;
     suspend ;;
     o <- get_self ;;
     if pkg_receipt_event o then ret tt else raise AsyncTimeoutError)
    (fun _ => ret tt).

(** One turn of the loop of [_stream_firmware]; the accumulator is
    [packets_since_prn]. *)
Definition stream_chunk (data : bytes) (total_bytes : nat) (i : nat)
           (packets_since_prn : nat) : M nat :=
  let chunk := slice data i (i + chunk_size) in
  client_write DFU_PACKET_UUID chunk false ;;
  modify_self (fun o => set_bytes_sent (bytes_sent o + length chunk) o) ;;
  let packets_since_prn := packets_since_prn + 1 in
  (if i mod 2000 =? 0
   then o <- get_self ;; emit (EvStdout (Uploading (bytes_sent o) total_bytes))
   else ret tt) ;;
  o <- get_self ;;
  if ((0 <? prn o)%Z && (prn o <=? Z.of_nat packets_since_prn)%Z)%bool
  then receipt_wait ;; ret 0
  else ret packets_since_prn.

Definition _stream_firmware : M unit :=
  o <- get_self ;;
  match bin_data o with
  | None => raise TypeError          (* len(None) *)
  | Some data =>
      let total_bytes := length data in
      modify_self (set_bytes_sent 0) ;;
      for_each (range 0 total_bytes chunk_size) (stream_chunk data total_bytes) 0 ;;
      emit (EvStdout Uploading100)
  end.

(** ** Update State Machine *)

Definition byte_of_Z (z : Z) : byte :=
  match Byte.of_N (Z.to_N (z mod 256)) with
  | Some b => b
  | None => x00
  end.

(** [struct.pack] of one unsigned little-endian field of [k] bytes. *)
Definition le_bytes (k : nat) (n : Z) : bytes :=
  map (fun i => byte_of_Z (Z.shiftr n (8 * Z.of_nat i))) (seq 0 k).

Definition pack_uint (k : nat) (n : Z) : M bytes :=
  if ((0 <=? n)%Z && (n <? 2 ^ (8 * Z.of_nat k))%Z)%bool
  then ret (le_bytes k n)
  else raise StructError.

(** [while not self.response_queue.empty(): self.response_queue.get_nowait()] *)
Fixpoint drain (q : list (byte * byte)) : list (byte * byte) :=
  match q with
  | [] => []
  | _ :: rest => drain rest
  end.

(** STABILIZE: subscribe, then empty the queue. *)
Definition stabilize : M unit :=
  start_notify DFU_CONTROL_POINT_UUID ;;
  modify_self (fun o => set_response_queue (drain (response_queue o)) o).

(** STEP 1 up to the status of the start command. *)
Definition start_dfu : M Z :=
  write_gatt_char DFU_CONTROL_POINT_UUID
                  [OP_CODE_START_DFU; UPLOAD_MODE_APPLICATION] true ;;
  o <- get_self ;;
  (if (0 <? packet_delay o)%Z then sleep (packet_delay o) else ret tt) ;;
  o <- get_self ;;
  match bin_data o with
  | None => raise TypeError
  | Some data =>
      sd <- pack_uint 4 0 ;;
      bl <- pack_uint 4 0 ;;
      app <- pack_uint 4 (Z.of_nat (length data)) ;;
      write_gatt_char DFU_PACKET_UUID (sd ++ bl ++ app) false ;;
      _wait_for_response OP_CODE_START_DFU 60000
  end.

(** [if status != 1: <reset>; raise DfuException("Start DFU sequence failed")] *)
Definition start_dfu_check (status : Z) : M unit :=
  if negb (status =? 1)%Z then
    write_gatt_char DFU_CONTROL_POINT_UUID [OP_CODE_RESET] true ;;
    raise (DfuException StartDfuFailed)
  else ret tt.

(** STEP 2 *)
Definition init_packet : M unit :=
  write_gatt_char DFU_CONTROL_POINT_UUID [OP_CODE_INIT_DFU_PARAMS; x00] true ;;
  o <- get_self ;;
  match dat_data o with
  | None => raise TypeError
  | Some dat =>
      write_gatt_char DFU_PACKET_UUID dat false ;;
      write_gatt_char DFU_CONTROL_POINT_UUID [OP_CODE_INIT_DFU_PARAMS; x01] true ;;
      status <- _wait_for_response OP_CODE_INIT_DFU_PARAMS 30000 ;;
      if negb (status =? 1)%Z then raise (DfuException (InitPacketFailed status))
      else ret tt
  end.

(** STEP 3 *)
Definition configure_prn : M unit :=
  o <- get_self ;;
  if (0 <? prn o)%Z then
    interval <- pack_uint 2 (prn o) ;;
    write_gatt_char DFU_CONTROL_POINT_UUID
                    (OP_CODE_PACKET_RECEIPT_NOTIF_REQ :: interval) true
  else ret tt.

(** STEP 4 *)
Definition receive_firmware : M unit :=
  write_gatt_char DFU_CONTROL_POINT_UUID [OP_CODE_RECEIVE_FIRMWARE_IMAGE] true.

(** STEP 6 *)
Definition check_upload : M unit :=
  status <- _wait_for_response OP_CODE_RECEIVE_FIRMWARE_IMAGE 30000 ;;
  if negb (status =? 1)%Z then raise (DfuException (UploadFailed status))
  else ret tt.

(** STEP 7 *)
Definition validate : M unit :=
  write_gatt_char DFU_CONTROL_POINT_UUID [OP_CODE_VALIDATE] true ;;
  status <- _wait_for_response OP_CODE_VALIDATE 30000 ;;
  if negb (status =? 1)%Z then raise (DfuException (ValidationFailed status))
  else ret tt.

(** STEP 8: the write sits in [try: ... except Exception: pass]. *)
Definition activate_and_reset : M unit :=
  try_except is_Exception
    (write_gatt_char DFU_CONTROL_POINT_UUID [OP_CODE_ACTIVATE_AND_RESET] true)
    (fun _ => ret tt).

(** Steps 2 to 7, run once the start status is 1. *)
Definition transfer : M unit :=
  init_packet ;;
  configure_prn ;;
  receive_firmware ;;
  _stream_firmware ;;
  check_upload ;;
  validate.

(** The block under [async with BleakClient(...) as client] in
    [perform_update], up to its [return]. *)
Definition dfu_session (client : BLEDevice) : M unit :=
  modify_self (set_client (Some client)) ;;
  stabilize ;;
  status <- start_dfu ;;
  start_dfu_check status ;;
  transfer ;;
  activate_and_reset.

(** One turn of [for attempt in range(max_retries)] without its handler. *)
Definition dfu_attempt (device : BLEDevice) : M unit :=
  with_client device dfu_session.

(** The loop of [perform_update]: [true] from the [try] stands for its
    [return]; the handler sleeps 3 s before the next turn, or ends the
    process on the last one. *)
Fixpoint retry_loop (device : BLEDevice) (max_retries : Z) (attempts : list Z)
  : M unit :=
  match attempts with
  | [] => ret tt
  | attempt :: rest =>
      returned <- try_except is_Exception
                    (dfu_attempt device ;; ret true)
                    (fun _ =>
                       if (attempt <? max_retries - 1)%Z
                       then sleep 3000 ;; ret false
                       else raise (SystemExit 1)) ;;
      if returned : bool then ret tt else retry_loop device max_retries rest
  end.

(** [perform_update] with its local [max_retries] as a parameter. *)
Definition perform_update_with (max_retries : Z) (device : BLEDevice) : M unit :=
  retry_loop device max_retries (map Z.of_nat (seq 0 (Z.to_nat max_retries))).

Definition perform_update (device : BLEDevice) : M unit :=
  perform_update_with 3 device.

(** [jump_to_bootloader] *)
Definition jump_to_bootloader (device : BLEDevice) : M unit :=
  try_except is_Exception
    (with_client device (fun client =>
       start_notify DFU_CONTROL_POINT_UUID ;;
       try_except is_Exception
         (write_gatt_char DFU_CONTROL_POINT_UUID
                          [OP_CODE_ENTER_BOOTLOADER; UPLOAD_MODE_APPLICATION] true)
         (fun _ => ret tt) ;;
       sleep 500))
    (fun _ => ret tt).

(** ** Strings (ASCII) *)

Module Str.

Definition upper_char (c : ascii) : ascii :=
  let n := nat_of_ascii c in
  if ((97 <=? n) && (n <=? 122))%bool then ascii_of_nat (n - 32) else c.

Definition lower_char (c : ascii) : ascii :=
  let n := nat_of_ascii c in
  if ((65 <=? n) && (n <=? 90))%bool then ascii_of_nat (n + 32) else c.

Fixpoint map_string (f : ascii -> ascii) (s : string) : string :=
  match s with
  | EmptyString => EmptyString
  | String c rest => String (f c) (map_string f rest)
  end.

(** [s.upper()] and [s.lower()] *)
Definition upper := map_string upper_char.
Definition lower := map_string lower_char.

(** [sub in s] *)
Fixpoint contains (sub s : string) : bool :=
  (String.prefix sub s
   || match s with
      | EmptyString => false
      | String _ rest => contains sub rest
      end)%bool.

(** [s.endswith(suf)] *)
Definition ends_with (suf s : string) : bool :=
  ((String.length suf <=? String.length s)
   && String.eqb (substring (String.length s - String.length suf)
                            (String.length suf) s) suf)%bool.

(** [s[:-2]] and [s[-2:]] *)
Definition drop_last2 (s : string) : string :=
  substring 0 (String.length s - 2) s.
Definition last2 (s : string) : string :=
  substring (String.length s - 2) 2 s.

Definition hex_digit (c : ascii) : option Z :=
  let n := nat_of_ascii c in
  if ((48 <=? n) && (n <=? 57))%bool then Some (Z.of_nat (n - 48))
  else if ((65 <=? n) && (n <=? 70))%bool then Some (Z.of_nat (n - 55))
  else if ((97 <=? n) && (n <=? 102))%bool then Some (Z.of_nat (n - 87))
  else None.

(** The characters [str.strip()] removes, among ASCII. *)
Definition is_space (c : ascii) : bool :=
  let n := nat_of_ascii c in
  (((9 <=? n) && (n <=? 13)) || ((28 <=? n) && (n <=? 32)))%bool.

Fixpoint lstrip (cs : list ascii) : list ascii :=
  match cs with
  | c :: rest => if is_space c then lstrip rest else cs
  | [] => []
  end.

Definition strip (cs : list ascii) : list ascii :=
  rev (lstrip (rev (lstrip cs))).

(** Digits with single underscores between them. *)
Fixpoint digits16 (acc : Z) (after_underscore : bool) (cs : list ascii)
  : option Z :=
  match cs with
  | [] => if after_underscore then None else Some acc
  | c :: rest =>
      if Ascii.eqb c "_"
      then if after_underscore then None else digits16 acc true rest
      else match hex_digit c with
           | Some d => digits16 (16 * acc + d) false rest
           | None => None
           end
  end.

(** [int(s, 16)]; [None] is the [ValueError].  Blanks around the number,
    a sign and the prefix [0x] are accepted as Python accepts them. *)
Definition int16 (s : string) : option Z :=
  let cs := strip (list_ascii_of_string s) in
  let '(negative, cs) :=
    match cs with
    | c :: rest =>
        if Ascii.eqb c "+" then (false, rest)
        else if Ascii.eqb c "-" then (true, rest)
        else (false, cs)
    | [] => (false, cs)
    end in
  let cs :=
    match cs with
    | z :: x :: rest =>
        if (Ascii.eqb z "0" && (Ascii.eqb x "x" || Ascii.eqb x "X"))%bool
        then match rest with
             | u :: rest' => if Ascii.eqb u "_" then rest' else rest
             | [] => rest
             end
        else cs
    | _ => cs
    end in
  match cs with
  | [] => None
  | c :: _ =>
      if Ascii.eqb c "_" then None
      else option_map (fun v => if negative : bool then (- v)%Z else v)
                      (digits16 0 false cs)
  end.

Definition hex_char (d : Z) : ascii :=
  if (d <? 10)%Z then ascii_of_nat (48 + Z.to_nat d)
  else ascii_of_nat (55 + Z.to_nat d).

(** [f"{n:02X}"] for [0 <= n < 256] *)
Definition format_02X (n : Z) : string :=
  String (hex_char (n / 16)) (String (hex_char (n mod 16)) EmptyString).

End Str.

(** ** Device Locator *)

(** The loop of [find_device] over [scanned_devices.items()]: the result
    is [target] when the loop ends. *)
Fixpoint scan_loop (name_or_address : string) (service_uuid : option string)
         (items : list (BLEDevice * AdvertisementData)) : option BLEDevice :=
  match items with
  | [] => None
  | (d, adv) :: rest =>
      if String.eqb (Str.upper (address d)) (Str.upper name_or_address)
      then Some d
      else
        let adv_name :=
          match or_else (or_else (local_name adv) (name d)) (Some ""%string) with
          | Some s => s
          | None => ""%string
          end in
        if String.eqb adv_name name_or_address then Some d
        else
          match service_uuid with
          | Some u =>
              if (truthy service_uuid
                  && existsb (String.eqb (Str.lower u))
                             (map Str.lower (service_uuids adv)))%bool
              then Some d
              else scan_loop name_or_address service_uuid rest
          | None => scan_loop name_or_address service_uuid rest
          end
  end.

Definition find_device (name_or_address : string) (force_scan : bool)
           (adapter service_uuid : option string) : M BLEDevice :=
  direct <-
    (if (negb force_scan && negb (truthy adapter))%bool
     then try_except is_BleakError
            (r <- transport (EvFindByAddress name_or_address 10000) ;;
             ret (found r))
            (fun _ => ret None)
     else ret None) ;;
  match direct with
  | Some device => ret device
  | None =>
      r <- transport (EvDiscover 5000) ;;
      match scan_loop name_or_address service_uuid (scanned r) with
      | None => raise (DfuException DeviceNotFound)
      | Some target => ret target
      end
  end.

(** ** Bootloader rediscovery in [main] *)

(** The candidate address computed in [main]; [None] when the guard on
    the address fails or [int] raises. *)
Definition bootloader_mac_hint (original_mac : string) : option string :=
  if (Str.contains ":" original_mac && (String.length original_mac =? 17))%bool
  then
    let prefix := Str.drop_last2 original_mac in
    match Str.int16 (Str.last2 original_mac) with
    | None => None
    | Some last_byte =>
        let last_byte := Z.land (last_byte + 1) 255 in
        Some (prefix ++ Str.format_02X last_byte)%string
    end
  else None.

(** Lines 349 to 369 of [main]: the scan by service UUID, then the hint. *)
Definition locate_bootloader (app_device : BLEDevice) (adapter : option string)
  : M BLEDevice :=
  bootloader_device <-
    try_except is_DfuException
      (d <- find_device "DFU" true adapter (Some DFU_SERVICE_UUID) ;; ret (Some d))
      (fun _ => ret None) ;;
  bootloader_device <-
    match bootloader_device with
    | Some d => ret (Some d)
    | None =>
        match bootloader_mac_hint (address app_device) with
        | Some hint =>
            try_except (fun _ => true)
              (d <- find_device hint true adapter None ;; ret (Some d))
              (fun _ => ret None)
        | None => ret None
        end
    end ;;
  match bootloader_device with
  | Some d => ret d
  | None => raise (DfuException BootloaderNotFound)
  end.

(** ** Firmware Package *)

(** What [zip_path] names on disk.  A member of an archive that cannot be
    read back (bad CRC, unsupported compression) holds [None]. *)
Inductive file :=
| Absent
| NotAZip
| Zip (members : list (string * option bytes)).

Section Loader.

(** The file system and [json.load], both outside the program. *)
Variable disk : string -> file.
Variable json_load : bytes -> option json.

Definition namelist (members : list (string * option bytes)) : list string :=
  map fst members.

(** The last member of that name, as [ZipFile.getinfo] finds it. *)
Definition getinfo (members : list (string * option bytes)) (name : string)
  : option (option bytes) :=
  option_map snd (find (fun m => String.eqb (fst m) name) (rev members)).

(** [z.read(name)] for a name taken from the manifest. *)
Definition zread (members : list (string * option bytes)) (name : json)
  : result bytes :=
  match name with
  | JStr s =>
      match getinfo members s with
      | None => Raise KeyError
      | Some None => Raise BadZipFile
      | Some (Some content) => Ok content
      end
  | JArr _ | JObj _ => Raise TypeError      (* unhashable *)
  | _ => Raise KeyError
  end.

(** [key in j] *)
Definition py_in (key : string) (j : json) : result bool :=
  match j with
  | JObj members => Ok (existsb (fun m => String.eqb (fst m) key) members)
  | JArr xs =>
      Ok (existsb (fun x => match x with
                            | JStr s => String.eqb s key
                            | _ => false
                            end) xs)
  | JStr s => Ok (Str.contains key s)
  | _ => Raise TypeError
  end.

(** [j[key]] for a string key *)
Definition py_getitem (j : json) (key : string) : result json :=
  match j with
  | JObj members =>
      match find (fun m => String.eqb (fst m) key) (rev members) with
      | Some (_, v) => Ok v
      | None => Raise KeyError
      end
  | _ => Raise TypeError
  end.

Definition lift {A} (r : result A) : M A := fun w => (r, w).

(** [next((f for f in files if f.endswith(ext) and 'application' in f.lower()), None)] *)
Definition first_application (ext : string) (files : list string)
  : option string :=
  find (fun f => (Str.ends_with ext f
                  && Str.contains "application" (Str.lower f))%bool) files.

Definition parse_zip : M unit :=
  o <- get_self ;;
  match disk (zip_path o) with
  | Absent => raise FileNotFoundError
  | NotAZip => raise BadZipFile
  | Zip z =>
      if existsb (String.eqb "manifest.json") (namelist z) then
        raw <- lift (zread z (JStr "manifest.json")) ;;
        match json_load raw with
        | None => raise JSONDecodeError
        | Some m =>
            modify_self (set_manifest (Some m)) ;;
            has_manifest <- lift (py_in "manifest" m) ;;
            has_application <-
              (if has_manifest : bool
               then inner <- lift (py_getitem m "manifest") ;;
                    lift (py_in "application" inner)
               else ret false) ;;
            if has_application : bool then
              inner <- lift (py_getitem m "manifest") ;;
              app_info <- lift (py_getitem inner "application") ;;
              bin_file <- lift (py_getitem app_info "bin_file") ;;
              bin <- lift (zread z bin_file) ;;
              modify_self (set_bin_data (Some bin)) ;;
              dat_file <- lift (py_getitem app_info "dat_file") ;;
              dat <- lift (zread z dat_file) ;;
              modify_self (set_dat_data (Some dat))
            else raise (DfuException NoApplicationManifest)
        end
      else
        let files := namelist z in
        match first_application ".bin" files, first_application ".dat" files with
        | Some bin_file, Some dat_file =>
            bin <- lift (zread z (JStr bin_file)) ;;
            modify_self (set_bin_data (Some bin)) ;;
            dat <- lift (zread z (JStr dat_file)) ;;
            modify_self (set_dat_data (Some dat))
        | _, _ => raise (DfuException NoFirmwareFiles)
        end
  end.

End Loader.

(** ** Observations on runs *)

(** The fields no notification and no step of an update changes. *)
Definition config (o : NordicLegacyDFU) :=
  (zip_path o, prn o, packet_delay o, adapter o, bin_data o, dat_data o).

(** The reply the next suspension consumes, and the world after it. *)
Definition next_reply (w : world) : reply := hd quiet (future w).

Definition log (e : event) (w : world) : world :=
  mkWorld (self w) (future w) (trace w ++ [e]).

Definition advance (w : world) : world :=
  mkWorld (deliver (notes (next_reply w)) (self w)) (tl (future w)) (trace w).

Definition update_self (f : NordicLegacyDFU -> NordicLegacyDFU) (w : world) : world :=
  mkWorld (f (self w)) (future w) (trace w).

(** What a run from [w] to [w'] added to the trace. *)
Definition emitted (w w' : world) : list event :=
  skipn (length (trace w)) (trace w').

Definition no_faults (w : world) : Prop :=
  Forall (fun r => fault r = None) (future w).

(** Payloads written to the packet characteristic, in order. *)
Definition data_writes (tr : list event) : list bytes :=
  flat_map (fun e => match e with
                     | EvWrite uuid payload _ =>
                         if String.eqb uuid DFU_PACKET_UUID then [payload] else []
                     | _ => []
                     end) tr.

(** Payloads written to the control point, in order. *)
Definition control_writes (tr : list event) : list bytes :=
  flat_map (fun e => match e with
                     | EvWrite uuid payload _ =>
                         if String.eqb uuid DFU_CONTROL_POINT_UUID then [payload] else []
                     | _ => []
                     end) tr.

Definition is_receipt_wait (e : event) : bool :=
  match e with
  | EvReceiptWait _ => true
  | _ => false
  end.

Definition count_waits (tr : list event) : nat :=
  length (filter is_receipt_wait tr).

(** The discipline of the receipt protocol on a trace, for an interval [N]:
    never more than [N] writes since the last wait ([since] counts them),
    every wait is for at most 5 s and comes right after a clear, and
    every clear is followed by its wait. *)
Fixpoint flow (N : Z) (since : nat) (tr : list event) : bool :=
  match tr with
  | [] => true
  | EvWrite _ _ _ :: rest =>
      ((Z.of_nat (S since) <=? N)%Z && flow N (S since) rest)%bool
  | EvReceiptClear :: EvReceiptWait t :: rest =>
      ((t <=? 5000)%Z && flow N 0 rest)%bool
  | EvReceiptClear :: _ => false
  | EvReceiptWait _ :: _ => false
  | _ :: rest => flow N since rest
  end.

(** The image cut as the streamer cuts it. *)
Definition chunks (data : bytes) : list bytes :=
  map (fun i => slice data i (i + chunk_size)) (range 0 (length data) chunk_size).

(** The test of the streamer after a write: the interval is positive and
    [packets] chunks went out since the last wait. *)
Definition takes_receipt (N : Z) (packets : nat) : bool :=
  ((0 <? N)%Z && (N <=? Z.of_nat packets)%Z)%bool.

(** The events of the loop of [_stream_firmware] over the offsets [offs],
    entered with [acc] packets since the last wait and left with [r]: per
    offset one write, the progress lines, and the clear and wait when the
    interval is reached. *)
Inductive stream_shape (data : bytes) (N : Z)
  : nat -> list nat -> list event -> nat -> Prop :=
| shape_done acc : stream_shape data N acc [] [] acc
| shape_chunk acc i offs progress evs r :
    stream_shape data N (if takes_receipt N (acc + 1) then 0 else acc + 1) offs evs r ->
    stream_shape data N acc (i :: offs)
      (EvWrite DFU_PACKET_UUID (slice data i (i + chunk_size)) false
       :: map EvStdout progress
       ++ (if takes_receipt N (acc + 1)
           then [EvReceiptClear; EvReceiptWait 5000] else [])
       ++ evs) r.

(** ** Sample data for the worked runs *)

Definition sample_device : BLEDevice :=
  mkDevice "AA:BB:CC:DD:EE:FF" (Some "Target"%string).

(** An image of 41 bytes [00 01 ... 28]: two full chunks and one byte. *)
Definition sample_image : bytes :=
  map (fun n => byte_of_Z (Z.of_nat n)) (seq 0 41).

Definition sample_dat : bytes := [x01; x02; x03; x04].

(** A loaded and connected object with receipt interval [N]. *)
Definition sample_dfu (N : Z) : NordicLegacyDFU :=
  set_client (Some sample_device)
    (set_dat_data (Some sample_dat)
       (set_bin_data (Some sample_image) (new_dfu "fw.zip" N 0 None))).

Definition sample_world (N : Z) (script : list reply) : world :=
  mkWorld (sample_dfu N) script [].

(** A computation whose every raise is caught by [except Exception]. *)
Definition raises_Exceptions {A} (m : M A) : Prop :=
  forall w e w', m w = (Raise e, w') -> is_Exception e = true.

(** A status notification [0x10 op status]. *)
Definition status_note (op status : byte) : bytes :=
  [OP_CODE_RESPONSE_CODE; op; status].

(** The replies of a link on which one attempt on [sample_image] goes
    through (no start delay, no receipt interval): every call succeeds and
    each awaited status arrives as success.  The reply to the activate
    write is left open. *)
Definition good_script (activate : reply) : list reply :=
  [ quiet;                                              (* connect *)
    quiet;                                              (* start_notify *)
    quiet;                                              (* start DFU *)
    quiet;                                              (* image size *)
    notifies [status_note OP_CODE_START_DFU x01];
    quiet; quiet; quiet;                                (* init packet *)
    notifies [status_note OP_CODE_INIT_DFU_PARAMS x01];
    quiet;                                              (* receive firmware *)
    quiet; quiet; quiet;                                (* three chunks *)
    notifies [status_note OP_CODE_RECEIVE_FIRMWARE_IMAGE x01];
    quiet;                                              (* validate *)
    notifies [status_note OP_CODE_VALIDATE x01];
    activate;                                           (* activate and reset *)
    quiet ].                                            (* disconnect *)

(** The replies of a link on which the status of the start command never
    arrives; the reply to the reset write that follows is left open. *)
Definition start_timeout_script (reset : reply) : list reply :=
  [ quiet;      (* start_notify *)
    quiet;      (* start DFU *)
    quiet;      (* image size *)
    quiet;      (* the wait of 60 s: nothing arrives *)
    reset ].    (* reset *)

(** A computation that only appends to the trace. *)
Definition only_appends {A} (m : M A) : Prop :=
  forall w, exists evs, trace (snd (m w)) = trace w ++ evs.

(** [w] with another response queue. *)
Definition requeue (q : list (byte * byte)) (w : world) : world :=
  update_self (set_response_queue q) w.

(** The steps of [dfu_session] after STABILIZE. *)
Definition session_steps : M unit :=
  status <- start_dfu ;;
  start_dfu_check status ;;
  transfer ;;
  activate_and_reset.

(** The pause of [perform_update] between two attempts. *)
Definition backoff (w : world) : world := advance (log (EvSleep 3000) w).

(** The world after [k] attempts on [device] that all failed, each
    followed by the pause; [None] when one of them succeeded. *)
Fixpoint after_failures (device : BLEDevice) (k : nat) (w : world) : option world :=
  match k with
  | 0 => Some w
  | S k' =>
      match dfu_attempt device w with
      | (Raise _, w1) => after_failures device k' (backoff w1)
      | (Ok _, _) => None
      end
  end.

(** Does a lookup of the device follow every pause of 3 s? *)
Fixpoint relocates_after_backoff (tr : list event) : bool :=
  match tr with
  | [] => true
  | EvSleep ms :: rest =>
      ((if (ms =? 3000)%Z
        then match rest with
             | EvDiscover _ :: _ => true
             | EvFindByAddress _ _ :: _ => true
             | _ => false
             end
        else true)
       && relocates_after_backoff rest)%bool
  | _ :: rest => relocates_after_backoff rest
  end.

(** Two attempts that fail at the connect, then a good one. *)
Definition fail_fail_success_script : list reply :=
  [ fails (BleakError "not reachable"); quiet;     (* attempt 1, pause *)
    fails (BleakError "not reachable"); quiet ]    (* attempt 2, pause *)
  ++ good_script quiet.                            (* attempt 3 *)

(** An attempt that loses the link at the size write, after a receipt
    notification came in, then a good one. *)
Definition fail_success_script : list reply :=
  [ quiet;                                         (* connect *)
    quiet;                                         (* start_notify *)
    notifies [[OP_CODE_PACKET_RECEIPT_NOTIF; x14; x00; x00; x00]];
    fails (BleakError "link lost");                (* image size *)
    quiet;                                         (* disconnect *)
    quiet ]                                        (* pause *)
  ++ good_script quiet.

(** ** The criteria of the locator, one by one *)

Definition address_matches (id : string) (item : BLEDevice * AdvertisementData)
  : bool :=
  String.eqb (Str.upper (address (fst item))) (Str.upper id).

Definition name_matches (id : string) (item : BLEDevice * AdvertisementData)
  : bool :=
  String.eqb (match or_else (local_name (snd item)) (name (fst item)) with
              | Some s => s
              | None => ""%string
              end) id.

Definition service_matches (service_uuid : option string)
           (item : BLEDevice * AdvertisementData) : bool :=
  match service_uuid with
  | Some u =>
      (negb (String.eqb u "")
       && existsb (fun v => String.eqb (Str.lower u) (Str.lower v))
                  (service_uuids (snd item)))%bool
  | None => false
  end.

Definition matches (id : string) (service_uuid : option string)
           (item : BLEDevice * AdvertisementData) : bool :=
  (address_matches id item || name_matches id item
   || service_matches service_uuid item)%bool.

(** Selection by tiers over the whole scan result: a device matching by
    address if there is one, else one matching by name, else one matching
    by service. *)
Definition tiered_select (id : string) (service_uuid : option string)
           (items : list (BLEDevice * AdvertisementData)) : option BLEDevice :=
  match find (address_matches id) items with
  | Some item => Some (fst item)
  | None =>
      match find (name_matches id) items with
      | Some item => Some (fst item)
      | None => option_map fst (find (service_matches service_uuid) items)
      end
  end.

(** A bootloader that advertises the DFU service under another name,
    seen before a device named "DFU". *)
Definition sample_scan : list (BLEDevice * AdvertisementData) :=
  [ (mkDevice "11:22:33:44:55:66" (Some "Bootloader"%string),
     mkAdv (Some "Bootloader"%string) [DFU_SERVICE_UUID]);
    (mkDevice "AA:BB:CC:DD:EE:00" (Some "DFU"%string),
     mkAdv (Some "DFU"%string) []) ].

(** ** Addresses *)

Definition upper_hex (c : ascii) : bool :=
  existsb (Ascii.eqb c) (list_ascii_of_string "0123456789ABCDEF").

(** The octets of [hh:hh:...:hh], most significant digit first. *)
Fixpoint octets_of (cs : list ascii) : option (list Z) :=
  match cs with
  | [a; b] =>
      match Str.hex_digit a, Str.hex_digit b with
      | Some x, Some y => Some [16 * x + y]%Z
      | _, _ => None
      end
  | a :: b :: c :: rest =>
      if Ascii.eqb c ":" then
        match Str.hex_digit a, Str.hex_digit b, octets_of rest with
        | Some x, Some y, Some os => Some ((16 * x + y)%Z :: os)
        | _, _, _ => None
        end
      else None
  | _ => None
  end.

(** The octets of an address of 17 characters, six pairs of hexadecimal
    digits separated by colons. *)
Definition mac_octets (s : string) : option (list Z) :=
  if String.length s =? 17 then octets_of (list_ascii_of_string s) else None.

(** ** Sample packages *)

(** A package without a manifest, as the compatibility mode reads it. *)
Definition legacy_disk (image : bytes) (path : string) : file :=
  if String.eqb path "fw.zip"
  then Zip [ ("application.bin"%string, Some image);
             ("application.dat"%string, Some sample_dat) ]
  else Absent.

Definition sample_manifest : json :=
  JObj [ ("manifest"%string,
          JObj [ ("application"%string,
                  JObj [ ("bin_file"%string, JStr "app.bin");
                         ("dat_file"%string, JStr "app.dat") ]) ]) ].

(** A package with a manifest; the text of the manifest is not spelled
    out, the decoder below answers [sample_manifest] for it. *)
Definition manifest_disk (path : string) : file :=
  if String.eqb path "fw.zip"
  then Zip [ ("manifest.json"%string, Some [x7b; x7d]);
             ("app.bin"%string, Some sample_image);
             ("app.dat"%string, Some sample_dat) ]
  else Absent.

Definition sample_json_load (raw : bytes) : option json := Some sample_manifest.

Definition fresh_world : world :=
  mkWorld (new_dfu "fw.zip" 8 0 None) [] [].

(** ** The program *)

Section Main.

Variable disk : string -> file.
Variable json_load : bytes -> option json.

(** [main] of [dfu.py] after the command line is parsed and logging is
    set up: [args.file], [args.device], [args.scan], [args.adapter],
    [args.prn] and [args.delay] are the parameters.  The object built by
    [NordicLegacyDFU(...)] becomes [self]. *)
Definition main (file device : string) (scan : bool) (adapter : option string)
           (prn delay : Z) : M unit :=
  try_except is_Exception
    (modify_self (fun _ => new_dfu file prn delay adapter) ;;
     parse_zip disk json_load ;;
     app_device <- find_device device scan adapter None ;;
     jump_to_bootloader app_device ;;
     sleep 5000 ;;
     bootloader_device <- locate_bootloader app_device adapter ;;
     perform_update bootloader_device)
    (fun _ => raise (SystemExit 1)).

End Main.

(** ** Reading notifications and fields back *)

(** What a notification means to [_notification_handler]. *)
Inductive ControlEvent :=
| CommandStatus (request_op status : byte)
| ReceiptNotification.

Definition decode (data : bytes) : option ControlEvent :=
  match data with
  | opcode :: rest =>
      if Byte.eqb opcode OP_CODE_RESPONSE_CODE then
        match rest with
        | request_op :: status :: _ => Some (CommandStatus request_op status)
        | _ => None
        end
      else if Byte.eqb opcode OP_CODE_PACKET_RECEIPT_NOTIF
           then Some ReceiptNotification
           else None
  | [] => None
  end.

Definition statuses (ns : list bytes) : list (byte * byte) :=
  flat_map (fun data => match decode data with
                        | Some (CommandStatus op st) => [(op, st)]
                        | _ => []
                        end) ns.

Definition has_receipt (ns : list bytes) : bool :=
  existsb (fun data => match decode data with
                       | Some ReceiptNotification => true
                       | _ => false
                       end) ns.

(** The value of a little-endian field ([struct.unpack]). *)
Fixpoint le_value (bs : bytes) : Z :=
  match bs with
  | [] => 0
  | b :: rest => (byte_val b + 256 * le_value rest)%Z
  end.

Definition is_disconnect (e : event) : bool :=
  match e with
  | EvDisconnect _ => true
  | _ => false
  end.

(** A computation that only appends events satisfying [P]. *)
Definition emits_only (P : event -> Prop) {A} (m : M A) : Prop :=
  forall w, exists evs, trace (snd (m w)) = trace w ++ evs /\ Forall P evs.

(** Events of a session: all but those of the connection and the lookups. *)
Definition session_event (e : event) : Prop :=
  match e with
  | EvConnect _ | EvDisconnect _ | EvFindByAddress _ _ | EvDiscover _ => False
  | _ => True
  end.

(** A link on which the whole of [main] goes through for [sample_device]:
    found by address, jump, reboot, bootloader seen with the DFU service
    under the next address, one good attempt. *)
Definition sample_bootloader : BLEDevice :=
  mkDevice "AA:BB:CC:DD:EE:00" (Some "DfuTarg"%string).

Definition full_run_script : list reply :=
  [ mkReply None [] (Some sample_device) [];              (* lookup by address *)
    quiet; quiet; quiet; quiet; quiet;                    (* the jump *)
    quiet;                                                (* 5 s *)
    sees [(sample_bootloader, mkAdv (Some "DfuTarg"%string) [DFU_SERVICE_UUID])] ]
  ++ good_script quiet.

(** A run from [w] to [w'] that added [evs] to the trace and left the
    configuration and the client as they were. *)
Definition runs_to (w w' : world) (evs : list event) : Prop :=
  trace w' = trace w ++ evs
  /\ config (self w') = config (self w)
  /\ client (self w') = client (self w).

(** An event other than the write of the activate-and-reset command. *)
Definition not_activate (e : event) : Prop :=
  e <> EvWrite DFU_CONTROL_POINT_UUID [OP_CODE_ACTIVATE_AND_RESET] true.

(** An event other than the write of the reset command. *)
Definition not_reset (e : event) : Prop :=
  e <> EvWrite DFU_CONTROL_POINT_UUID [OP_CODE_RESET] true.

(** The progress lines among the events: what was sent and the total. *)
Definition progress_lines (evs : list event) : list (nat * nat) :=
  flat_map (fun e => match e with
                     | EvStdout (Uploading sent total) => [(sent, total)]
                     | _ => []
                     end) evs.

(** * Properties *)

Unset Implicit Arguments.

(** ** The monad and its primitives *)

Lemma deliver_nil o : deliver [] o = o.
Proof. reflexivity. Qed.

Lemma deliver_cons n ns o :
  deliver (n :: ns) o = deliver ns (_notification_handler n o).
Proof. reflexivity. Qed.

Lemma suspend_run w : suspend w = (Ok (next_reply w), advance w).
Proof.
  destruct w as [o fut tr]. unfold suspend, next_reply, advance.
  destruct fut as [|r rest]; reflexivity.
Qed.

Lemma transport_run e w :
  transport e w =
  (match fault (next_reply w) with
   | Some err => Raise (Transport err)
   | None => Ok (next_reply w)
   end, advance (log e w)).
Proof.
  unfold transport, bind, emit. rewrite suspend_run.
  change (next_reply {| self := self w; future := future w; trace := trace w ++ [e] |})
    with (next_reply w).
  destruct (fault (next_reply w)); reflexivity.
Qed.

Lemma write_run uuid payload response w :
  write_gatt_char uuid payload response w =
  (match fault (next_reply w) with
   | Some err => Raise (Transport err)
   | None => Ok tt
   end, advance (log (EvWrite uuid payload response) w)).
Proof.
  unfold write_gatt_char, bind. rewrite transport_run.
  destruct (fault (next_reply w)); reflexivity.
Qed.

Lemma start_notify_run uuid w :
  start_notify uuid w =
  (match fault (next_reply w) with
   | Some err => Raise (Transport err)
   | None => Ok tt
   end, advance (log (EvStartNotify uuid) w)).
Proof.
  unfold start_notify, bind. rewrite transport_run.
  destruct (fault (next_reply w)); reflexivity.
Qed.

Lemma sleep_run ms w : sleep ms w = (Ok tt, advance (log (EvSleep ms) w)).
Proof. unfold sleep, bind, emit. rewrite suspend_run. reflexivity. Qed.

Lemma queue_get_run timeout w :
  queue_get timeout w =
  let w1 := advance (log (EvQueueGet timeout) w) in
  if (timeout <=? 0)%Z then (Raise AsyncTimeoutError, w1)
  else
    match response_queue (self w1) with
    | [] => (Raise AsyncTimeoutError, w1)
    | item :: rest => (Ok item, update_self (set_response_queue rest) w1)
    end.
Proof.
  unfold queue_get, bind, emit. rewrite suspend_run. unfold get_self.
  fold (log (EvQueueGet timeout) w).
  destruct (timeout <=? 0)%Z; [reflexivity|].
  destruct (response_queue (self (advance (log (EvQueueGet timeout) w))));
    reflexivity.
Qed.

Lemma receipt_wait_run w :
  receipt_wait w =
  (Ok tt, advance (log (EvReceiptWait 5000)
                       (update_self (set_pkg_receipt_event false)
                                    (log EvReceiptClear w)))).
Proof.
  unfold receipt_wait, bind, emit, modify_self, try_except. rewrite suspend_run.
  unfold get_self.
  match goal with
  | |- context [pkg_receipt_event (self ?x)] =>
      destruct (pkg_receipt_event (self x))
  end; reflexivity.
Qed.

(** ** What notifications leave alone *)

Lemma handler_cases data o :
  _notification_handler data o = o
  \/ (exists op st, _notification_handler data o
                    = set_response_queue (response_queue o ++ [(op, st)]) o)
  \/ _notification_handler data o = set_pkg_receipt_event true o.
Proof.
  unfold _notification_handler.
  destruct (nth_error data 0) as [opcode|]; [|now left].
  destruct (Byte.eqb opcode OP_CODE_RESPONSE_CODE).
  - destruct (nth_error data 1) as [op|]; [|now left].
    destruct (nth_error data 2) as [st|]; [|now left].
    right; left; eauto.
  - destruct (Byte.eqb opcode OP_CODE_PACKET_RECEIPT_NOTIF); [now right; right|now left].
Qed.

Lemma handler_config data o : config (_notification_handler data o) = config o.
Proof.
  destruct (handler_cases data o) as [-> | [(op & st & ->) | ->]]; reflexivity.
Qed.

Lemma handler_client data o : client (_notification_handler data o) = client o.
Proof.
  destruct (handler_cases data o) as [-> | [(op & st & ->) | ->]]; reflexivity.
Qed.

Lemma handler_bytes_sent data o :
  bytes_sent (_notification_handler data o) = bytes_sent o.
Proof.
  destruct (handler_cases data o) as [-> | [(op & st & ->) | ->]]; reflexivity.
Qed.

Lemma deliver_config ns : forall o, config (deliver ns o) = config o.
Proof.
  induction ns as [|n ns IH]; intros o; [reflexivity|].
  rewrite deliver_cons, IH. apply handler_config.
Qed.

Lemma deliver_client ns : forall o, client (deliver ns o) = client o.
Proof.
  induction ns as [|n ns IH]; intros o; [reflexivity|].
  rewrite deliver_cons, IH. apply handler_client.
Qed.

Lemma deliver_bytes_sent ns : forall o, bytes_sent (deliver ns o) = bytes_sent o.
Proof.
  induction ns as [|n ns IH]; intros o; [reflexivity|].
  rewrite deliver_cons, IH. apply handler_bytes_sent.
Qed.

Lemma config_prn o o' : config o = config o' -> prn o = prn o'.
Proof. unfold config; congruence. Qed.

Lemma config_bin_data o o' : config o = config o' -> bin_data o = bin_data o'.
Proof. unfold config; congruence. Qed.

Lemma config_dat_data o o' : config o = config o' -> dat_data o = dat_data o'.
Proof. unfold config; congruence. Qed.

Lemma config_packet_delay o o' :
  config o = config o' -> packet_delay o = packet_delay o'.
Proof. unfold config; congruence. Qed.

Lemma advance_config w : config (self (advance w)) = config (self w).
Proof. apply deliver_config. Qed.

Lemma advance_client w : client (self (advance w)) = client (self w).
Proof. apply deliver_client. Qed.

Lemma advance_bytes_sent w : bytes_sent (self (advance w)) = bytes_sent (self w).
Proof. apply deliver_bytes_sent. Qed.

Lemma advance_trace w : trace (advance w) = trace w.
Proof. reflexivity. Qed.

Lemma advance_future w : future (advance w) = tl (future w).
Proof. reflexivity. Qed.

Lemma no_faults_tl w : no_faults w -> Forall (fun r => fault r = None) (tl (future w)).
Proof.
  unfold no_faults. destruct (future w); cbn [tl]; [auto|].
  intros H; now inversion H.
Qed.

Lemma no_faults_next w : no_faults w -> fault (next_reply w) = None.
Proof.
  unfold no_faults, next_reply. destruct (future w); cbn [hd]; [reflexivity|].
  intros H; now inversion H.
Qed.

Lemma emitted_app w w' evs : trace w' = trace w ++ evs -> emitted w w' = evs.
Proof.
  unfold emitted. intros ->.
  rewrite skipn_app, skipn_all, Nat.sub_diag. reflexivity.
Qed.

(** ** Packet Streamer *)

Lemma stream_chunk_run data total i acc w b :
  client (self w) = Some b ->
  stream_chunk data total i acc w =
  let chunk := slice data i (i + chunk_size) in
  let w1 := advance (log (EvWrite DFU_PACKET_UUID chunk false) w) in
  match fault (next_reply w) with
  | Some err => (Raise (Transport err), w1)
  | None =>
      let w2 := update_self (fun o => set_bytes_sent (bytes_sent o + length chunk) o) w1 in
      let w3 := if i mod 2000 =? 0
                then log (EvStdout (Uploading (bytes_sent (self w2)) total)) w2
                else w2 in
      if takes_receipt (prn (self w3)) (acc + 1)
      then (Ok 0, advance (log (EvReceiptWait 5000)
                               (update_self (set_pkg_receipt_event false)
                                            (log EvReceiptClear w3))))
      else (Ok (acc + 1), w3)
  end.
Proof.
  intros Hc. unfold stream_chunk, client_write, bind at 1 2. unfold get_self at 1.
  rewrite Hc, write_run.
  destruct (fault (next_reply w)); [reflexivity|].
  cbv zeta. unfold bind at 1. unfold modify_self at 1. fold (update_self (fun o => set_bytes_sent (bytes_sent o + length (slice data i (i + chunk_size))) o) (advance (log (EvWrite DFU_PACKET_UUID (slice data i (i + chunk_size)) false) w))).
  set (w2 := update_self _ _).
  unfold bind at 1.
  destruct (i mod 2000 =? 0).
  - unfold bind at 1, get_self at 1, emit at 1.
    fold (log (EvStdout (Uploading (bytes_sent (self w2)) total)) w2).
    set (w3 := log _ w2).
    unfold bind at 1, get_self at 1. unfold takes_receipt.
    destruct ((0 <? prn (self w3))%Z && (prn (self w3) <=? Z.of_nat (acc + 1))%Z)%bool.
    + unfold bind. rewrite receipt_wait_run. reflexivity.
    + reflexivity.
  - unfold ret at 1. set (w3 := w2).
    unfold bind at 1, get_self at 1. unfold takes_receipt.
    destruct ((0 <? prn (self w3))%Z && (prn (self w3) <=? Z.of_nat (acc + 1))%Z)%bool.
    + unfold bind. rewrite receipt_wait_run. reflexivity.
    + reflexivity.
Qed.

Lemma no_faults_advance w : no_faults w -> no_faults (advance w).
Proof. apply no_faults_tl. Qed.

Lemma stream_loop_shape data total :
  forall offs acc w b r w',
    client (self w) = Some b ->
    for_each offs (stream_chunk data total) acc w = (Ok r, w') ->
    exists evs,
      trace w' = trace w ++ evs
      /\ stream_shape data (prn (self w)) acc offs evs r
      /\ config (self w') = config (self w)
      /\ client (self w') = client (self w).
Proof.
  induction offs as [|i offs IH]; intros acc w b r w' Hc Hrun.
  - inversion Hrun; subst. exists []. rewrite app_nil_r.
    repeat split. constructor.
  - cbn [for_each] in Hrun. unfold bind in Hrun.
    rewrite (stream_chunk_run data total i acc w b Hc) in Hrun. cbv zeta in Hrun.
    destruct (fault (next_reply w)); [discriminate|].
    set (chunk := slice data i (i + chunk_size)) in *.
    set (w1 := advance (log (EvWrite DFU_PACKET_UUID chunk false) w)) in *.
    set (w2 := update_self _ w1) in *.
    assert (Hcfg1 : config (self w1) = config (self w))
      by exact (advance_config (log (EvWrite DFU_PACKET_UUID chunk false) w)).
    assert (Hcl1 : client (self w1) = client (self w))
      by exact (advance_client (log (EvWrite DFU_PACKET_UUID chunk false) w)).
    assert (Hcfg2 : config (self w2) = config (self w)) by (rewrite <- Hcfg1; reflexivity).
    assert (Hcl2 : client (self w2) = client (self w)) by (rewrite <- Hcl1; reflexivity).
    assert (Htr2 : trace w2 = trace w ++ [EvWrite DFU_PACKET_UUID chunk false])
      by reflexivity.
    set (w3 := if i mod 2000 =? 0 then _ else w2) in *.
    assert (H3 : exists progress,
               trace w3 = trace w2 ++ map EvStdout progress
               /\ config (self w3) = config (self w)
               /\ client (self w3) = client (self w)).
    { subst w3. destruct (i mod 2000 =? 0).
      - exists [Uploading (bytes_sent (self w2)) total]. repeat split; assumption.
      - exists []. rewrite app_nil_r. repeat split; assumption. }
    destruct H3 as (progress & Htr3 & Hcfg3 & Hcl3).
    rewrite (config_prn _ _ Hcfg3) in Hrun.
    destruct (takes_receipt (prn (self w)) (acc + 1)) eqn:Htake.
    + set (w4 := advance _) in Hrun.
      assert (Hcl4 : client (self w4) = Some b).
      { subst w4. rewrite advance_client. cbn. rewrite Hcl3. exact Hc. }
      destruct (IH 0 w4 b r w' Hcl4 Hrun) as (evs & Htr & Hsh & Hcfg & Hcl).
      assert (Hcfg4 : config (self w4) = config (self w)).
      { subst w4. rewrite advance_config. cbn. rewrite <- Hcfg3. reflexivity. }
      exists (EvWrite DFU_PACKET_UUID chunk false
              :: map EvStdout progress ++ [EvReceiptClear; EvReceiptWait 5000] ++ evs).
      split; [|split; [|split]].
      * rewrite Htr. subst w4. rewrite advance_trace. cbn [trace log update_self].
        rewrite Htr3, Htr2. repeat rewrite <- app_assoc. reflexivity.
      * rewrite (config_prn _ _ Hcfg4) in Hsh.
        pose proof (@shape_chunk data (prn (self w)) acc i offs progress evs r) as S.
        rewrite Htake in S. apply S. exact Hsh.
      * congruence.
      * rewrite Hcl, Hcl4. symmetry. exact Hc.
    + assert (Hcl3' : client (self w3) = Some b) by congruence.
      destruct (IH (acc + 1) w3 b r w' Hcl3' Hrun) as (evs & Htr & Hsh & Hcfg & Hcl).
      exists (EvWrite DFU_PACKET_UUID chunk false :: map EvStdout progress ++ [] ++ evs).
      split; [|split; [|split]].
      * rewrite Htr, Htr3, Htr2. repeat rewrite <- app_assoc. reflexivity.
      * rewrite (config_prn _ _ Hcfg3) in Hsh.
        pose proof (@shape_chunk data (prn (self w)) acc i offs progress evs r) as S.
        rewrite Htake in S. apply S. exact Hsh.
      * congruence.
      * congruence.
Qed.

Lemma stream_loop_completes data total :
  forall offs acc w b,
    client (self w) = Some b ->
    no_faults w ->
    exists r w', for_each offs (stream_chunk data total) acc w = (Ok r, w').
Proof.
  induction offs as [|i offs IH]; intros acc w b Hc Hnf.
  - exists acc, w. reflexivity.
  - cbn [for_each]. unfold bind.
    rewrite (stream_chunk_run data total i acc w b Hc). cbv zeta.
    rewrite (no_faults_next _ Hnf).
    set (chunk := slice data i (i + chunk_size)).
    set (w1 := advance (log (EvWrite DFU_PACKET_UUID chunk false) w)).
    set (w2 := update_self _ w1).
    assert (Hnf2 : no_faults w2) by (apply (no_faults_tl _ Hnf)).
    assert (Hcl2 : client (self w2) = Some b).
    { rewrite <- Hc.
      exact (advance_client (log (EvWrite DFU_PACKET_UUID chunk false) w)). }
    set (w3 := if i mod 2000 =? 0 then _ else w2).
    assert (H3 : no_faults w3 /\ client (self w3) = Some b).
    { subst w3. destruct (i mod 2000 =? 0); split; assumption. }
    destruct H3 as [Hnf3 Hcl3].
    destruct (takes_receipt (prn (self w3)) (acc + 1)).
    + apply (IH 0 _ b).
      * rewrite advance_client. exact Hcl3.
      * apply (no_faults_tl _ Hnf3).
    + apply (IH (acc + 1) _ b); assumption.
Qed.

Lemma stream_firmware_run w data :
  bin_data (self w) = Some data ->
  _stream_firmware w =
  match for_each (range 0 (length data) chunk_size)
                 (stream_chunk data (length data)) 0
                 (update_self (set_bytes_sent 0) w) with
  | (Ok _, w1) => (Ok tt, log (EvStdout Uploading100) w1)
  | (Raise e, w1) => (Raise e, w1)
  end.
Proof.
  intros Hb. unfold _stream_firmware, bind at 1. unfold get_self at 1.
  rewrite Hb. unfold bind, modify_self.
  fold (update_self (set_bytes_sent 0) w).
  destruct (for_each _ _ 0 _) as [[r|e] w1]; reflexivity.
Qed.

(** *** The trace of the loop *)

Lemma data_writes_app a b : data_writes (a ++ b) = data_writes a ++ data_writes b.
Proof. apply flat_map_app. Qed.

Lemma control_writes_app a b :
  control_writes (a ++ b) = control_writes a ++ control_writes b.
Proof. apply flat_map_app. Qed.

Lemma data_writes_stdout p : data_writes (map EvStdout p) = [].
Proof. induction p; [reflexivity | assumption]. Qed.

Lemma control_writes_stdout p : control_writes (map EvStdout p) = [].
Proof. induction p; [reflexivity | assumption]. Qed.

Lemma count_waits_app a b : count_waits (a ++ b) = count_waits a + count_waits b.
Proof. unfold count_waits. rewrite filter_app, length_app. reflexivity. Qed.

Lemma count_waits_stdout p : count_waits (map EvStdout p) = 0.
Proof. induction p; [reflexivity | assumption]. Qed.

Lemma flow_stdout N since p rest :
  flow N since (map EvStdout p ++ rest) = flow N since rest.
Proof. induction p; [reflexivity | assumption]. Qed.

Lemma shape_writes data N acc offs evs r :
  stream_shape data N acc offs evs r ->
  data_writes evs = map (fun i => slice data i (i + chunk_size)) offs
  /\ control_writes evs = [].
Proof.
  induction 1 as [acc | acc i offs progress evs r _ [IHd IHc]]; [now split|].
  split.
  - change (data_writes (EvWrite DFU_PACKET_UUID ?c false :: ?l))
      with (c :: data_writes l).
    rewrite !data_writes_app, data_writes_stdout, IHd.
    destruct (takes_receipt N (acc + 1)); reflexivity.
  - change (control_writes (EvWrite DFU_PACKET_UUID ?c false :: ?l))
      with (control_writes l).
    rewrite !control_writes_app, control_writes_stdout, IHc.
    destruct (takes_receipt N (acc + 1)); reflexivity.
Qed.

Lemma shape_flow data N acc offs evs r :
  stream_shape data N acc offs evs r ->
  (0 < N)%Z -> (Z.of_nat acc < N)%Z ->
  (Z.of_nat r < N)%Z /\ forall rest, flow N acc (evs ++ rest) = flow N r rest.
Proof.
  induction 1 as [acc | acc i offs progress evs r _ IH]; intros HN Hacc.
  - split; [assumption | reflexivity].
  - unfold takes_receipt in *.
    destruct ((0 <? N)%Z && (N <=? Z.of_nat (acc + 1))%Z)%bool eqn:Ht.
    + apply andb_prop in Ht as [_ Hle%Z.leb_le].
      destruct IH as [Hr IH]; [assumption | cbn; lia |].
      split; [assumption|]. intros rest.
      cbn [app flow]. rewrite <- app_assoc, flow_stdout. cbn [app flow].
      rewrite IH.
      replace (Z.of_nat (S acc) <=? N)%Z with true by (symmetry; apply Z.leb_le; lia).
      reflexivity.
    + apply andb_false_iff in Ht as [Hf%Z.ltb_ge | Hf%Z.leb_gt]; [lia|].
      destruct IH as [Hr IH]; [assumption | lia |].
      split; [assumption|]. intros rest.
      cbn [app flow]. rewrite <- app_assoc, flow_stdout. cbn [app].
      replace (S acc) with (acc + 1) by lia. rewrite IH.
      replace (Z.of_nat (acc + 1) <=? N)%Z with true by (symmetry; apply Z.leb_le; lia).
      reflexivity.
Qed.

Lemma shape_count data N acc offs evs r :
  stream_shape data N acc offs evs r ->
  (0 < N)%Z -> acc < Z.to_nat N ->
  count_waits evs = (acc + length offs) / Z.to_nat N.
Proof.
  induction 1 as [acc | acc i offs progress evs r _ IH]; intros HN Hacc.
  - rewrite Nat.add_0_r, Nat.div_small by assumption. reflexivity.
  - change (count_waits (EvWrite ?u ?c ?b :: ?l)) with (count_waits l).
    rewrite !count_waits_app, count_waits_stdout.
    unfold takes_receipt in *.
    destruct ((0 <? N)%Z && (N <=? Z.of_nat (acc + 1))%Z)%bool eqn:Ht.
    + apply andb_prop in Ht as [_ Hle%Z.leb_le].
      rewrite IH by lia.
      assert (Hn : acc + 1 = Z.to_nat N) by lia.
      cbn [length]. replace (acc + S (length offs)) with (1 * Z.to_nat N + length offs) by lia.
      rewrite Nat.div_add_l by lia. reflexivity.
    + apply andb_false_iff in Ht as [Hf%Z.ltb_ge | Hf%Z.leb_gt]; [lia|].
      rewrite IH by lia. cbn [length].
      replace (acc + 1 + length offs) with (acc + S (length offs)) by lia.
      reflexivity.
Qed.

Lemma shape_no_waits data N acc offs evs r :
  stream_shape data N acc offs evs r ->
  (N <= 0)%Z ->
  count_waits evs = 0.
Proof.
  induction 1 as [acc | acc i offs progress evs r _ IH]; intros HN; [reflexivity|].
  change (count_waits (EvWrite ?u ?c ?b :: ?l)) with (count_waits l).
  rewrite !count_waits_app, count_waits_stdout, IH by assumption.
  unfold takes_receipt.
  replace (0 <? N)%Z with false by (symmetry; apply Z.ltb_ge; lia).
  reflexivity.
Qed.

(** *** Cutting the image *)

Lemma firstn_add {A} (a b : nat) : forall l : list A,
  firstn (a + b) l = firstn a l ++ firstn b (skipn a l).
Proof.
  induction a as [|a IH]; intros l; [reflexivity|].
  destruct l as [|x l]; cbn [Nat.add firstn skipn app].
  - now rewrite firstn_nil.
  - now rewrite IH.
Qed.

Lemma ceil_div_bounds L :
  let n := (L + 19) / 20 in L <= n * 20 /\ (0 < n -> (n - 1) * 20 < L).
Proof.
  cbv zeta. pose proof (Nat.div_mod_eq (L + 19) 20) as E.
  pose proof (Nat.mod_upper_bound (L + 19) 20) as B.
  split; [lia|]. intros Hn. lia.
Qed.

Lemma chunks_eq (data : bytes) :
  chunks data
  = map (fun k => firstn 20 (skipn (k * 20) data)) (seq 0 ((length data + 19) / 20)).
Proof.
  unfold chunks, range, slice, chunk_size. rewrite map_map, Nat.sub_0_r.
  change (20 - 1) with 19.
  apply map_ext. intros k.
  replace (0 + k * 20 + 20 - (0 + k * 20)) with 20 by lia. reflexivity.
Qed.

Lemma concat_pieces {A} (s : nat) (l : list A) : forall n,
  concat (map (fun k => firstn s (skipn (k * s) l)) (seq 0 n)) = firstn (n * s) l.
Proof.
  induction n as [|n IH]; [reflexivity|].
  rewrite seq_S, map_app, concat_app, IH. cbn [map concat Nat.add].
  rewrite app_nil_r.
  replace (S n * s) with (n * s + s) by lia. now rewrite firstn_add.
Qed.

Lemma chunks_concat (data : bytes) : concat (chunks data) = data.
Proof.
  rewrite chunks_eq, concat_pieces.
  apply firstn_all2. apply (proj1 (ceil_div_bounds (length data))).
Qed.

Lemma chunks_length (data : bytes) : length (chunks data) = (length data + 19) / 20.
Proof. now rewrite chunks_eq, length_map, length_seq. Qed.

Lemma chunks_nth (data : bytes) k :
  k < length (chunks data) ->
  nth k (chunks data) [] = slice data (20 * k) (20 * k + 20).
Proof.
  rewrite chunks_length. intros Hk. rewrite chunks_eq.
  rewrite (nth_indep _ [] (firstn 20 (skipn (0 * 20) data)))
    by now rewrite length_map, length_seq.
  pose proof (map_nth (fun k => firstn 20 (skipn (k * 20) data))
                      (seq 0 ((length data + 19) / 20)) 0 k) as E.
  cbv beta in E. rewrite E, seq_nth by assumption. unfold slice.
  replace (20 * k + 20 - 20 * k) with 20 by lia.
  now rewrite (Nat.mul_comm 20 k).
Qed.

Lemma chunks_sizes (data : bytes) k :
  k < length (chunks data) ->
  length (nth k (chunks data) []) <= 20
  /\ (S k < length (chunks data) -> length (nth k (chunks data) []) = 20).
Proof.
  intros Hk. rewrite (chunks_nth data k Hk). unfold slice.
  replace (20 * k + 20 - 20 * k) with 20 by lia.
  rewrite length_firstn, length_skipn. split; [lia|].
  rewrite chunks_length. intros Hk'.
  pose proof (Nat.div_mod_eq (length data + 19) 20) as E.
  pose proof (Nat.mod_upper_bound (length data + 19) 20) as B.
  lia.
Qed.

Lemma stream_firmware_trace w data w' :
  bin_data (self w) = Some data ->
  _stream_firmware w = (Ok tt, w') ->
  exists evs r,
    emitted w w' = evs ++ [EvStdout Uploading100]
    /\ stream_shape data (prn (self w)) 0 (range 0 (length data) chunk_size) evs r.
Proof.
  intros Hb Hrun. rewrite (stream_firmware_run w data Hb) in Hrun.
  destruct (for_each _ _ 0 _) as [[r|e] w1] eqn:Hloop; [|discriminate].
  inversion Hrun; subst w'; clear Hrun.
  destruct (client (self w)) as [b|] eqn:Hc.
  - destruct (stream_loop_shape _ _ _ _ (update_self (set_bytes_sent 0) w) b _ _ Hc Hloop) as (evs & Htr & Hsh & _ & _).
    exists evs, r. split; [|exact Hsh].
    apply emitted_app. cbn [log trace]. rewrite Htr. cbn [update_self trace].
    now rewrite app_assoc.
  - destruct (range 0 (length data) chunk_size) as [|i offs].
    + inversion Hloop; subst. exists [], 0. split; [|constructor].
      apply emitted_app. reflexivity.
    + cbn [for_each] in Hloop. unfold bind at 1, stream_chunk at 1 in Hloop.
      unfold bind at 1, client_write at 1, bind at 1, get_self at 1 in Hloop.
      cbn [update_self self] in Hloop.
      change (client (set_bytes_sent 0 (self w))) with (client (self w)) in Hloop.
      rewrite Hc in Hloop. discriminate.
Qed.

Lemma stream_firmware_completes w data :
  bin_data (self w) = Some data ->
  client (self w) <> None ->
  no_faults w ->
  exists w', _stream_firmware w = (Ok tt, w').
Proof.
  intros Hb Hc Hnf. rewrite (stream_firmware_run w data Hb).
  destruct (client (self w)) as [b|] eqn:Hcb; [|congruence].
  destruct (stream_loop_completes data (length data)
              (range 0 (length data) chunk_size) 0
              (update_self (set_bytes_sent 0) w) b Hcb Hnf) as (r & w1 & ->).
  eauto.
Qed.

(** C1.  The streamer writes the image to the packet characteristic as
    [ceil(L/20)] chunks, cut at the offsets 0, 20, 40, ...: each of at most
    20 bytes, all but the last of exactly 20, and their concatenation is
    the image.  It writes nothing to the control point.  The stream runs to
    its end whenever no write fails. *)
Theorem stream_firmware_writes_image w data :
  bin_data (self w) = Some data ->
  (client (self w) <> None -> no_faults w ->
   exists w', _stream_firmware w = (Ok tt, w'))
  /\ forall w',
      _stream_firmware w = (Ok tt, w') ->
      let ws := data_writes (emitted w w') in
      length ws = (length data + 19) / 20
      /\ (forall k, k < length ws ->
                    nth k ws [] = slice data (20 * k) (20 * k + 20)
                    /\ length (nth k ws []) <= 20
                    /\ (S k < length ws -> length (nth k ws []) = 20))
      /\ concat ws = data
      /\ control_writes (emitted w w') = [].
Proof.
  intros Hb. split; [now apply (stream_firmware_completes w data)|].
  intros w' Hrun.
  destruct (stream_firmware_trace w data w' Hb Hrun) as (evs & r & Hem & Hsh).
  apply shape_writes in Hsh as [Hd Hc].
  assert (Hws : data_writes (emitted w w') = chunks data).
  { rewrite Hem, data_writes_app, Hd. cbn. now rewrite app_nil_r. }
  cbv zeta. rewrite Hws. split; [apply chunks_length|].
  split; [|split].
  - intros k Hk. split; [now apply chunks_nth | now apply chunks_sizes].
  - apply chunks_concat.
  - rewrite Hem, control_writes_app, Hc. reflexivity.
Qed.

Lemma stream_firmware_writes_image_witness :
  exists w',
    _stream_firmware (sample_world 8 []) = (Ok tt, w')
    /\ length (data_writes (emitted (sample_world 8 []) w')) = 3
    /\ concat (data_writes (emitted (sample_world 8 []) w')) = sample_image.
Proof.
  destruct (stream_firmware_writes_image (sample_world 8 []) sample_image eq_refl)
    as [Hruns Hcut].
  destruct Hruns as [w' Hw'].
  - discriminate.
  - constructor.
  - exists w'. split; [exact Hw'|].
    destruct (Hcut w' Hw') as (Hlen & _ & Hcat & _).
    split; [exact Hlen | exact Hcat].
Defined.

Lemma range_length (data : bytes) :
  length (range 0 (length data) chunk_size) = length (chunks data).
Proof. unfold chunks. now rewrite length_map. Qed.

(** C2.  With a positive interval [N] the streamer never writes more than
    [N] chunks without waiting on the receipt event; each wait follows a
    clear of the event and lasts at most 5 s.  The wait returns normally
    whether or not the event is set in time, the counter restarts at zero
    after it (there is one wait per [N] chunks), and the stream still ends
    with all chunks written and the 100 percent line.  With [N] zero or
    larger than the number of chunks there is no wait at all. *)
Theorem stream_firmware_flow_control w data :
  bin_data (self w) = Some data ->
  let N := prn (self w) in
  (forall w0, fst (receipt_wait w0) = Ok tt)
  /\ (client (self w) <> None -> no_faults w ->
      exists w', _stream_firmware w = (Ok tt, w'))
  /\ forall w',
      _stream_firmware w = (Ok tt, w') ->
      let evs := emitted w w' in
      ((0 < N)%Z -> flow N 0 evs = true)
      /\ count_waits evs
         = (if (0 <? N)%Z then length (chunks data) / Z.to_nat N else 0)
      /\ ((N = 0 \/ Z.of_nat (length (chunks data)) < N)%Z -> count_waits evs = 0)
      /\ data_writes evs = chunks data
      /\ last evs (EvSleep 0) = EvStdout Uploading100.
Proof.
  intros Hb N. split; [intros w0; now rewrite receipt_wait_run|].
  split; [now apply (stream_firmware_completes w data)|].
  intros w' Hrun.
  destruct (stream_firmware_trace w data w' Hb Hrun) as (evs & r & Hem & Hsh).
  fold N in Hsh. cbv zeta. rewrite Hem.
  assert (Hcount : count_waits (evs ++ [EvStdout Uploading100])
                   = (if (0 <? N)%Z then length (chunks data) / Z.to_nat N else 0)).
  { rewrite count_waits_app, Nat.add_0_r.
    destruct (0 <? N)%Z eqn:HN.
    - apply Z.ltb_lt in HN.
      rewrite (shape_count _ _ _ _ _ _ Hsh HN) by lia.
      now rewrite range_length.
    - apply Z.ltb_ge in HN. exact (shape_no_waits _ _ _ _ _ _ Hsh HN). }
  split; [|split; [|split; [|split]]].
  - intros HN.
    destruct (shape_flow _ _ _ _ _ _ Hsh HN) as [_ Hflow]; [lia|].
    now rewrite Hflow.
  - exact Hcount.
  - intros HN. rewrite Hcount.
    destruct (0 <? N)%Z eqn:Hpos; [|reflexivity].
    apply Z.ltb_lt in Hpos. apply Nat.div_small. lia.
  - apply shape_writes in Hsh as [Hd _].
    rewrite data_writes_app, Hd. cbn. now rewrite app_nil_r.
  - apply last_last.
Qed.

Lemma stream_firmware_flow_control_witness :
  exists w',
    _stream_firmware (sample_world 1 []) = (Ok tt, w')
    /\ flow 1 0 (emitted (sample_world 1 []) w') = true
    /\ count_waits (emitted (sample_world 1 []) w') = 3.
Proof.
  destruct (stream_firmware_flow_control (sample_world 1 []) sample_image eq_refl)
    as (_ & Hruns & Hflow).
  destruct Hruns as [w' Hw'].
  - discriminate.
  - constructor.
  - exists w'. split; [exact Hw'|].
    destruct (Hflow w' Hw') as (Hf & Hc & _).
    split; [apply Hf; reflexivity | exact Hc].
Defined.

(** ** Response Correlator *)

Lemma byte_val_range b : (0 <= byte_val b <= 255)%Z.
Proof. unfold byte_val. pose proof (Byte.to_N_bounded b). lia. Qed.

Lemma byte_eqb_eq a b : Byte.eqb a b = true <-> a = b.
Proof. split; [apply byte_dec_bl | apply byte_dec_lb]. Qed.

Lemma wait_for_response_run expected timeout w :
  _wait_for_response expected timeout w =
  let w1 := advance (log (EvQueueGet timeout) w) in
  if (timeout <=? 0)%Z then (Ok (-1)%Z, w1)
  else
    match response_queue (self w1) with
    | [] => (Ok (-1)%Z, w1)
    | (request_op, status) :: rest =>
        (Ok (if negb (Byte.eqb request_op expected) then (-1)%Z
             else if negb (byte_val status =? 1)%Z then byte_val status
                  else 1%Z),
         update_self (set_response_queue rest) w1)
    end.
Proof.
  unfold _wait_for_response, try_except, bind. rewrite queue_get_run. cbv zeta.
  destruct (timeout <=? 0)%Z; [reflexivity|].
  destruct (response_queue (self (advance (log (EvQueueGet timeout) w))))
    as [|[op st] rest]; [reflexivity|].
  destruct (negb (Byte.eqb op expected)); [reflexivity|].
  destruct (negb (byte_val st =? 1)%Z); reflexivity.
Qed.

(** C3, as the code has it.  [_wait_for_response] waits once and never
    twice.  With a timeout of zero or less nothing is taken from the queue
    and the result is -1.  With a positive timeout it takes one status
    event off the queue: a first event for another opcode is dropped and
    gives -1; a first event for the expected opcode gives 1 when its
    status byte is 1 and the status byte otherwise; no event within the
    timeout gives -1 as well.  So the result is 1 exactly for a positive
    timeout and a matching event with status 1, and -1, which no status
    byte equals, stands for both the timeout and the unmatched event. *)
Theorem wait_for_response_outcomes expected timeout w :
  let w1 := advance (log (EvQueueGet timeout) w) in
  let r := fst (_wait_for_response expected timeout w) in
  let w' := snd (_wait_for_response expected timeout w) in
  trace w' = trace w ++ [EvQueueGet timeout]
  /\ ((timeout <= 0)%Z -> r = Ok (-1)%Z /\ w' = w1)
  /\ ((0 < timeout)%Z ->
      match response_queue (self w1) with
      | [] => r = Ok (-1)%Z /\ w' = w1
      | (request_op, status) :: rest =>
          response_queue (self w') = rest
          /\ r = Ok (if Byte.eqb request_op expected
                     then if (byte_val status =? 1)%Z then 1%Z else byte_val status
                     else (-1)%Z)
      end)
  /\ (r = Ok 1%Z <->
      (0 < timeout)%Z
      /\ exists status rest,
           response_queue (self w1) = (expected, status) :: rest
           /\ byte_val status = 1%Z)
  /\ (forall status : byte, byte_val status <> (-1)%Z).
Proof.
  cbv zeta. rewrite wait_for_response_run. cbv zeta.
  assert (Hneg : forall status : byte, byte_val status <> (-1)%Z)
    by (intros st; pose proof (byte_val_range st); lia).
  destruct (timeout <=? 0)%Z eqn:Ht.
  - apply Z.leb_le in Ht. cbn [fst snd].
    split; [reflexivity|]. split; [intros _; split; reflexivity|].
    split; [intros H; lia|]. split; [|exact Hneg].
    split; [discriminate | intros [H _]; lia].
  - apply Z.leb_gt in Ht.
    destruct (response_queue (self (advance (log (EvQueueGet timeout) w))))
      as [|[op st] rest] eqn:Hq; cbn [fst snd].
    + split; [reflexivity|]. split; [intros H; lia|].
      split; [intros _; split; reflexivity|]. split; [|exact Hneg].
      split; [discriminate|]. intros (_ & st & rest & H & _). discriminate.
    + split; [reflexivity|]. split; [intros H; lia|]. split; [|split; [|exact Hneg]].
      * intros _. split; [reflexivity|].
        destruct (Byte.eqb op expected); cbn [negb]; [|reflexivity].
        destruct (byte_val st =? 1)%Z; reflexivity.
      * destruct (Byte.eqb op expected) eqn:Hop; cbn [negb].
        -- apply byte_eqb_eq in Hop. subst op.
           destruct (byte_val st =? 1)%Z eqn:Hst; cbn [negb].
           ++ apply Z.eqb_eq in Hst. split; [|reflexivity].
              intros _. split; [exact Ht|]. exists st, rest. now split.
           ++ apply Z.eqb_neq in Hst. split.
              ** intros H. inversion H. congruence.
              ** intros (_ & st' & rest' & H & H1). inversion H; subst.
                 contradiction.
        -- split; [discriminate|].
           intros (_ & st' & rest' & H & _). inversion H; subst.
           rewrite (proj2 (byte_eqb_eq expected expected) eq_refl) in Hop.
           discriminate.
Qed.

Lemma wait_for_response_outcomes_witness :
  fst (_wait_for_response OP_CODE_VALIDATE 30000
         (sample_world 8 [notifies [[x10; x04; x01]]])) = Ok 1%Z
  /\ fst (_wait_for_response OP_CODE_VALIDATE 30000
            (sample_world 8 [notifies [[x10; x04; x06]]])) = Ok 6%Z
  /\ fst (_wait_for_response OP_CODE_VALIDATE 0
            (sample_world 8 [notifies [[x10; x04; x01]]])) = Ok (-1)%Z.
Proof.
  split; [|split].
  - destruct (wait_for_response_outcomes OP_CODE_VALIDATE 30000
                (sample_world 8 [notifies [[x10; x04; x01]]]))
      as (_ & _ & H & _).
    exact (proj2 (H ltac:(lia))).
  - destruct (wait_for_response_outcomes OP_CODE_VALIDATE 30000
                (sample_world 8 [notifies [[x10; x04; x06]]]))
      as (_ & _ & H & _).
    exact (proj2 (H ltac:(lia))).
  - destruct (wait_for_response_outcomes OP_CODE_VALIDATE 0
                (sample_world 8 [notifies [[x10; x04; x01]]]))
      as (_ & H & _).
    exact (proj1 (H ltac:(lia))).
Defined.

(** The value returned on a timeout is the value returned for an event
    that answers another opcode: the caller cannot tell them apart. *)
Lemma wait_timeout_same_as_stale :
  fst (_wait_for_response OP_CODE_START_DFU 60000 (sample_world 8 []))
  = Ok (-1)%Z
  /\ fst (_wait_for_response OP_CODE_START_DFU 60000
            (sample_world 8 [notifies [[x10; x02; x01]]]))
     = Ok (-1)%Z.
Proof. split; reflexivity. Qed.

(** ** Connections *)

Lemma with_client_run {A} device (body : BLEDevice -> M A) w :
  with_client device body w =
  let w1 := advance (log (EvConnect (address device)) w) in
  match fault (next_reply w) with
  | Some err => (Raise (Transport err), w1)
  | None =>
      let w2 := snd (body device w1) in
      let w3 := advance (log (EvDisconnect (address device)) w2) in
      match fault (next_reply w2) with
      | Some err => (Raise (Transport err), w3)
      | None => (fst (body device w1), w3)
      end
  end.
Proof.
  unfold with_client, bind. rewrite transport_run.
  destruct (fault (next_reply w)); [reflexivity|]. cbv zeta.
  destruct (body device _) as [r w2]. rewrite transport_run. cbn [fst snd].
  destruct (fault (next_reply w2)); reflexivity.
Qed.

Lemma activate_and_reset_run w :
  activate_and_reset w =
  (Ok tt, advance (log (EvWrite DFU_CONTROL_POINT_UUID
                                [OP_CODE_ACTIVATE_AND_RESET] true) w)).
Proof.
  unfold activate_and_reset, try_except. rewrite write_run.
  destruct (fault (next_reply w)); reflexivity.
Qed.

(** ** What can be raised *)

Lemma re_ret {A} (a : A) : raises_Exceptions (ret a).
Proof. intros w e w' H. discriminate. Qed.

Lemma re_raise {A} e : is_Exception e = true -> raises_Exceptions (@raise A e).
Proof. intros He w e' w' H. inversion H; subst. exact He. Qed.

Lemma re_bind {A B} (m : M A) (k : A -> M B) :
  raises_Exceptions m -> (forall a, raises_Exceptions (k a)) ->
  raises_Exceptions (bind m k).
Proof.
  intros Hm Hk w e w' H. unfold bind in H.
  destruct (m w) as [[a|e0] w0] eqn:E.
  - exact (Hk a _ _ _ H).
  - inversion H; subst. exact (Hm _ _ _ E).
Qed.

Lemma re_try_except {A} sel (m : M A) h :
  raises_Exceptions m -> (forall e, raises_Exceptions (h e)) ->
  raises_Exceptions (try_except sel m h).
Proof.
  intros Hm Hh w e w' H. unfold try_except in H.
  destruct (m w) as [[a|e0] w0] eqn:E; [discriminate|].
  destruct (sel e0).
  - exact (Hh e0 _ _ _ H).
  - inversion H; subst. exact (Hm _ _ _ E).
Qed.

Lemma re_get_self : raises_Exceptions get_self.
Proof. intros w e w' H. discriminate. Qed.

Lemma re_modify_self f : raises_Exceptions (modify_self f).
Proof. intros w e w' H. discriminate. Qed.

Lemma re_emit e : raises_Exceptions (emit e).
Proof. intros w e' w' H. discriminate. Qed.

Lemma re_transport e : raises_Exceptions (transport e).
Proof.
  intros w e' w' H. rewrite transport_run in H.
  destruct (fault (next_reply w)); inversion H. reflexivity.
Qed.

Lemma re_write uuid payload response :
  raises_Exceptions (write_gatt_char uuid payload response).
Proof. apply re_bind; [apply re_transport | intros; apply re_ret]. Qed.

Lemma re_start_notify uuid : raises_Exceptions (start_notify uuid).
Proof. apply re_bind; [apply re_transport | intros; apply re_ret]. Qed.

Lemma re_sleep ms : raises_Exceptions (sleep ms).
Proof. intros w e w' H. rewrite sleep_run in H. discriminate. Qed.

Lemma re_with_client {A} device (body : BLEDevice -> M A) :
  raises_Exceptions (body device) -> raises_Exceptions (with_client device body).
Proof.
  intros Hb w e w' H. rewrite with_client_run in H. cbv zeta in H.
  destruct (fault (next_reply w)); [inversion H; reflexivity|].
  destruct (fault (next_reply _)); [inversion H; reflexivity|].
  destruct (body device _) as [[a|e0] w2] eqn:E; cbn [fst snd] in H; [discriminate|].
  inversion H; subst. exact (Hb _ _ _ E).
Qed.

Lemma re_for_each {A S} (body : A -> S -> M S) :
  (forall x acc, raises_Exceptions (body x acc)) ->
  forall xs acc, raises_Exceptions (for_each xs body acc).
Proof.
  intros Hb. induction xs as [|x xs IH]; intros acc; cbn [for_each].
  - apply re_ret.
  - apply re_bind; [apply Hb | intros; apply IH].
Qed.

(** [try: m except Exception: pass] returns normally. *)
Lemma swallowed (m : M unit) :
  raises_Exceptions m ->
  forall w, exists w', try_except is_Exception m (fun _ => ret tt) w = (Ok tt, w').
Proof.
  intros Hm w. unfold try_except.
  destruct (m w) as [[[]|e] w1] eqn:E; [eauto|].
  rewrite (Hm _ _ _ E). eexists; reflexivity.
Qed.

Lemma jump_to_bootloader_returns device w :
  exists w', jump_to_bootloader device w = (Ok tt, w').
Proof.
  apply swallowed. apply re_with_client.
  apply re_bind; [apply re_start_notify | intros _].
  apply re_bind; [|intros _; apply re_sleep].
  apply re_try_except; [apply re_write | intros; apply re_ret].
Qed.

(** ** Update State Machine *)

Lemma session_before_activation device w w7 :
  (modify_self (set_client (Some device)) ;;
   stabilize ;;
   status <- start_dfu ;;
   start_dfu_check status ;;
   transfer) w = (Ok tt, w7) ->
  dfu_session device w = activate_and_reset w7.
Proof.
  unfold dfu_session, bind.
  destruct (modify_self _ w) as [[u|e] w1]; [|discriminate].
  destruct (stabilize w1) as [[u2|e] w2]; [|discriminate].
  destruct (start_dfu w2) as [[status|e] w3]; [|discriminate].
  destruct (start_dfu_check status w3) as [[u4|e] w4]; [|discriminate].
  destruct (transfer w4) as [[u5|e] w5]; [|discriminate].
  intros H. inversion H. reflexivity.
Qed.

(** C6.  [jump_to_bootloader] returns normally whatever the connect, the
    subscription, the jump write and the disconnect raise.  The activate
    write never raises out of its [try]: once the steps before it went
    through, the session returns normally whatever the reply to that write,
    and so does the attempt when the closing disconnect succeeds. *)
Theorem jump_and_activate_errors_swallowed :
  (forall device w, exists w', jump_to_bootloader device w = (Ok tt, w'))
  /\ (forall device w w7,
        (modify_self (set_client (Some device)) ;;
         stabilize ;;
         status <- start_dfu ;;
         start_dfu_check status ;;
         transfer) w = (Ok tt, w7) ->
        let w8 := advance (log (EvWrite DFU_CONTROL_POINT_UUID
                                        [OP_CODE_ACTIVATE_AND_RESET] true) w7) in
        dfu_session device w = (Ok tt, w8))
  /\ (forall device w0 w7,
        fault (next_reply w0) = None ->
        (modify_self (set_client (Some device)) ;;
         stabilize ;;
         status <- start_dfu ;;
         start_dfu_check status ;;
         transfer) (advance (log (EvConnect (address device)) w0)) = (Ok tt, w7) ->
        let w8 := advance (log (EvWrite DFU_CONTROL_POINT_UUID
                                        [OP_CODE_ACTIVATE_AND_RESET] true) w7) in
        fault (next_reply w8) = None ->
        dfu_attempt device w0
        = (Ok tt, advance (log (EvDisconnect (address device)) w8))).
Proof.
  split; [exact jump_to_bootloader_returns|]. split.
  - intros device w w7 H. cbv zeta.
    rewrite (session_before_activation device w w7 H).
    apply activate_and_reset_run.
  - intros device w0 w7 Hconn H w8 Hdisc.
    unfold dfu_attempt. rewrite with_client_run. cbv zeta. rewrite Hconn.
    rewrite (session_before_activation device _ w7 H), activate_and_reset_run.
    cbn [fst snd]. fold w8. rewrite Hdisc. reflexivity.
Qed.

Lemma jump_and_activate_errors_swallowed_witness :
  fst (dfu_attempt sample_device
         (sample_world 0 (good_script (fails (BleakError "disconnected")))))
  = Ok tt.
Proof.
  destruct jump_and_activate_errors_swallowed as (_ & _ & H).
  set (w0 := sample_world 0 (good_script (fails (BleakError "disconnected")))).
  pose (w7 := snd ((modify_self (set_client (Some sample_device)) ;;
                    stabilize ;;
                    status <- start_dfu ;;
                    start_dfu_check status ;;
                    transfer)
                     (advance (log (EvConnect (address sample_device)) w0)))).
  rewrite (H sample_device w0 w7).
  - reflexivity.
  - reflexivity.
  - vm_compute. reflexivity.
  - reflexivity.
Defined.

Lemma pack_uint_cases k n w :
  pack_uint k n w = (Ok (le_bytes k n), w) \/ pack_uint k n w = (Raise StructError, w).
Proof.
  unfold pack_uint. destruct (_ && _)%bool; [left | right]; reflexivity.
Qed.

Lemma start_dfu_ends_with_wait w status w1 :
  start_dfu w = (Ok status, w1) ->
  exists evs, trace w1 = trace w ++ evs ++ [EvQueueGet 60000].
Proof.
  unfold start_dfu, bind at 1. rewrite write_run.
  destruct (fault (next_reply w)); [discriminate|].
  set (e1 := EvWrite DFU_CONTROL_POINT_UUID _ true).
  set (w1' := advance (log e1 w)).
  unfold bind at 1, get_self at 1, bind at 1.
  assert (Hd : exists w2 evs,
             (if (0 <? packet_delay (self w1'))%Z
              then sleep (packet_delay (self w1')) else ret tt) w1' = (Ok tt, w2)
             /\ trace w2 = (trace w ++ [e1]) ++ evs).
  { destruct (0 <? packet_delay (self w1'))%Z.
    - rewrite sleep_run. eexists _, [_]. split; reflexivity.
    - eexists _, []. split; [reflexivity|]. now rewrite app_nil_r. }
  destruct Hd as (w2 & evs & -> & Htr2).
  unfold bind at 1, get_self at 1.
  destruct (bin_data (self w2)) as [data|]; [|discriminate].
  unfold bind at 1.
  destruct (pack_uint_cases 4 0 w2) as [-> | ->]; [|discriminate].
  unfold bind at 1.
  destruct (pack_uint_cases 4 0 w2) as [-> | ->]; [|discriminate].
  unfold bind at 1.
  destruct (pack_uint_cases 4 (Z.of_nat (length data)) w2) as [-> | ->];
    [|discriminate].
  unfold bind at 1. rewrite write_run.
  destruct (fault (next_reply w2)); [discriminate|].
  rewrite wait_for_response_run. cbv zeta.
  change (60000 <=? 0)%Z with false. cbv iota.
  set (e3 := EvWrite DFU_PACKET_UUID _ false).
  intros H.
  exists (e1 :: evs ++ [e3]).
  destruct (response_queue _) as [|[op st] rest]; inversion H; subst w1;
    cbn [trace log advance update_self]; rewrite Htr2;
    cbn [app]; repeat rewrite <- app_assoc; cbn [app]; reflexivity.
Qed.

Lemma start_dfu_check_failed status w :
  status <> 1%Z ->
  start_dfu_check status w =
  (match fault (next_reply w) with
   | Some err => Raise (Transport err)
   | None => Raise (DfuException StartDfuFailed)
   end,
   advance (log (EvWrite DFU_CONTROL_POINT_UUID [OP_CODE_RESET] true) w)).
Proof.
  intros Hs. unfold start_dfu_check.
  replace (status =? 1)%Z with false by (symmetry; now apply Z.eqb_neq).
  cbn [negb]. unfold bind. rewrite write_run.
  destruct (fault (next_reply w)); reflexivity.
Qed.

(** The failure path of the start step.  The status of the start command
    is awaited for 60 s.  When it is not 1 the session writes the reset
    command; it then raises [DfuException("Start DFU sequence failed")],
    whose message no other [DfuException] of the program carries, when the
    write went through; when the write raised, its error leaves the
    session instead (the write of line 187 is not guarded, unlike the
    jump and activate writes). *)
Theorem start_failure_resets_then_fails device w status w1 :
  (modify_self (set_client (Some device)) ;; stabilize ;; start_dfu) w
  = (Ok status, w1) ->
  status <> 1%Z ->
  (exists evs, trace w1 = trace w ++ evs ++ [EvQueueGet 60000])
  /\ dfu_session device w
     = (match fault (next_reply w1) with
        | Some err => Raise (Transport err)
        | None => Raise (DfuException StartDfuFailed)
        end,
        advance (log (EvWrite DFU_CONTROL_POINT_UUID [OP_CODE_RESET] true) w1))
  /\ (forall e, dfu_message e = dfu_message StartDfuFailed -> e = StartDfuFailed).
Proof.
  intros Hrun Hs. split; [|split].
  - unfold bind at 1 2 in Hrun. unfold modify_self at 1 in Hrun.
    unfold stabilize, bind at 1 in Hrun. rewrite start_notify_run in Hrun.
    set (w0 := {| self := set_client (Some device) (self w);
                  future := future w; trace := trace w |}) in Hrun.
    destruct (fault (next_reply w0)); [discriminate|].
    unfold modify_self in Hrun.
    match type of Hrun with
    | start_dfu ?x = _ =>
        destruct (start_dfu_ends_with_wait x status w1 Hrun) as (evs & Htr)
    end.
    exists (EvStartNotify DFU_CONTROL_POINT_UUID :: evs).
    rewrite Htr. cbn [trace advance log w0]. rewrite <- app_assoc. reflexivity.
  - unfold dfu_session. unfold bind in Hrun |- *.
    destruct (modify_self _ w) as [[u|e] w2]; [|discriminate].
    destruct (stabilize w2) as [[u2|e] w3]; [|discriminate].
    rewrite Hrun. rewrite (start_dfu_check_failed status w1 Hs).
    destruct (fault (next_reply w1)); reflexivity.
  - intros e. destruct e; cbn; intros H; try discriminate H. reflexivity.
Qed.

Lemma start_failure_resets_then_fails_witness :
  fst (dfu_session sample_device (sample_world 0 (start_timeout_script quiet)))
  = Raise (DfuException StartDfuFailed).
Proof.
  set (w := sample_world 0 (start_timeout_script quiet)).
  pose (w1 := snd ((modify_self (set_client (Some sample_device)) ;;
                    stabilize ;; start_dfu) w)).
  destruct (start_failure_resets_then_fails sample_device w (-1)%Z w1)
    as (_ & H & _).
  - vm_compute. reflexivity.
  - discriminate.
  - rewrite H. reflexivity.
Defined.

(** C5.  The code at a start wait of 60 s during which nothing arrives.
    When the reset write goes through, the session and the attempt fail
    with "Start DFU sequence failed".  When the reset write raises a
    transport error, the error is not ignored: the reset write is the
    last thing the session does, and the session and the attempt fail
    with the error of the write, not with the error of the start step. *)
Theorem reset_error_not_ignored :
  let lost := fails (BleakError "disconnected") in
  fst (dfu_session sample_device (sample_world 0 (start_timeout_script quiet)))
  = Raise (DfuException StartDfuFailed)
  /\ fst (dfu_attempt sample_device
            (sample_world 0 (quiet :: start_timeout_script quiet)))
     = Raise (DfuException StartDfuFailed)
  /\ fst (dfu_session sample_device (sample_world 0 (start_timeout_script lost)))
     = Raise (Transport (BleakError "disconnected"))
  /\ fst (dfu_attempt sample_device
            (sample_world 0 (quiet :: start_timeout_script lost)))
     = Raise (Transport (BleakError "disconnected"))
  /\ last (trace (snd (dfu_session sample_device
                         (sample_world 0 (start_timeout_script lost)))))
          (EvSleep 0)
     = EvWrite DFU_CONTROL_POINT_UUID [OP_CODE_RESET] true.
Proof.
  cbv zeta. repeat split; vm_compute; reflexivity.
Qed.

(** ** Appending to the trace *)

Lemma oa_ret {A} (a : A) : only_appends (ret a).
Proof. intros w. exists []. now rewrite app_nil_r. Qed.

Lemma oa_raise {A} e : only_appends (@raise A e).
Proof. intros w. exists []. now rewrite app_nil_r. Qed.

Lemma oa_bind {A B} (m : M A) (k : A -> M B) :
  only_appends m -> (forall a, only_appends (k a)) -> only_appends (bind m k).
Proof.
  intros Hm Hk w. unfold bind. destruct (Hm w) as [evs Hevs].
  destruct (m w) as [[a|e] w1]; cbn [snd] in *.
  - destruct (Hk a w1) as [evs' Hevs']. exists (evs ++ evs').
    now rewrite Hevs', Hevs, app_assoc.
  - eauto.
Qed.

Lemma oa_try_except {A} sel (m : M A) h :
  only_appends m -> (forall e, only_appends (h e)) ->
  only_appends (try_except sel m h).
Proof.
  intros Hm Hh w. unfold try_except. destruct (Hm w) as [evs Hevs].
  destruct (m w) as [[a|e] w1]; cbn [snd] in *; [eauto|].
  destruct (sel e); cbn [snd]; [|eauto].
  destruct (Hh e w1) as [evs' Hevs']. exists (evs ++ evs').
  now rewrite Hevs', Hevs, app_assoc.
Qed.

Lemma oa_get_self : only_appends get_self.
Proof. intros w. exists []. now rewrite app_nil_r. Qed.

Lemma oa_modify_self f : only_appends (modify_self f).
Proof. intros w. exists []. cbn. now rewrite app_nil_r. Qed.

Lemma oa_emit e : only_appends (emit e).
Proof. intros w. exists [e]. reflexivity. Qed.

Lemma oa_suspend : only_appends suspend.
Proof. intros w. rewrite suspend_run. exists []. cbn. now rewrite app_nil_r. Qed.

Lemma oa_transport e : only_appends (transport e).
Proof. intros w. rewrite transport_run. exists [e]. reflexivity. Qed.

Lemma oa_write uuid payload response :
  only_appends (write_gatt_char uuid payload response).
Proof. intros w. rewrite write_run. eexists [_]. reflexivity. Qed.

Lemma oa_sleep ms : only_appends (sleep ms).
Proof. intros w. rewrite sleep_run. eexists [_]. reflexivity. Qed.

Lemma oa_for_each {A S} (body : A -> S -> M S) :
  (forall x acc, only_appends (body x acc)) ->
  forall xs acc, only_appends (for_each xs body acc).
Proof.
  intros Hb. induction xs as [|x xs IH]; intros acc; cbn [for_each].
  - apply oa_ret.
  - apply oa_bind; [apply Hb | intros; apply IH].
Qed.

Lemma oa_with_client {A} device (body : BLEDevice -> M A) :
  only_appends (body device) -> only_appends (with_client device body).
Proof.
  intros Hb w. rewrite with_client_run. cbv zeta.
  destruct (fault (next_reply w)); [eexists [_]; reflexivity|].
  destruct (Hb (advance (log (EvConnect (address device)) w))) as [evs Hevs].
  exists (EvConnect (address device) :: evs ++ [EvDisconnect (address device)]).
  destruct (fault (next_reply _)); cbn [snd trace advance log]; rewrite Hevs;
    cbn [trace advance log]; repeat rewrite <- app_assoc; reflexivity.
Qed.

Lemma oa_wait_for_response op timeout : only_appends (_wait_for_response op timeout).
Proof.
  intros w. rewrite wait_for_response_run. cbv zeta. eexists [_].
  destruct (timeout <=? 0)%Z; [reflexivity|].
  destruct (response_queue _) as [|[? ?] ?]; reflexivity.
Qed.

Lemma oa_pack_uint k n : only_appends (pack_uint k n).
Proof.
  intros w. exists []. rewrite app_nil_r.
  destruct (pack_uint_cases k n w) as [-> | ->]; reflexivity.
Qed.

Lemma re_suspend : raises_Exceptions suspend.
Proof. intros w e w' H. rewrite suspend_run in H. discriminate. Qed.

Lemma re_pack_uint k n : raises_Exceptions (pack_uint k n).
Proof.
  intros w e w' H. destruct (pack_uint_cases k n w) as [E | E]; rewrite E in H;
    inversion H. reflexivity.
Qed.

Lemma re_wait_for_response op timeout :
  raises_Exceptions (_wait_for_response op timeout).
Proof.
  intros w e w' H. rewrite wait_for_response_run in H. cbv zeta in H.
  destruct (timeout <=? 0)%Z; [discriminate|].
  destruct (response_queue _) as [|[? ?] ?]; discriminate.
Qed.

Ltac appends :=
  repeat first
    [ apply oa_ret | apply oa_raise | apply oa_get_self | apply oa_modify_self
    | apply oa_emit | apply oa_suspend | apply oa_transport | apply oa_write
    | apply oa_sleep | apply oa_wait_for_response | apply oa_pack_uint
    | apply oa_bind | apply oa_try_except | apply oa_for_each
    | apply oa_with_client
    | match goal with
      | |- forall _, _ => intro
      | |- only_appends (if ?c then _ else _) => destruct c
      | |- only_appends (match ?x with _ => _ end) => destruct x
      end ].

Ltac exceptions :=
  repeat first
    [ apply re_ret | apply re_get_self | apply re_modify_self | apply re_emit
    | apply re_transport | apply re_write | apply re_start_notify | apply re_sleep
    | apply re_suspend | apply re_pack_uint | apply re_wait_for_response
    | apply re_raise; reflexivity
    | apply re_bind | apply re_try_except | apply re_for_each
    | apply re_with_client
    | match goal with
      | |- forall _, _ => intro
      | |- raises_Exceptions (if ?c then _ else _) => destruct c
      | |- raises_Exceptions (match ?x with _ => _ end) => destruct x
      end ].

Lemma oa_stream_firmware : only_appends _stream_firmware.
Proof. unfold _stream_firmware, stream_chunk, client_write, receipt_wait. appends. Qed.

Lemma oa_dfu_session device : only_appends (dfu_session device).
Proof.
  unfold dfu_session, stabilize, start_notify, start_dfu, start_dfu_check, transfer,
    init_packet, configure_prn, receive_firmware, check_upload, validate,
    activate_and_reset.
  appends; apply oa_stream_firmware.
Qed.

Lemma oa_dfu_attempt device : only_appends (dfu_attempt device).
Proof. apply oa_with_client. apply oa_dfu_session. Qed.

Lemma re_stream_firmware : raises_Exceptions _stream_firmware.
Proof.
  unfold _stream_firmware, stream_chunk, client_write, receipt_wait.
  exceptions.
Qed.

Lemma re_dfu_session device : raises_Exceptions (dfu_session device).
Proof.
  unfold dfu_session, stabilize, start_dfu, start_dfu_check, transfer,
    init_packet, configure_prn, receive_firmware, check_upload, validate,
    activate_and_reset.
  exceptions; apply re_stream_firmware.
Qed.

Lemma re_dfu_attempt device : raises_Exceptions (dfu_attempt device).
Proof. apply re_with_client. apply re_dfu_session. Qed.

(** ** The queue at the start of an attempt *)

Lemma drain_empty q : drain q = [].
Proof. induction q as [|x q IH]; [reflexivity | exact IH]. Qed.

Lemma handler_requeue data o q :
  exists q', _notification_handler data (set_response_queue q o)
             = set_response_queue q' (_notification_handler data o).
Proof.
  unfold _notification_handler.
  destruct (nth_error data 0) as [opcode|]; [|now exists q].
  destruct (Byte.eqb opcode OP_CODE_RESPONSE_CODE).
  - destruct (nth_error data 1) as [op|]; [|now exists q].
    destruct (nth_error data 2) as [st|]; [|now exists q].
    exists (q ++ [(op, st)]). reflexivity.
  - destruct (Byte.eqb opcode OP_CODE_PACKET_RECEIPT_NOTIF); now exists q.
Qed.

Lemma deliver_requeue ns : forall o q,
  exists q', deliver ns (set_response_queue q o)
             = set_response_queue q' (deliver ns o).
Proof.
  induction ns as [|n ns IH]; intros o q; [now exists q|].
  rewrite !deliver_cons.
  destruct (handler_requeue n o q) as [q1 ->]. apply IH.
Qed.

Lemma advance_requeue w q :
  exists q', advance (requeue q w) = requeue q' (advance w).
Proof.
  unfold advance, requeue, update_self. cbn [self future trace].
  change (next_reply {| self := set_response_queue q (self w);
                        future := future w; trace := trace w |})
    with (next_reply w).
  destruct (deliver_requeue (notes (next_reply w)) (self w) q) as [q' ->].
  now exists q'.
Qed.

Lemma requeue_self w : requeue (response_queue (self w)) w = w.
Proof. destruct w as [[] fut tr]. reflexivity. Qed.

Lemma requeue_requeue q q' w : requeue q (requeue q' w) = requeue q w.
Proof. reflexivity. Qed.

Lemma stabilize_run w :
  stabilize w =
  let w1 := advance (log (EvStartNotify DFU_CONTROL_POINT_UUID) w) in
  match fault (next_reply w) with
  | Some err => (Raise (Transport err), w1)
  | None => (Ok tt, requeue (drain (response_queue (self w1))) w1)
  end.
Proof.
  unfold stabilize, bind. rewrite start_notify_run.
  destruct (fault (next_reply w)); reflexivity.
Qed.

Lemma dfu_session_split device w :
  dfu_session device w =
  let w0 := update_self (set_client (Some device)) w in
  let w1 := advance (log (EvStartNotify DFU_CONTROL_POINT_UUID) w0) in
  match fault (next_reply w0) with
  | Some err => (Raise (Transport err), w1)
  | None => session_steps (requeue (drain (response_queue (self w1))) w1)
  end.
Proof.
  unfold dfu_session. unfold bind at 1 2. unfold modify_self at 1.
  fold (update_self (set_client (Some device)) w).
  rewrite stabilize_run. cbv zeta.
  destruct (fault (next_reply _)); reflexivity.
Qed.

Lemma oa_session_steps : only_appends session_steps.
Proof.
  unfold session_steps, start_dfu, start_dfu_check, transfer, init_packet,
    configure_prn, receive_firmware, check_upload, validate, activate_and_reset.
  appends; apply oa_stream_firmware.
Qed.

Lemma session_requeue device w q :
  fst (dfu_session device (requeue q w)) = fst (dfu_session device w)
  /\ exists q', snd (dfu_session device (requeue q w))
                = requeue q' (snd (dfu_session device w)).
Proof.
  rewrite !dfu_session_split. cbv zeta.
  set (w0 := update_self (set_client (Some device)) w).
  change (update_self (set_client (Some device)) (requeue q w))
    with (requeue q w0).
  change (next_reply (requeue q w0)) with (next_reply w0).
  change (log (EvStartNotify DFU_CONTROL_POINT_UUID) (requeue q w0))
    with (requeue q (log (EvStartNotify DFU_CONTROL_POINT_UUID) w0)).
  destruct (advance_requeue (log (EvStartNotify DFU_CONTROL_POINT_UUID) w0) q)
    as [q1 ->].
  destruct (fault (next_reply w0)).
  - split; [reflexivity|]. now exists q1.
  - rewrite !drain_empty, requeue_requeue. split; [reflexivity|].
    eexists. symmetry. apply requeue_self.
Qed.

(** C10.  Each attempt subscribes first and empties the response queue
    before its first write, whatever the queue held and whatever arrived
    during the subscription.  So the queue an attempt starts with has no
    effect on its result nor on what it does: status events left from an
    earlier attempt answer no wait of this one. *)
Theorem attempt_ignores_earlier_events device w :
  (forall w', stabilize w = (Ok tt, w') ->
              response_queue (self w') = []
              /\ trace w' = trace w ++ [EvStartNotify DFU_CONTROL_POINT_UUID])
  /\ (exists evs, trace (snd (dfu_session device w))
                  = trace w ++ EvStartNotify DFU_CONTROL_POINT_UUID :: evs)
  /\ (forall q,
        fst (dfu_attempt device (requeue q w)) = fst (dfu_attempt device w)
        /\ exists q', snd (dfu_attempt device (requeue q w))
                      = requeue q' (snd (dfu_attempt device w))).
Proof.
  split; [|split].
  - intros w' H. rewrite stabilize_run in H. cbv zeta in H.
    destruct (fault (next_reply w)); inversion H.
    split; [apply drain_empty | reflexivity].
  - rewrite dfu_session_split. cbv zeta.
    destruct (fault (next_reply _)); [now exists []|].
    match goal with
    | |- context [snd (session_steps ?x)] =>
        destruct (oa_session_steps x) as [evs ->]; exists evs
    end.
    cbn [trace requeue update_self advance log].
    now rewrite <- app_assoc.
  - intros q. unfold dfu_attempt. rewrite !with_client_run. cbv zeta.
    change (next_reply (requeue q w)) with (next_reply w).
    change (log (EvConnect (address device)) (requeue q w))
      with (requeue q (log (EvConnect (address device)) w)).
    destruct (advance_requeue (log (EvConnect (address device)) w) q) as [q1 ->].
    destruct (fault (next_reply w)); [split; [reflexivity | now exists q1]|].
    destruct (session_requeue device
                (advance (log (EvConnect (address device)) w)) q1)
      as [Hfst [q2 Hsnd]].
    rewrite Hfst, Hsnd.
    change (next_reply (requeue q2 ?x)) with (next_reply x).
    change (log ?e (requeue q2 ?x)) with (requeue q2 (log e x)).
    destruct (advance_requeue
                (log (EvDisconnect (address device))
                     (snd (dfu_session device
                             (advance (log (EvConnect (address device)) w))))) q2)
      as [q3 ->].
    destruct (fault (next_reply _)); split; try reflexivity; now exists q3.
Qed.

Lemma attempt_ignores_earlier_events_witness :
  response_queue
    (self (snd (stabilize (requeue [(x02, x01)] (sample_world 0 []))))) = []
  /\ fst (dfu_attempt sample_device
            (requeue [(OP_CODE_START_DFU, x01)] (sample_world 0 (good_script quiet))))
     = fst (dfu_attempt sample_device (sample_world 0 (good_script quiet))).
Proof.
  split.
  - destruct (attempt_ignores_earlier_events sample_device
                (requeue [(x02, x01)] (sample_world 0 []))) as (H & _).
    apply (H _ eq_refl).
  - destruct (attempt_ignores_earlier_events sample_device
                (sample_world 0 (good_script quiet))) as (_ & _ & H).
    apply (H [(OP_CODE_START_DFU, x01)]).
Defined.

(** ** The retry loop *)

Lemma retry_loop_step device n attempt rest w :
  retry_loop device n (attempt :: rest) w =
  match dfu_attempt device w with
  | (Ok _, w1) => (Ok tt, w1)
  | (Raise e, w1) =>
      if (attempt <? n - 1)%Z
      then retry_loop device n rest (backoff w1)
      else (Raise (SystemExit 1), w1)
  end.
Proof.
  cbn [retry_loop]. unfold bind at 1, try_except, bind at 1.
  destruct (dfu_attempt device w) as [[u|e] w1] eqn:E; [reflexivity|].
  rewrite (re_dfu_attempt device _ _ _ E).
  destruct (attempt <? n - 1)%Z; [|reflexivity].
  unfold bind. rewrite sleep_run. reflexivity.
Qed.

Lemma retry_loop_after_failures device n : forall k start len w wk,
  after_failures device k w = Some wk ->
  (Z.of_nat (start + len) = n)%Z ->
  k < len ->
  retry_loop device n (map Z.of_nat (seq start len)) w
  = retry_loop device n (map Z.of_nat (seq (start + k) (len - k))) wk.
Proof.
  induction k as [|k IH]; intros start len w wk Hk Hn Hlen.
  - inversion Hk; subst. now rewrite Nat.add_0_r, Nat.sub_0_r.
  - cbn [after_failures] in Hk.
    destruct len as [|len]; [lia|]. cbn [seq map].
    rewrite retry_loop_step.
    destruct (dfu_attempt device w) as [[u|e] w1]; [discriminate|].
    replace (Z.of_nat start <? n - 1)%Z with true
      by (symmetry; apply Z.ltb_lt; lia).
    rewrite (IH (S start) len (backoff w1) wk Hk) by lia.
    replace (S start + k) with (start + S k) by lia. reflexivity.
Qed.

Lemma attempt_starts_with_connect device w :
  exists evs, trace (snd (dfu_attempt device w))
              = trace w ++ EvConnect (address device) :: evs.
Proof.
  unfold dfu_attempt. rewrite with_client_run. cbv zeta.
  destruct (fault (next_reply w)); [now exists []|].
  destruct (oa_dfu_session device (advance (log (EvConnect (address device)) w)))
    as [evs Hevs].
  exists (evs ++ [EvDisconnect (address device)]).
  destruct (fault (next_reply _)); cbn [snd trace advance log]; rewrite Hevs;
    cbn [trace advance log]; repeat rewrite <- app_assoc; reflexivity.
Qed.

Lemma after_failures_trace device : forall k w wk,
  after_failures device k w = Some wk ->
  exists segments,
    length segments = k
    /\ trace wk
       = trace w
         ++ concat (map (fun seg => EvConnect (address device) :: seg ++ [EvSleep 3000])
                        segments).
Proof.
  induction k as [|k IH]; intros w wk Hk.
  - inversion Hk; subst. exists []. split; [reflexivity|]. cbn. now rewrite app_nil_r.
  - cbn [after_failures] in Hk.
    destruct (attempt_starts_with_connect device w) as [evs Hevs].
    destruct (dfu_attempt device w) as [[u|e] w1]; [discriminate|].
    cbn [snd] in Hevs.
    destruct (IH (backoff w1) wk Hk) as (segs & Hlen & Htr).
    exists (evs :: segs). split; [cbn; lia|].
    rewrite Htr. cbn [backoff trace advance log map concat]. rewrite Hevs.
    cbn [app]. repeat rewrite <- app_assoc. cbn [app].
    repeat rewrite <- app_assoc. reflexivity.
Qed.

(** C4, as the code has it.  [perform_update] makes up to [max_retries]
    attempts (3 in [dfu.py]) on the device it was given, with the same
    object.  After a failed attempt that is not the last it sleeps 3 s and
    connects again; nothing locates the device again.  When [k] attempts
    failed and the next one succeeds, the update returns normally after
    exactly [k] pauses; when the last attempt fails too the process exits
    with status 1, without a pause. *)
Theorem perform_update_retries device n k w wk :
  after_failures device k w = Some wk ->
  (Z.of_nat k < n)%Z ->
  (exists segments,
      length segments = k
      /\ trace wk
         = trace w
           ++ concat (map (fun seg => EvConnect (address device) :: seg ++ [EvSleep 3000])
                          segments))
  /\ (forall w', dfu_attempt device wk = (Ok tt, w') ->
                 perform_update_with n device w = (Ok tt, w'))
  /\ (forall e w', dfu_attempt device wk = (Raise e, w') ->
                   (Z.of_nat k = n - 1)%Z ->
                   perform_update_with n device w = (Raise (SystemExit 1), w'))
  /\ perform_update device = perform_update_with 3 device.
Proof.
  intros Hk Hn. split; [exact (after_failures_trace device k w wk Hk)|].
  assert (Hloop : perform_update_with n device w
                  = retry_loop device n
                      (map Z.of_nat (seq k (Z.to_nat n - k))) wk).
  { unfold perform_update_with.
    rewrite (retry_loop_after_failures device n k 0 (Z.to_nat n) w wk Hk) by lia.
    reflexivity. }
  assert (Hseq : seq k (Z.to_nat n - k) = k :: seq (S k) (Z.to_nat n - k - 1)).
  { destruct (Z.to_nat n - k) as [|m] eqn:E; [lia|].
    replace (S m - 1) with m by lia. reflexivity. }
  rewrite Hloop, Hseq. cbn [map]. rewrite retry_loop_step.
  split; [|split].
  - intros w' ->. reflexivity.
  - intros e w' -> Hlast.
    replace (Z.of_nat k <? n - 1)%Z with false
      by (symmetry; apply Z.ltb_ge; lia).
    reflexivity.
  - reflexivity.
Qed.

Lemma perform_update_retries_witness :
  exists w',
    perform_update sample_device (sample_world 0 fail_fail_success_script)
    = (Ok tt, w')
    /\ length (filter (fun e => match e with
                                | EvSleep 3000 => true
                                | _ => false
                                end) (trace w')) = 2.
Proof.
  set (w := sample_world 0 fail_fail_success_script).
  pose (wk := backoff (snd (dfu_attempt sample_device
                              (backoff (snd (dfu_attempt sample_device w)))))).
  destruct (perform_update_retries sample_device 3 2 w wk) as (_ & H & _ & _).
  - vm_compute. reflexivity.
  - reflexivity.
  - exists (snd (dfu_attempt sample_device wk)). split.
    + apply H. vm_compute. reflexivity.
    + vm_compute. reflexivity.
Defined.

(** After the pause the loop connects to the same device again: no lookup
    follows the sleep.  The object is the one of the failed attempt: its
    receipt flag, set during that attempt, is still set when the second
    attempt, which gets no receipt notification, has gone through. *)
Lemma retry_reuses_device_and_session :
  let run := perform_update sample_device (sample_world 0 fail_success_script) in
  fst run = Ok tt
  /\ relocates_after_backoff (trace (snd run)) = false
  /\ pkg_receipt_event (self (sample_world 0 fail_success_script)) = false
  /\ pkg_receipt_event (self (snd run)) = true.
Proof. vm_compute. repeat split. Qed.

(** ** Device Locator *)

Lemma existsb_map_eq {A B} (f : B -> bool) (g : A -> B) xs :
  existsb f (map g xs) = existsb (fun x => f (g x)) xs.
Proof. induction xs as [|x xs IH]; [reflexivity|]. cbn. now rewrite IH. Qed.

Lemma scan_loop_first_match id service_uuid items :
  scan_loop id service_uuid items
  = option_map fst (find (matches id service_uuid) items).
Proof.
  induction items as [|[d adv] items IH]; [reflexivity|].
  cbn [scan_loop find]. unfold matches at 1.
  unfold address_matches at 1, name_matches at 1, service_matches at 1.
  cbn [fst snd].
  destruct (String.eqb (Str.upper (address d)) (Str.upper id)); [reflexivity|].
  cbn [orb].
  assert (Hname : match or_else (or_else (local_name adv) (name d)) (Some ""%string) with
                  | Some s => s
                  | None => ""%string
                  end
                  = match or_else (local_name adv) (name d) with
                    | Some s => s
                    | None => ""%string
                    end).
  { unfold or_else, truthy.
    destruct (local_name adv) as [l|]; [destruct (String.eqb l "") eqn:El|];
      cbn [negb].
    - destruct (name d) as [m|]; [destruct (String.eqb m "") eqn:Em|];
        cbn [negb]; try reflexivity.
      apply String.eqb_eq in Em. now subst.
    - rewrite El. reflexivity.
    - destruct (name d) as [m|]; [destruct (String.eqb m "") eqn:Em|];
        cbn [negb]; try reflexivity.
      apply String.eqb_eq in Em. now subst. }
  rewrite Hname.
  destruct (String.eqb _ id); [reflexivity|]. cbn [orb].
  destruct service_uuid as [u|]; [|exact IH].
  unfold truthy. rewrite existsb_map_eq.
  destruct (negb (String.eqb u "") && _)%bool; [reflexivity | exact IH].
Qed.

Lemma find_device_scan_run id adapter service_uuid w :
  find_device id true adapter service_uuid w =
  let w1 := advance (log (EvDiscover 5000) w) in
  match fault (next_reply w) with
  | Some err => (Raise (Transport err), w1)
  | None =>
      match scan_loop id service_uuid (scanned (next_reply w)) with
      | Some target => (Ok target, w1)
      | None => (Raise (DfuException DeviceNotFound), w1)
      end
  end.
Proof.
  unfold find_device. cbn [negb andb]. unfold bind at 1, ret at 1.
  unfold bind. rewrite transport_run.
  destruct (fault (next_reply w)); [reflexivity|]. cbv zeta.
  destruct (scan_loop _ _ _); reflexivity.
Qed.

(** C7, as the code has it.  The sweep is walked once, in scan order, and
    the first device that meets any criterion is taken: its address equals
    the identifier up to case, or its advertised name (else its device
    name, else the empty string) equals the identifier, or, when a
    non-empty service filter is given, its advertisement lists that
    service up to case.  Without a filter the service plays no part.  When
    no device meets a criterion the lookup raises "Device not found.". *)
Theorem scan_selects_first_match id service_uuid items :
  scan_loop id service_uuid items
  = option_map fst (find (matches id service_uuid) items)
  /\ (scan_loop id service_uuid items = None <->
      forall item, In item items -> matches id service_uuid item = false)
  /\ (forall item,
        matches id None item = (address_matches id item || name_matches id item)%bool)
  /\ (forall adapter w,
        fault (next_reply w) = None ->
        find_device id true adapter service_uuid w
        = (match scan_loop id service_uuid (scanned (next_reply w)) with
           | Some target => Ok target
           | None => Raise (DfuException DeviceNotFound)
           end, advance (log (EvDiscover 5000) w))).
Proof.
  split; [apply scan_loop_first_match|]. split; [|split].
  - rewrite scan_loop_first_match. split.
    + intros H item Hin.
      destruct (find (matches id service_uuid) items) eqn:E; [discriminate|].
      exact (find_none _ _ E item Hin).
    + intros H.
      destruct (find (matches id service_uuid) items) as [item|] eqn:E;
        [|reflexivity].
      apply find_some in E as [Hin Hm]. rewrite (H item Hin) in Hm. discriminate.
  - intros item. unfold matches, service_matches. now rewrite orb_false_r.
  - intros adapter w Hf. rewrite find_device_scan_run. cbv zeta. rewrite Hf.
    destruct (scan_loop _ _ _); reflexivity.
Qed.

Lemma scan_selects_first_match_witness :
  find_device "DFU" true None (Some DFU_SERVICE_UUID)
              (sample_world 0 [sees sample_scan])
  = (Ok (mkDevice "11:22:33:44:55:66" (Some "Bootloader"%string)),
     advance (log (EvDiscover 5000) (sample_world 0 [sees sample_scan]))).
Proof.
  destruct (scan_selects_first_match "DFU" (Some DFU_SERVICE_UUID) sample_scan)
    as (_ & _ & _ & H).
  rewrite (H None (sample_world 0 [sees sample_scan]) eq_refl).
  reflexivity.
Defined.

(** A device that only advertises the service is taken although a later
    device of the same sweep matches the identifier by name: selection by
    tiers would take the later one. *)
Lemma scan_is_not_tiered :
  scan_loop "DFU" (Some DFU_SERVICE_UUID) sample_scan
  = Some (mkDevice "11:22:33:44:55:66" (Some "Bootloader"%string))
  /\ tiered_select "DFU" (Some DFU_SERVICE_UUID) sample_scan
     = Some (mkDevice "AA:BB:CC:DD:EE:00" (Some "DFU"%string))
  /\ scan_loop "DFU" (Some DFU_SERVICE_UUID) sample_scan
     <> tiered_select "DFU" (Some DFU_SERVICE_UUID) sample_scan.
Proof. repeat split. discriminate. Qed.

(** ** The address of the bootloader *)

Lemma hex_digit_facts c h :
  Str.hex_digit c = Some h ->
  Str.is_space c = false
  /\ Ascii.eqb c "+" = false /\ Ascii.eqb c "-" = false
  /\ Ascii.eqb c "_" = false
  /\ Ascii.eqb c "x" = false /\ Ascii.eqb c "X" = false
  /\ (0 <= h < 16)%Z.
Proof.
  destruct c as [[] [] [] [] [] [] [] []]; vm_compute; intros H;
    try discriminate H; inversion H; subst;
    repeat split; discriminate.
Qed.

Lemma hex_char_digit d :
  (0 <= d < 16)%Z ->
  Str.hex_digit (Str.hex_char d) = Some d /\ upper_hex (Str.hex_char d) = true.
Proof.
  intros Hd.
  assert (H : (d = 0 \/ d = 1 \/ d = 2 \/ d = 3 \/ d = 4 \/ d = 5 \/ d = 6 \/ d = 7
               \/ d = 8 \/ d = 9 \/ d = 10 \/ d = 11 \/ d = 12 \/ d = 13 \/ d = 14
               \/ d = 15)%Z) by lia.
  repeat (destruct H as [-> | H]; [split; reflexivity|]).
  subst; split; reflexivity.
Qed.

Lemma int16_two_hex a b x y :
  Str.hex_digit a = Some x -> Str.hex_digit b = Some y ->
  Str.int16 (String a (String b EmptyString)) = Some (16 * x + y)%Z.
Proof.
  intros Ha Hb.
  destruct (hex_digit_facts a x Ha) as (Sa & Pa & Ma & Ua & _ & _ & _).
  destruct (hex_digit_facts b y Hb) as (Sb & _ & _ & Ub & Xb & XXb & _).
  unfold Str.int16, Str.strip. cbn [list_ascii_of_string Str.lstrip].
  rewrite Sa. cbn [rev app Str.lstrip]. rewrite Sb. cbn [rev app].
  rewrite Pa, Ma, Xb, XXb. cbn [orb]. rewrite andb_false_r, Ua.
  cbn [Str.digits16]. rewrite Ua, Ha, Ub, Hb. cbn [option_map].
  f_equal; lia.
Qed.

Lemma contains_later sub c s :
  Str.contains sub s = true -> Str.contains sub (String c s) = true.
Proof. intros H. cbn [Str.contains]. rewrite H. apply orb_true_r. Qed.

Lemma string_of_length_17 s :
  String.length s = 17 ->
  exists c1 c2 c3 c4 c5 c6 c7 c8 c9 c10 c11 c12 c13 c14 c15 c16 c17,
    s = String c1 (String c2 (String c3 (String c4 (String c5 (String c6
        (String c7 (String c8 (String c9 (String c10 (String c11 (String c12
        (String c13 (String c14 (String c15 (String c16 (String c17
        EmptyString)))))))))))))))).
Proof.
  intros H.
  do 17 (destruct s as [|? s]; [discriminate H|]; cbn [String.length] in H;
         apply Nat.succ_inj in H).
  destruct s; [|discriminate H].
  repeat eexists.
Qed.

Lemma hint_of_mac mac o1 o2 o3 o4 o5 o6 :
  mac_octets mac = Some [o1; o2; o3; o4; o5; o6] ->
  exists hint,
    bootloader_mac_hint mac = Some hint
    /\ mac_octets hint = Some [o1; o2; o3; o4; o5; ((o6 + 1) mod 256)%Z]
    /\ Str.drop_last2 hint = Str.drop_last2 mac
    /\ (exists a b, Str.last2 hint = String a (String b EmptyString)
                    /\ upper_hex a = true /\ upper_hex b = true).
Proof.
  unfold mac_octets. destruct (String.length mac =? 17) eqn:Hlen; [|discriminate].
  apply Nat.eqb_eq in Hlen.
  destruct (string_of_length_17 mac Hlen)
    as (c1 & c2 & c3 & c4 & c5 & c6 & c7 & c8 & c9 & c10 & c11 & c12 & c13
        & c14 & c15 & c16 & c17 & ->).
  clear Hlen. cbn [list_ascii_of_string octets_of].
  destruct (Ascii.eqb c3 ":") eqn:E3; [|discriminate].
  destruct (Str.hex_digit c1) as [x1|] eqn:H1; [|discriminate].
  destruct (Str.hex_digit c2) as [y1|] eqn:H2; [|discriminate].
  destruct (Ascii.eqb c6 ":") eqn:E6; [|discriminate].
  destruct (Str.hex_digit c4) as [x2|] eqn:H4; [|discriminate].
  destruct (Str.hex_digit c5) as [y2|] eqn:H5; [|discriminate].
  destruct (Ascii.eqb c9 ":") eqn:E9; [|discriminate].
  destruct (Str.hex_digit c7) as [x3|] eqn:H7; [|discriminate].
  destruct (Str.hex_digit c8) as [y3|] eqn:H8; [|discriminate].
  destruct (Ascii.eqb c12 ":") eqn:E12; [|discriminate].
  destruct (Str.hex_digit c10) as [x4|] eqn:H10; [|discriminate].
  destruct (Str.hex_digit c11) as [y4|] eqn:H11; [|discriminate].
  destruct (Ascii.eqb c15 ":") eqn:E15; [|discriminate].
  destruct (Str.hex_digit c13) as [x5|] eqn:H13; [|discriminate].
  destruct (Str.hex_digit c14) as [y5|] eqn:H14; [|discriminate].
  destruct (Str.hex_digit c16) as [x6|] eqn:H16; [|discriminate].
  destruct (Str.hex_digit c17) as [y6|] eqn:H17; [|discriminate].
  remember (16 * x1 + y1)%Z as v1. remember (16 * x2 + y2)%Z as v2.
  remember (16 * x3 + y3)%Z as v3. remember (16 * x4 + y4)%Z as v4.
  remember (16 * x5 + y5)%Z as v5. remember (16 * x6 + y6)%Z as v6.
  intros H. injection H as <- <- <- <- <- <-.
  pose proof (Ascii.eqb_eq c3 ":") as [E3' _]. specialize (E3' E3).
  destruct (hex_digit_facts c16 x6 H16) as (_ & _ & _ & _ & _ & _ & Rx).
  destruct (hex_digit_facts c17 y6 H17) as (_ & _ & _ & _ & _ & _ & Ry).
  set (v := ((v6 + 1) mod 256)%Z).
  assert (Hv : (0 <= v < 256)%Z) by (apply Z.mod_pos_bound; lia).
  assert (Hhi : (0 <= v / 16 < 16)%Z)
    by (split; [apply Z.div_pos; lia | apply Z.div_lt_upper_bound; lia]).
  assert (Hlo : (0 <= v mod 16 < 16)%Z) by (apply Z.mod_pos_bound; lia).
  destruct (hex_char_digit (v / 16) Hhi) as [Dhi Uhi].
  destruct (hex_char_digit (v mod 16) Hlo) as [Dlo Ulo].
  eexists. split; [|split; [|split]].
  - unfold bootloader_mac_hint.
    replace (Str.contains ":" _) with true.
    2:{ symmetry. do 2 apply contains_later. subst c3. reflexivity. }
    cbn [String.length Nat.eqb andb].
    unfold Str.last2, Str.drop_last2.
    cbn [String.length Nat.sub substring].
    rewrite (int16_two_hex c16 c17 x6 y6 H16 H17). rewrite <- Heqv6.
    change 255%Z with (Z.ones 8). rewrite Z.land_ones by lia.
    change (2 ^ 8)%Z with 256%Z. fold v.
    unfold Str.format_02X. cbn [append]. reflexivity.
  - cbn [String.length Nat.eqb list_ascii_of_string octets_of].
    rewrite E3, E6, E9, E12, E15, H1, H2, H4, H5, H7, H8, H10, H11, H13, H14.
    rewrite Dhi, Dlo. subst v1 v2 v3 v4 v5.
    repeat f_equal. pose proof (Z.div_mod v 16). lia.
  - reflexivity.
  - exists (Str.hex_char (v / 16)), (Str.hex_char (v mod 16)).
    repeat split; assumption.
Qed.

Lemma locate_bootloader_found app_device adapter w d w1 :
  find_device "DFU" true adapter (Some DFU_SERVICE_UUID) w = (Ok d, w1) ->
  locate_bootloader app_device adapter w = (Ok d, w1).
Proof.
  intros H. unfold locate_bootloader, bind at 1, try_except at 1, bind at 1.
  rewrite H. reflexivity.
Qed.

Lemma locate_bootloader_fallback app_device adapter w e w1 hint :
  find_device "DFU" true adapter (Some DFU_SERVICE_UUID) w
  = (Raise (DfuException e), w1) ->
  bootloader_mac_hint (address app_device) = Some hint ->
  locate_bootloader app_device adapter w
  = match find_device hint true adapter None w1 with
    | (Ok d, w2) => (Ok d, w2)
    | (Raise _, w2) => (Raise (DfuException BootloaderNotFound), w2)
    end.
Proof.
  intros H Hh. unfold locate_bootloader, bind at 1, try_except at 1, bind at 1.
  rewrite H. cbn [is_DfuException ret]. rewrite Hh.
  unfold bind, try_except.
  destruct (find_device hint true adapter None w1) as [[d|e'] w2]; reflexivity.
Qed.

(** C8.  For an address of six colon-separated pairs of hexadecimal
    digits the hint keeps the first fifteen characters and replaces the
    last octet by its successor modulo 256, written as two uppercase
    hexadecimal digits.  The hint is looked up only when the scan by
    service UUID raised "Device not found.": a device found by that scan
    is the result, and nothing more is done. *)
Theorem bootloader_hint_increments_last_octet :
  (forall mac o1 o2 o3 o4 o5 o6,
      mac_octets mac = Some [o1; o2; o3; o4; o5; o6] ->
      exists hint,
        bootloader_mac_hint mac = Some hint
        /\ mac_octets hint = Some [o1; o2; o3; o4; o5; ((o6 + 1) mod 256)%Z]
        /\ Str.drop_last2 hint = Str.drop_last2 mac
        /\ (exists a b, Str.last2 hint = String a (String b EmptyString)
                        /\ upper_hex a = true /\ upper_hex b = true))
  /\ bootloader_mac_hint "AA:BB:CC:DD:EE:FF" = Some "AA:BB:CC:DD:EE:00"%string
  /\ bootloader_mac_hint "AA:BB:CC:DD:EE:01" = Some "AA:BB:CC:DD:EE:02"%string
  /\ (forall app_device adapter w d w1,
        find_device "DFU" true adapter (Some DFU_SERVICE_UUID) w = (Ok d, w1) ->
        locate_bootloader app_device adapter w = (Ok d, w1))
  /\ (forall app_device adapter w e w1 hint,
        find_device "DFU" true adapter (Some DFU_SERVICE_UUID) w
        = (Raise (DfuException e), w1) ->
        bootloader_mac_hint (address app_device) = Some hint ->
        locate_bootloader app_device adapter w
        = match find_device hint true adapter None w1 with
          | (Ok d, w2) => (Ok d, w2)
          | (Raise _, w2) => (Raise (DfuException BootloaderNotFound), w2)
          end).
Proof.
  split; [exact hint_of_mac|]. split; [reflexivity|]. split; [reflexivity|].
  split; [exact locate_bootloader_found | exact locate_bootloader_fallback].
Qed.

Lemma bootloader_hint_increments_last_octet_witness :
  (exists hint,
      bootloader_mac_hint "c4:7f:0e:9a:51:ff" = Some hint
      /\ mac_octets hint = Some [196; 127; 14; 154; 81; 0]%Z)
  /\ fst (locate_bootloader sample_device None
            (sample_world 0 [sees []; sees [(mkDevice "AA:BB:CC:DD:EE:00" None,
                                             mkAdv None [])]]))
     = Ok (mkDevice "AA:BB:CC:DD:EE:00" None).
Proof.
  destruct bootloader_hint_increments_last_octet as (H & _ & _ & _ & F).
  split.
  - destruct (H "c4:7f:0e:9a:51:ff"%string 196 127 14 154 81 255 eq_refl)%Z
      as (hint & Hh & Ho & _).
    exists hint. split; assumption.
  - set (w0 := sample_world 0 _).
    rewrite (F sample_device None w0 DeviceNotFound
               (advance (log (EvDiscover 5000) w0))
               "AA:BB:CC:DD:EE:00"%string eq_refl eq_refl).
    reflexivity.
Defined.

(** ** Firmware Package *)

Lemma zread_ok z name content :
  zread z name = Ok content ->
  exists s, name = JStr s /\ getinfo z s = Some (Some content).
Proof.
  unfold zread. destruct name as [| | |s| |]; try discriminate.
  destruct (getinfo z s) as [[c|]|] eqn:E; try discriminate.
  intros H. inversion H; subst. now exists s.
Qed.

Lemma lift_ok {A} (r : result A) w a w' :
  lift r w = (Ok a, w') -> r = Ok a /\ w' = w.
Proof. unfold lift. intros H. inversion H. now split. Qed.

Lemma bind_ok {A B} (m : M A) (k : A -> M B) w b w' :
  bind m k w = (Ok b, w') ->
  exists a w1, m w = (Ok a, w1) /\ k a w1 = (Ok b, w').
Proof.
  unfold bind. destruct (m w) as [[a|e] w1]; [|discriminate]. eauto.
Qed.

(** C9, as the code has it.  When [parse_zip] returns, the image and the
    init packet are both set, each to the content of a member of the
    archive at [zip_path]; a load that cannot read both raises instead.
    Neither content is checked for emptiness.  The load touches neither
    the link nor the trace. *)
Theorem parse_zip_sets_both_parts disk json_load w w' :
  parse_zip disk json_load w = (Ok tt, w') ->
  exists z bin dat bin_file dat_file,
    disk (zip_path (self w)) = Zip z
    /\ bin_data (self w') = Some bin
    /\ dat_data (self w') = Some dat
    /\ getinfo z bin_file = Some (Some bin)
    /\ getinfo z dat_file = Some (Some dat)
    /\ trace w' = trace w /\ future w' = future w.
Proof.
  unfold parse_zip. intros H.
  apply bind_ok in H as (o & w0 & Hget & H). inversion Hget; subst o w0; clear Hget.
  destruct (disk (zip_path (self w))) as [| |z] eqn:Hdisk; try discriminate.
  exists z.
  destruct (existsb (String.eqb "manifest.json") (namelist z)).
  - apply bind_ok in H as (raw & w1 & Hraw & H).
    apply lift_ok in Hraw as [_ ->].
    destruct (json_load raw) as [m|]; [|discriminate].
    apply bind_ok in H as ([] & w2 & Hm & H). inversion Hm; subst w2; clear Hm.
    apply bind_ok in H as (hm & w3 & Hhm & H). apply lift_ok in Hhm as [_ ->].
    apply bind_ok in H as (ha & w4 & Hha & H).
    assert (w4 = mkWorld (set_manifest (Some m) (self w)) (future w) (trace w)).
    { destruct hm.
      - apply bind_ok in Hha as (inner & w5 & Hi & Hha).
        apply lift_ok in Hi as [_ ->]. now apply lift_ok in Hha as [_ ->].
      - now inversion Hha. }
    subst w4. clear Hha.
    destruct ha; [|discriminate].
    apply bind_ok in H as (inner & w5 & Hi & H). apply lift_ok in Hi as [_ ->].
    apply bind_ok in H as (app_info & w6 & Hi & H). apply lift_ok in Hi as [_ ->].
    apply bind_ok in H as (bin_file & w7 & Hi & H). apply lift_ok in Hi as [_ ->].
    apply bind_ok in H as (bin & w8 & Hbin & H). apply lift_ok in Hbin as [Hbin ->].
    apply bind_ok in H as ([] & w9 & Hm & H). inversion Hm; subst w9; clear Hm.
    apply bind_ok in H as (dat_file & w10 & Hi & H). apply lift_ok in Hi as [_ ->].
    apply bind_ok in H as (dat & w11 & Hdat & H). apply lift_ok in Hdat as [Hdat ->].
    inversion H; subst w'; clear H.
    apply zread_ok in Hbin as (nb & _ & Hnb). apply zread_ok in Hdat as (nd & _ & Hnd).
    exists bin, dat, nb, nd. repeat split; assumption.
  - destruct (first_application ".bin" (namelist z)) as [bin_file|]; [|discriminate].
    destruct (first_application ".dat" (namelist z)) as [dat_file|]; [|discriminate].
    apply bind_ok in H as (bin & w8 & Hbin & H). apply lift_ok in Hbin as [Hbin ->].
    apply bind_ok in H as ([] & w9 & Hm & H). inversion Hm; subst w9; clear Hm.
    apply bind_ok in H as (dat & w11 & Hdat & H). apply lift_ok in Hdat as [Hdat ->].
    inversion H; subst w'; clear H.
    apply zread_ok in Hbin as (nb & _ & Hnb). apply zread_ok in Hdat as (nd & _ & Hnd).
    exists bin, dat, nb, nd. repeat split; assumption.
Qed.

Lemma parse_zip_sets_both_parts_witness :
  exists bin dat,
    bin_data (self (snd (parse_zip manifest_disk sample_json_load fresh_world)))
    = Some bin
    /\ dat_data (self (snd (parse_zip manifest_disk sample_json_load fresh_world)))
       = Some dat.
Proof.
  destruct (parse_zip_sets_both_parts manifest_disk sample_json_load fresh_world
              (snd (parse_zip manifest_disk sample_json_load fresh_world)) eq_refl)
    as (z & bin & dat & nb & nd & _ & Hb & Hd & _).
  exists bin, dat. split; assumption.
Defined.

(** A package whose application image is an empty file loads without an
    error, and the image is empty. *)
Lemma parse_zip_accepts_empty_image :
  fst (parse_zip (legacy_disk []) (fun _ => None) fresh_world) = Ok tt
  /\ bin_data (self (snd (parse_zip (legacy_disk []) (fun _ => None) fresh_world)))
     = Some [].
Proof. split; reflexivity. Qed.

(** * Further properties *)

(** ** Notifications, decoded *)

Lemma handler_decode data o :
  _notification_handler data o =
  match decode data with
  | Some (CommandStatus op st) =>
      set_response_queue (response_queue o ++ [(op, st)]) o
  | Some ReceiptNotification => set_pkg_receipt_event true o
  | None => o
  end.
Proof.
  unfold _notification_handler, decode.
  destruct data as [|opcode [|op [|st rest]]]; cbn [nth_error]; try reflexivity;
    destruct (Byte.eqb opcode OP_CODE_RESPONSE_CODE); try reflexivity;
    destruct (Byte.eqb opcode OP_CODE_PACKET_RECEIPT_NOTIF); reflexivity.
Qed.

Lemma deliver_response_queue ns : forall o,
  response_queue (deliver ns o) = response_queue o ++ statuses ns.
Proof.
  induction ns as [|n ns IH]; intros o.
  - cbn. now rewrite app_nil_r.
  - rewrite deliver_cons, IH, handler_decode. unfold statuses. cbn [flat_map].
    destruct (decode n) as [[op st|]|];
      cbn [response_queue set_response_queue set_pkg_receipt_event app];
      try reflexivity.
    now rewrite <- app_assoc.
Qed.

Lemma deliver_receipt_event ns : forall o,
  pkg_receipt_event (deliver ns o) = (pkg_receipt_event o || has_receipt ns)%bool.
Proof.
  induction ns as [|n ns IH]; intros o.
  - cbn. now rewrite orb_false_r.
  - rewrite deliver_cons, IH, handler_decode. cbn [has_receipt existsb].
    destruct (decode n) as [[op st|]|];
      cbn [pkg_receipt_event set_response_queue set_pkg_receipt_event orb];
      try reflexivity.
    now rewrite orb_true_r.
Qed.

(** X1.  Notifications are handled in arrival order: the status events
    among them are appended to the response queue in that order, none is
    dropped or duplicated, and the receipt event is set exactly when a
    receipt notification is among them (or it was set before).  A status
    notification shorter than three bytes queues nothing; a receipt
    notification of any length sets the event. *)
Theorem notifications_queue_in_order ns o :
  response_queue (deliver ns o) = response_queue o ++ statuses ns
  /\ pkg_receipt_event (deliver ns o) = (pkg_receipt_event o || has_receipt ns)%bool
  /\ statuses [[OP_CODE_RESPONSE_CODE]] = []
  /\ (forall op, statuses [[OP_CODE_RESPONSE_CODE; op]] = [])
  /\ (forall rest, has_receipt [OP_CODE_PACKET_RECEIPT_NOTIF :: rest] = true).
Proof.
  split; [apply deliver_response_queue|]. split; [apply deliver_receipt_event|].
  split.
  - reflexivity.
  - split; [reflexivity|]. intros rest. reflexivity.
Qed.

(** X2.  The streamer clears the receipt event before it waits: a receipt
    notification that arrived before the wait is forgotten, and after the
    wait the event is set exactly when a receipt notification arrived
    during the wait itself.  The wait returns normally either way. *)
Theorem receipt_before_wait_is_lost w :
  fst (receipt_wait w) = Ok tt
  /\ pkg_receipt_event (self (snd (receipt_wait w)))
     = has_receipt (notes (next_reply w))
  /\ trace (snd (receipt_wait w)) = trace w ++ [EvReceiptClear; EvReceiptWait 5000].
Proof.
  rewrite receipt_wait_run. cbn [fst snd]. split; [reflexivity|]. split.
  - cbn [advance self log update_self].
    rewrite deliver_receipt_event. reflexivity.
  - cbn [advance trace log update_self]. now rewrite <- app_assoc.
Qed.

(** ** What a computation emits *)

Section Emits.

Variable P : event -> Prop.

Lemma eo_ret {A} (a : A) : emits_only P (ret a).
Proof. intros w. exists []. split; [now rewrite app_nil_r | constructor]. Qed.

Lemma eo_raise {A} e : emits_only P (@raise A e).
Proof. intros w. exists []. split; [now rewrite app_nil_r | constructor]. Qed.

Lemma eo_bind {A B} (m : M A) (k : A -> M B) :
  emits_only P m -> (forall a, emits_only P (k a)) -> emits_only P (bind m k).
Proof.
  intros Hm Hk w. unfold bind. destruct (Hm w) as (evs & Hevs & HP).
  destruct (m w) as [[a|e] w1]; cbn [snd] in *.
  - destruct (Hk a w1) as (evs' & Hevs' & HP'). exists (evs ++ evs'). split.
    + now rewrite Hevs', Hevs, app_assoc.
    + apply Forall_app. now split.
  - eauto.
Qed.

Lemma eo_try_except {A} sel (m : M A) h :
  emits_only P m -> (forall e, emits_only P (h e)) ->
  emits_only P (try_except sel m h).
Proof.
  intros Hm Hh w. unfold try_except. destruct (Hm w) as (evs & Hevs & HP).
  destruct (m w) as [[a|e] w1]; cbn [snd] in *; [eauto|].
  destruct (sel e); cbn [snd]; [|eauto].
  destruct (Hh e w1) as (evs' & Hevs' & HP'). exists (evs ++ evs'). split.
  - now rewrite Hevs', Hevs, app_assoc.
  - apply Forall_app. now split.
Qed.

Lemma eo_get_self : emits_only P get_self.
Proof. intros w. exists []. split; [now rewrite app_nil_r | constructor]. Qed.

Lemma eo_modify_self f : emits_only P (modify_self f).
Proof. intros w. exists []. split; [cbn; now rewrite app_nil_r | constructor]. Qed.

Lemma eo_lift {A} (r : result A) : emits_only P (lift r).
Proof. intros w. exists []. split; [now rewrite app_nil_r | constructor]. Qed.

Lemma eo_emit e : P e -> emits_only P (emit e).
Proof. intros He w. exists [e]. split; [reflexivity | now constructor]. Qed.

Lemma eo_suspend : emits_only P suspend.
Proof.
  intros w. rewrite suspend_run. exists [].
  split; [cbn; now rewrite app_nil_r | constructor].
Qed.

Lemma eo_transport e : P e -> emits_only P (transport e).
Proof.
  intros He w. rewrite transport_run. exists [e].
  split; [reflexivity | now constructor].
Qed.

Lemma eo_write uuid payload response :
  P (EvWrite uuid payload response) ->
  emits_only P (write_gatt_char uuid payload response).
Proof.
  intros He. apply eo_bind; [now apply eo_transport | intros; apply eo_ret].
Qed.

Lemma eo_start_notify uuid :
  P (EvStartNotify uuid) -> emits_only P (start_notify uuid).
Proof.
  intros He. apply eo_bind; [now apply eo_transport | intros; apply eo_ret].
Qed.

Lemma eo_sleep ms : P (EvSleep ms) -> emits_only P (sleep ms).
Proof.
  intros He. unfold sleep.
  apply eo_bind; [now apply eo_emit | intros].
  apply eo_bind; [apply eo_suspend | intros; apply eo_ret].
Qed.

Lemma eo_for_each {A S} (body : A -> S -> M S) :
  (forall x acc, emits_only P (body x acc)) ->
  forall xs acc, emits_only P (for_each xs body acc).
Proof.
  intros Hb. induction xs as [|x xs IH]; intros acc; cbn [for_each].
  - apply eo_ret.
  - apply eo_bind; [apply Hb | intros; apply IH].
Qed.

Lemma eo_pack_uint k n : emits_only P (pack_uint k n).
Proof.
  intros w. exists []. rewrite app_nil_r.
  split; [|constructor].
  destruct (pack_uint_cases k n w) as [-> | ->]; reflexivity.
Qed.

Lemma eo_wait_for_response op timeout :
  P (EvQueueGet timeout) -> emits_only P (_wait_for_response op timeout).
Proof.
  intros He w. rewrite wait_for_response_run. cbv zeta. exists [EvQueueGet timeout].
  split; [|now constructor].
  destruct (timeout <=? 0)%Z; [reflexivity|].
  destruct (response_queue _) as [|[? ?] ?]; reflexivity.
Qed.

End Emits.

Ltac emits :=
  repeat first
    [ apply eo_ret | apply eo_raise | apply eo_get_self | apply eo_modify_self
    | apply eo_lift | apply eo_suspend | apply eo_pack_uint
    | apply eo_bind | apply eo_try_except | apply eo_for_each
    | apply eo_emit | apply eo_transport | apply eo_write | apply eo_start_notify
    | apply eo_sleep | apply eo_wait_for_response
    | match goal with
      | |- forall _, _ => intro
      | |- emits_only _ (if ?c then _ else _) => destruct c
      | |- emits_only _ (match ?x with _ => _ end) => destruct x
      end ].

Lemma eo_stream_firmware : emits_only session_event _stream_firmware.
Proof.
  unfold _stream_firmware, stream_chunk, client_write, receipt_wait.
  emits; exact I.
Qed.

Lemma eo_dfu_session device : emits_only session_event (dfu_session device).
Proof.
  unfold dfu_session, stabilize, start_dfu, start_dfu_check, transfer,
    init_packet, configure_prn, receive_firmware, check_upload, validate,
    activate_and_reset.
  emits; first [exact I | apply eo_stream_firmware].
Qed.

(** ** Connections are released *)

Lemma with_client_trace {A} device (body : BLEDevice -> M A) w :
  emits_only session_event (body device) ->
  match fault (next_reply w) with
  | Some err =>
      with_client device body w
      = (Raise (Transport err), advance (log (EvConnect (address device)) w))
  | None =>
      exists evs,
        emitted w (snd (with_client device body w))
        = EvConnect (address device) :: evs ++ [EvDisconnect (address device)]
        /\ Forall session_event evs
  end.
Proof.
  intros Hb. rewrite with_client_run. cbv zeta.
  destruct (fault (next_reply w)); [reflexivity|].
  destruct (Hb (advance (log (EvConnect (address device)) w))) as (evs & Hevs & HP).
  exists evs. split; [|exact HP]. apply emitted_app.
  destruct (fault (next_reply _)); cbn [snd trace advance log]; rewrite Hevs;
    cbn [trace advance log]; repeat rewrite <- app_assoc; reflexivity.
Qed.

(** X3.  An attempt releases its connection on every way out.  When the
    connect fails nothing else is done.  Otherwise what the attempt emits
    starts with the connect, ends with the disconnect, and has no other
    connect, disconnect or lookup in between. *)
Theorem attempt_releases_connection device w :
  match fault (next_reply w) with
  | Some err =>
      fst (dfu_attempt device w) = Raise (Transport err)
      /\ emitted w (snd (dfu_attempt device w)) = [EvConnect (address device)]
  | None =>
      exists evs,
        emitted w (snd (dfu_attempt device w))
        = EvConnect (address device) :: evs ++ [EvDisconnect (address device)]
        /\ Forall session_event evs
  end.
Proof.
  pose proof (with_client_trace device dfu_session w (eo_dfu_session device)) as H.
  unfold dfu_attempt. destruct (fault (next_reply w)); [|exact H].
  rewrite H. split; [reflexivity|]. apply emitted_app. reflexivity.
Qed.

Lemma jump_to_bootloader_run device w :
  let jump := EvWrite DFU_CONTROL_POINT_UUID
                      [OP_CODE_ENTER_BOOTLOADER; UPLOAD_MODE_APPLICATION] true in
  let w1 := advance (log (EvConnect (address device)) w) in
  let w2 := advance (log (EvStartNotify DFU_CONTROL_POINT_UUID) w1) in
  jump_to_bootloader device w
  = (Ok tt,
     match fault (next_reply w), fault (next_reply w1) with
     | Some _, _ => w1
     | None, Some _ => advance (log (EvDisconnect (address device)) w2)
     | None, None =>
         advance (log (EvDisconnect (address device))
                      (advance (log (EvSleep 500) (advance (log jump w2)))))
     end).
Proof.
  cbv zeta. unfold jump_to_bootloader, try_except at 1. rewrite with_client_run.
  cbv zeta.
  destruct (fault (next_reply w)); [reflexivity|].
  set (w1 := advance (log (EvConnect (address device)) w)).
  assert (Hbody :
            (start_notify DFU_CONTROL_POINT_UUID;;
             try_except is_Exception
               (write_gatt_char DFU_CONTROL_POINT_UUID
                                [OP_CODE_ENTER_BOOTLOADER; UPLOAD_MODE_APPLICATION] true)
               (fun _ : exn => ret tt);;
             sleep 500) w1
            = match fault (next_reply w1) with
              | Some err =>
                  (Raise (Transport err),
                   advance (log (EvStartNotify DFU_CONTROL_POINT_UUID) w1))
              | None =>
                  (Ok tt,
                   advance (log (EvSleep 500)
                     (advance (log (EvWrite DFU_CONTROL_POINT_UUID
                                      [OP_CODE_ENTER_BOOTLOADER; UPLOAD_MODE_APPLICATION]
                                      true)
                        (advance (log (EvStartNotify DFU_CONTROL_POINT_UUID) w1))))))
              end).
  { unfold bind at 1. rewrite start_notify_run.
    destruct (fault (next_reply w1)); [reflexivity|].
    unfold bind, try_except. rewrite write_run.
    destruct (fault (next_reply _)); cbn [is_Exception ret]; now rewrite sleep_run. }
  rewrite Hbody.
  destruct (fault (next_reply w1)); cbn [fst snd];
    destruct (fault (next_reply _)); reflexivity.
Qed.

(** X4.  What [jump_to_bootloader] does on the link, for every link: it
    connects; if that worked it subscribes to the control point; if that
    worked too it writes [01 04] to the control point with response,
    sleeps 0.5 s whether or not the write raised, and disconnects.  It
    always returns normally and never writes to the packet
    characteristic. *)
Theorem jump_to_bootloader_trace device w :
  let jump := EvWrite DFU_CONTROL_POINT_UUID
                      [OP_CODE_ENTER_BOOTLOADER; UPLOAD_MODE_APPLICATION] true in
  let w1 := advance (log (EvConnect (address device)) w) in
  fst (jump_to_bootloader device w) = Ok tt
  /\ emitted w (snd (jump_to_bootloader device w))
     = match fault (next_reply w), fault (next_reply w1) with
       | Some _, _ => [EvConnect (address device)]
       | None, Some _ =>
           [EvConnect (address device); EvStartNotify DFU_CONTROL_POINT_UUID;
            EvDisconnect (address device)]
       | None, None =>
           [EvConnect (address device); EvStartNotify DFU_CONTROL_POINT_UUID;
            jump; EvSleep 500; EvDisconnect (address device)]
       end.
Proof.
  cbv zeta. rewrite jump_to_bootloader_run. cbv zeta. cbn [fst snd].
  split; [reflexivity|]. apply emitted_app.
  destruct (fault (next_reply w)); [reflexivity|].
  destruct (fault (next_reply _)); cbn [trace advance log];
    repeat rewrite <- app_assoc; reflexivity.
Qed.

(** ** Every run of the retry loop *)

Lemma retry_loop_outcomes device n : forall len start w,
  Z.of_nat (start + S len) = n ->
  exists k wk,
    k < S len
    /\ after_failures device k w = Some wk
    /\ ((exists w', dfu_attempt device wk = (Ok tt, w')
                    /\ retry_loop device n (map Z.of_nat (seq start (S len))) w
                       = (Ok tt, w'))
        \/ (k = len
            /\ exists e w', dfu_attempt device wk = (Raise e, w')
                            /\ retry_loop device n (map Z.of_nat (seq start (S len))) w
                               = (Raise (SystemExit 1), w'))).
Proof.
  induction len as [|len IH]; intros start w Hn.
  - exists 0, w. split; [lia|]. split; [reflexivity|].
    cbn [seq map]. rewrite retry_loop_step.
    destruct (dfu_attempt device w) as [[[]|e] w1].
    + left. eauto.
    + right. split; [reflexivity|]. exists e, w1. split; [reflexivity|].
      replace (Z.of_nat start <? n - 1)%Z with false
        by (symmetry; apply Z.ltb_ge; lia).
      reflexivity.
  - change (seq start (S (S len))) with (start :: seq (S start) (S len)).
    cbn [map]. rewrite retry_loop_step.
    destruct (dfu_attempt device w) as [[[]|e] w1] eqn:E.
    + exists 0, w. split; [lia|]. split; [reflexivity|]. left.
      exists w1. split; [exact E | reflexivity].
    + replace (Z.of_nat start <? n - 1)%Z with true
        by (symmetry; apply Z.ltb_lt; lia).
      destruct (IH (S start) (backoff w1)) as (k & wk & Hk & Haf & H); [lia|].
      exists (S k), wk. split; [lia|]. split.
      * cbn [after_failures]. rewrite E. exact Haf.
      * destruct H as [H | [-> H]]; [left; exact H | right; split; [reflexivity | exact H]].
Qed.

Lemma perform_update_cases device w :
  exists k wk,
    k < 3
    /\ after_failures device k w = Some wk
    /\ ((exists w', dfu_attempt device wk = (Ok tt, w')
                    /\ perform_update device w = (Ok tt, w'))
        \/ (k = 2
            /\ exists e w', dfu_attempt device wk = (Raise e, w')
                            /\ perform_update device w = (Raise (SystemExit 1), w'))).
Proof. exact (retry_loop_outcomes device 3 2 0 w eq_refl). Qed.

Lemma perform_update_raises device w e w' :
  perform_update device w = (Raise e, w') -> e = SystemExit 1.
Proof.
  destruct (perform_update_cases device w)
    as (k & wk & _ & _ & [(w1 & _ & H) | (_ & e1 & w1 & _ & H)]);
    rewrite H; intros H'; inversion H'; reflexivity.
Qed.

(** X5.  Every run of [perform_update] has one of two ends: it returns
    normally, with the world of the first attempt that went through, after
    fewer than 3 failed attempts each followed by the pause; or its three
    attempts all failed and it raises [SystemExit(1)].  No other exception
    leaves it. *)
Theorem perform_update_returns_or_exits device w :
  (fst (perform_update device w) = Ok tt
   \/ fst (perform_update device w) = Raise (SystemExit 1))
  /\ exists k wk,
      k < 3
      /\ after_failures device k w = Some wk
      /\ ((exists w', dfu_attempt device wk = (Ok tt, w')
                      /\ perform_update device w = (Ok tt, w'))
          \/ (k = 2
              /\ exists e w', dfu_attempt device wk = (Raise e, w')
                              /\ perform_update device w = (Raise (SystemExit 1), w'))).
Proof.
  split; [|apply perform_update_cases].
  destruct (perform_update_cases device w)
    as (k & wk & _ & _ & [(w1 & _ & H) | (_ & e1 & w1 & _ & H)]);
    rewrite H; [left | right]; reflexivity.
Qed.

(** ** The direct lookup *)

Lemma find_device_run id force_scan adapter service_uuid w :
  find_device id force_scan adapter service_uuid w =
  if (negb force_scan && negb (truthy adapter))%bool then
    let w1 := advance (log (EvFindByAddress id 10000) w) in
    match fault (next_reply w) with
    | Some (BleakError _) => find_device id true adapter service_uuid w1
    | Some err => (Raise (Transport err), w1)
    | None =>
        match found (next_reply w) with
        | Some device => (Ok device, w1)
        | None => find_device id true adapter service_uuid w1
        end
    end
  else find_device id true adapter service_uuid w.
Proof.
  unfold find_device. cbn [negb andb].
  destruct (negb force_scan && negb (truthy adapter))%bool; [|reflexivity].
  cbv zeta. unfold bind at 1 3. unfold try_except, bind at 1. rewrite transport_run.
  destruct (fault (next_reply w)) as [[msg| |msg]|]; cbn [is_BleakError ret];
    try reflexivity.
  destruct (found (next_reply w)); reflexivity.
Qed.

(** X6.  The two strategies of [find_device].  With [force_scan] or with
    an adapter given there is no lookup by address, only the sweep of 5 s.
    Otherwise the address is looked up first, for 10 s: a device found is
    returned without a sweep; no device, or a [BleakError], leads to the
    sweep; any other error of the lookup is raised and no sweep is made. *)
Theorem find_device_strategies id adapter service_uuid w :
  let w1 := advance (log (EvFindByAddress id 10000) w) in
  (forall force_scan,
      force_scan = true \/ truthy adapter = true ->
      find_device id force_scan adapter service_uuid w
      = find_device id true adapter service_uuid w
      /\ emitted w (snd (find_device id force_scan adapter service_uuid w))
         = [EvDiscover 5000])
  /\ (truthy adapter = false ->
      (forall device,
          fault (next_reply w) = None -> found (next_reply w) = Some device ->
          find_device id false adapter service_uuid w = (Ok device, w1))
      /\ (fault (next_reply w) = None -> found (next_reply w) = None ->
          find_device id false adapter service_uuid w
          = find_device id true adapter service_uuid w1)
      /\ (forall msg,
            fault (next_reply w) = Some (BleakError msg) ->
            find_device id false adapter service_uuid w
            = find_device id true adapter service_uuid w1)
      /\ (forall err,
            fault (next_reply w) = Some err ->
            is_BleakError (Transport err) = false ->
            find_device id false adapter service_uuid w
            = (Raise (Transport err), w1))).
Proof.
  intros w1. split.
  - intros force_scan H. rewrite find_device_run.
    replace (negb force_scan && negb (truthy adapter))%bool with false
      by (destruct H as [-> | ->]; [reflexivity | now rewrite andb_false_r]).
    split; [reflexivity|].
    rewrite find_device_scan_run. cbv zeta. apply emitted_app.
    destruct (fault (next_reply w)); [reflexivity|].
    destruct (scan_loop _ _ _); reflexivity.
  - intros Ha. rewrite find_device_run, Ha. cbn [negb andb]. fold w1.
    repeat split.
    + intros device -> ->. reflexivity.
    + intros -> ->. reflexivity.
    + intros msg ->. reflexivity.
    + intros err -> Hb. destruct err; [discriminate Hb | reflexivity | reflexivity].
Qed.

Lemma find_device_strategies_witness :
  fst (find_device "AA:BB:CC:DD:EE:FF" false None None
         (sample_world 0 [mkReply None [] (Some sample_device) []]))
  = Ok sample_device
  /\ emitted (sample_world 0 [sees sample_scan])
             (snd (find_device "DFU" true None None
                     (sample_world 0 [sees sample_scan])))
     = [EvDiscover 5000].
Proof.
  split.
  - destruct (find_device_strategies "AA:BB:CC:DD:EE:FF" None None
                (sample_world 0 [mkReply None [] (Some sample_device) []]))
      as (_ & H).
    destruct (H eq_refl) as (H1 & _).
    rewrite (H1 sample_device eq_refl eq_refl). reflexivity.
  - destruct (find_device_strategies "DFU" None None
                (sample_world 0 [sees sample_scan])) as (H & _).
    destruct (H true (or_introl eq_refl)) as (_ & H2). exact H2.
Defined.

(** ** The whole program *)

Lemma re_lift_zread z n : raises_Exceptions (lift (zread z n)).
Proof.
  intros w e w' H. unfold lift in H. inversion H as [[Hr Hw]]. clear H.
  unfold zread in Hr. destruct n; try (inversion Hr; reflexivity).
  destruct (getinfo z s) as [[c|]|]; inversion Hr; reflexivity.
Qed.

Lemma re_lift_py_in key j : raises_Exceptions (lift (py_in key j)).
Proof.
  intros w e w' H. unfold lift in H. inversion H as [[Hr Hw]].
  destruct j; inversion Hr; reflexivity.
Qed.

Lemma re_lift_py_getitem j key : raises_Exceptions (lift (py_getitem j key)).
Proof.
  intros w e w' H. unfold lift in H. inversion H as [[Hr Hw]].
  destruct j; try (inversion Hr; reflexivity).
  cbn [py_getitem] in Hr.
  destruct (find _ _) as [[k v]|]; inversion Hr; reflexivity.
Qed.

Ltac loader_exceptions :=
  repeat first
    [ apply re_lift_zread | apply re_lift_py_in | apply re_lift_py_getitem
    | apply re_ret | apply re_get_self | apply re_modify_self | apply re_emit
    | apply re_transport | apply re_write | apply re_start_notify | apply re_sleep
    | apply re_suspend | apply re_pack_uint | apply re_wait_for_response
    | apply re_raise; reflexivity
    | apply re_bind | apply re_try_except | apply re_for_each
    | apply re_with_client
    | match goal with
      | |- forall _, _ => intro
      | |- raises_Exceptions (if ?c then _ else _) => destruct c
      | |- raises_Exceptions (match ?x with _ => _ end) => destruct x
      end ].

Lemma re_parse_zip disk json_load : raises_Exceptions (parse_zip disk json_load).
Proof. unfold parse_zip. loader_exceptions. Qed.

Lemma re_find_device id force_scan adapter service_uuid :
  raises_Exceptions (find_device id force_scan adapter service_uuid).
Proof. unfold find_device. loader_exceptions. Qed.

Lemma re_locate_bootloader app_device adapter :
  raises_Exceptions (locate_bootloader app_device adapter).
Proof.
  unfold locate_bootloader. loader_exceptions; apply re_find_device.
Qed.

Lemma re_jump_to_bootloader device : raises_Exceptions (jump_to_bootloader device).
Proof.
  intros w e w' H. destruct (jump_to_bootloader_returns device w) as [w1 E].
  rewrite E in H. discriminate.
Qed.

Lemma eo_parse_zip disk json_load :
  emits_only (fun _ => False) (parse_zip disk json_load).
Proof. unfold parse_zip. emits. Qed.

Lemma parse_zip_silent disk json_load w :
  trace (snd (parse_zip disk json_load w)) = trace w.
Proof.
  destruct (eo_parse_zip disk json_load w) as (evs & -> & HP).
  destruct evs as [|e evs]; [now rewrite app_nil_r|]. now inversion HP.
Qed.

Lemma session_ok_ends_with_activate device w w' :
  dfu_session device w = (Ok tt, w') ->
  exists w7,
    w' = advance (log (EvWrite DFU_CONTROL_POINT_UUID
                               [OP_CODE_ACTIVATE_AND_RESET] true) w7).
Proof.
  unfold dfu_session. intros H.
  apply bind_ok in H as (u1 & w1 & _ & H).
  apply bind_ok in H as (u2 & w2 & _ & H).
  apply bind_ok in H as (status & w3 & _ & H).
  apply bind_ok in H as (u4 & w4 & _ & H).
  apply bind_ok in H as (u5 & w5 & _ & H).
  rewrite activate_and_reset_run in H. inversion H. now exists w5.
Qed.

Lemma attempt_ok_ends_with_activate device w w' :
  dfu_attempt device w = (Ok tt, w') ->
  exists pre,
    trace w' = pre ++ [EvWrite DFU_CONTROL_POINT_UUID [OP_CODE_ACTIVATE_AND_RESET] true;
                       EvDisconnect (address device)].
Proof.
  unfold dfu_attempt. rewrite with_client_run. cbv zeta.
  destruct (fault (next_reply w)); [discriminate|].
  destruct (dfu_session device _) as [[[]|e] w2] eqn:E; cbn [fst snd];
    destruct (fault (next_reply w2)); try discriminate.
  intros H. inversion H; subst w'; clear H.
  apply session_ok_ends_with_activate in E as [w7 ->].
  exists (trace w7). cbn [trace advance log]. now rewrite <- app_assoc.
Qed.

(** X7.  [main] ends in one of two ways: it returns normally or it raises
    [SystemExit(1)]; every other exception is turned into that exit.  When
    the package cannot be loaded it exits before anything is done on the
    link.  When it returns normally the last things done on the link were
    the activate command and the disconnect of the attempt that went
    through. *)
Theorem main_outcomes disk json_load file device scan adapter prn delay w :
  let run := main disk json_load file device scan adapter prn delay w in
  (fst run = Ok tt \/ fst run = Raise (SystemExit 1))
  /\ (forall e w1,
        parse_zip disk json_load
                  (update_self (fun _ => new_dfu file prn delay adapter) w)
        = (Raise e, w1) ->
        fst run = Raise (SystemExit 1) /\ trace (snd run) = trace w)
  /\ (fst run = Ok tt ->
      exists pre addr,
        trace (snd run)
        = pre ++ [EvWrite DFU_CONTROL_POINT_UUID [OP_CODE_ACTIVATE_AND_RESET] true;
                  EvDisconnect addr]).
Proof.
  cbv zeta. unfold main, try_except.
  set (body := (modify_self _ ;; _)).
  assert (Hbody : forall e w1, body w = (Raise e, w1) ->
                               is_Exception e = true \/ e = SystemExit 1).
  { intros e w1. subst body. unfold bind.
    destruct (modify_self _ w) as [[[]|e0] w0] eqn:E0; [|discriminate].
    destruct (parse_zip disk json_load w0) as [[[]|e1] w2] eqn:E1.
    2:{ intros H; inversion H; subst. left. exact (re_parse_zip _ _ _ _ _ E1). }
    destruct (find_device device scan adapter None w2) as [[d|e2] w3] eqn:E2.
    2:{ intros H; inversion H; subst. left. exact (re_find_device _ _ _ _ _ _ _ E2). }
    destruct (jump_to_bootloader d w3) as [[[]|e3] w4] eqn:E3.
    2:{ intros H; inversion H; subst. left. exact (re_jump_to_bootloader _ _ _ _ E3). }
    rewrite sleep_run.
    destruct (locate_bootloader d adapter _) as [[b|e5] w6] eqn:E5.
    2:{ intros H; inversion H; subst. left. exact (re_locate_bootloader _ _ _ _ _ E5). }
    intros H. right. exact (perform_update_raises _ _ _ _ H). }
  split; [|split].
  - destruct (body w) as [[[]|e] w1] eqn:E; [now left|]. right.
    destruct (Hbody e w1 eq_refl) as [-> | ->]; reflexivity.
  - intros e w1 Hp.
    assert (Hb : body w = (Raise e, w1)).
    { subst body. unfold bind at 1 2. unfold modify_self at 1.
      fold (update_self (fun _ => new_dfu file prn delay adapter) w).
      now rewrite Hp. }
    rewrite Hb, (re_parse_zip _ _ _ _ _ Hp). cbn [fst snd raise].
    split; [reflexivity|].
    pose proof (parse_zip_silent disk json_load
                  (update_self (fun _ => new_dfu file prn delay adapter) w)) as Ht.
    rewrite Hp in Ht. exact Ht.
  - destruct (body w) as [[[]|e] w1] eqn:E; cbn [fst snd].
    + intros _. subst body.
      apply bind_ok in E as (u0 & w0 & _ & E).
      apply bind_ok in E as (u1 & w2 & _ & E).
      apply bind_ok in E as (d & w3 & _ & E).
      apply bind_ok in E as (u3 & w4 & _ & E).
      apply bind_ok in E as (u4 & w5 & _ & E).
      apply bind_ok in E as (b & w6 & _ & E).
      destruct (perform_update_cases b w6)
        as (k & wk & _ & _ & [(w' & Ha & H) | (_ & e1 & w' & _ & H)]);
        rewrite H in E; inversion E; subst w'.
      destruct (attempt_ok_ends_with_activate b wk w1 Ha) as [pre Hpre].
      now exists pre, (address b).
    + destruct (is_Exception e); cbn [fst raise]; discriminate.
Qed.

Lemma main_outcomes_witness :
  (let run := main (fun _ => Absent) (fun _ => None) "fw.zip" "AA:BB:CC:DD:EE:FF"
                   false None 8 0 (sample_world 0 full_run_script) in
   fst run = Raise (SystemExit 1) /\ trace (snd run) = [])
  /\ (let run := main manifest_disk sample_json_load "fw.zip" "AA:BB:CC:DD:EE:FF"
                      false None 0 0 (sample_world 0 full_run_script) in
      fst run = Ok tt
      /\ exists pre addr,
          trace (snd run)
          = pre ++ [EvWrite DFU_CONTROL_POINT_UUID [OP_CODE_ACTIVATE_AND_RESET] true;
                    EvDisconnect addr]).
Proof.
  split.
  - destruct (main_outcomes (fun _ => Absent) (fun _ => None) "fw.zip"
                "AA:BB:CC:DD:EE:FF" false None 8 0 (sample_world 0 full_run_script))
      as (_ & H & _).
    exact (H FileNotFoundError _ eq_refl).
  - destruct (main_outcomes manifest_disk sample_json_load "fw.zip"
                "AA:BB:CC:DD:EE:FF" false None 0 0 (sample_world 0 full_run_script))
      as (_ & _ & H).
    assert (Hok : fst (main manifest_disk sample_json_load "fw.zip"
                         "AA:BB:CC:DD:EE:FF" false None 0 0
                         (sample_world 0 full_run_script)) = Ok tt)
      by (vm_compute; reflexivity).
    split; [exact Hok | exact (H Hok)].
Defined.

(** ** The stream, whatever its end *)

Lemma stream_loop_any data total :
  forall offs acc w b res w',
    client (self w) = Some b ->
    for_each offs (stream_chunk data total) acc w = (res, w') ->
    exists k evs,
      trace w' = trace w ++ evs
      /\ data_writes evs = firstn k (map (fun i => slice data i (i + chunk_size)) offs)
      /\ ~ In (EvStdout Uploading100) evs
      /\ match res with
         | Ok _ =>
             k = length offs
             /\ bytes_sent (self w')
                = bytes_sent (self w)
                  + length (concat (map (fun i => slice data i (i + chunk_size)) offs))
         | Raise e =>
             1 <= k <= length offs
             /\ (exists err, e = Transport err)
             /\ bytes_sent (self w')
                = bytes_sent (self w)
                  + length (concat (firstn (k - 1)
                       (map (fun i => slice data i (i + chunk_size)) offs)))
         end.
Proof.
  induction offs as [|i offs IH]; intros acc w b res w' Hc Hrun.
  - inversion Hrun; subst. exists 0, []. rewrite app_nil_r.
    split; [reflexivity|]. split; [reflexivity|]. split; [intros []|].
    split; [reflexivity|]. cbn. lia.
  - cbn [for_each] in Hrun. unfold bind in Hrun.
    rewrite (stream_chunk_run data total i acc w b Hc) in Hrun. cbv zeta in Hrun.
    set (chunk := slice data i (i + chunk_size)) in *.
    set (w1 := advance (log (EvWrite DFU_PACKET_UUID chunk false) w)) in *.
    assert (Hbs1 : bytes_sent (self w1) = bytes_sent (self w))
      by exact (advance_bytes_sent (log (EvWrite DFU_PACKET_UUID chunk false) w)).
    destruct (fault (next_reply w)) as [err|].
    { inversion Hrun; subst res w'. exists 1, [EvWrite DFU_PACKET_UUID chunk false].
      split; [reflexivity|]. split; [reflexivity|]. split.
      - intros [H|[]]. discriminate.
      - split; [cbn [length]; lia|]. split; [now exists err|].
        cbn [Nat.sub firstn concat length]. lia. }
    set (w2 := update_self _ w1) in *.
    assert (Hcl2 : client (self w2) = Some b).
    { rewrite <- Hc.
      exact (advance_client (log (EvWrite DFU_PACKET_UUID chunk false) w)). }
    assert (Hbs2 : bytes_sent (self w2) = bytes_sent (self w) + length chunk)
      by (cbn [w2 update_self self bytes_sent set_bytes_sent]; now rewrite Hbs1).
    assert (Htr2 : trace w2 = trace w ++ [EvWrite DFU_PACKET_UUID chunk false])
      by reflexivity.
    set (w3 := if i mod 2000 =? 0 then _ else w2) in *.
    assert (H3 : exists progress,
               trace w3 = trace w2 ++ map EvStdout progress
               /\ ~ In Uploading100 progress
               /\ client (self w3) = Some b
               /\ bytes_sent (self w3) = bytes_sent (self w) + length chunk).
    { subst w3. destruct (i mod 2000 =? 0).
      - exists [Uploading (bytes_sent (self w2)) total].
        repeat split; try assumption. intros [H|[]]. discriminate.
      - exists []. rewrite app_nil_r. repeat split; try assumption. intros []. }
    destruct H3 as (progress & Htr3 & Hp & Hcl3 & Hbs3).
    assert (Hnp : ~ In (EvStdout Uploading100) (map EvStdout progress)).
    { intros H. apply in_map_iff in H as (m & Hm & Hin). inversion Hm; subst.
      contradiction. }
    destruct (takes_receipt (prn (self w3)) (acc + 1)).
    + set (w4 := advance _) in Hrun.
      assert (Hcl4 : client (self w4) = Some b)
        by (subst w4; rewrite advance_client; exact Hcl3).
      assert (Hbs4 : bytes_sent (self w4) = bytes_sent (self w) + length chunk)
        by (subst w4; rewrite advance_bytes_sent; exact Hbs3).
      destruct (IH 0 w4 b res w' Hcl4 Hrun) as (k & evs & Htr & Hd & Hn & Hres).
      exists (S k), (EvWrite DFU_PACKET_UUID chunk false
                     :: map EvStdout progress
                     ++ [EvReceiptClear; EvReceiptWait 5000] ++ evs).
      split; [|split; [|split]].
      * rewrite Htr. subst w4. rewrite advance_trace. cbn [trace log update_self].
        rewrite Htr3, Htr2. repeat rewrite <- app_assoc. reflexivity.
      * change (data_writes (EvWrite DFU_PACKET_UUID chunk false :: ?l))
          with (chunk :: data_writes l).
        rewrite !data_writes_app, data_writes_stdout, Hd. reflexivity.
      * intros [H|H]; [discriminate|].
        apply in_app_or in H as [H|H]; [contradiction|].
        destruct H as [H|[H|H]]; try discriminate. contradiction.
      * destruct res as [r|e].
        -- destruct Hres as [-> Hb]. split; [reflexivity|].
           rewrite Hb, Hbs4. cbn [map concat]. rewrite length_app. fold chunk. lia.
        -- destruct Hres as (Hk & He & Hb). split; [cbn [length]; lia|].
           split; [exact He|]. rewrite Hb, Hbs4.
           destruct k as [|k]; [lia|]. cbn [Nat.sub map firstn concat].
           rewrite Nat.sub_0_r, length_app. fold chunk. lia.
    + destruct (IH (acc + 1) w3 b res w' Hcl3 Hrun) as (k & evs & Htr & Hd & Hn & Hres).
      exists (S k), (EvWrite DFU_PACKET_UUID chunk false
                     :: map EvStdout progress ++ evs).
      split; [|split; [|split]].
      * rewrite Htr, Htr3, Htr2. repeat rewrite <- app_assoc. reflexivity.
      * change (data_writes (EvWrite DFU_PACKET_UUID chunk false :: ?l))
          with (chunk :: data_writes l).
        rewrite !data_writes_app, data_writes_stdout, Hd. reflexivity.
      * intros [H|H]; [discriminate|].
        apply in_app_or in H as [H|H]; contradiction.
      * destruct res as [r|e].
        -- destruct Hres as [-> Hb]. split; [reflexivity|].
           rewrite Hb, Hbs3. cbn [map concat]. rewrite length_app. fold chunk. lia.
        -- destruct Hres as (Hk & He & Hb). split; [cbn [length]; lia|].
           split; [exact He|]. rewrite Hb, Hbs3.
           destruct k as [|k]; [lia|]. cbn [Nat.sub map firstn concat].
           rewrite Nat.sub_0_r, length_app. fold chunk. lia.
Qed.

(** X8.  The stream stops at the first write that fails.  Whatever the
    link does, the writes to the packet characteristic are the first [k]
    chunks of the image, in order.  When the stream returns normally these
    are all the chunks and [bytes_sent] is the length of the image.  When
    it raises, the error is that of the failing write (or the missing
    client), the last of the [k] writes is the one that failed,
    [bytes_sent] counts the chunks before it, and the 100 percent line is
    not printed. *)
Theorem stream_firmware_stops_at_first_error w data :
  bin_data (self w) = Some data ->
  let res := fst (_stream_firmware w) in
  let w' := snd (_stream_firmware w) in
  exists k,
    k <= length (chunks data)
    /\ data_writes (emitted w w') = firstn k (chunks data)
    /\ match res with
       | Ok _ => k = length (chunks data) /\ bytes_sent (self w') = length data
       | Raise e =>
           (e = AttributeError \/ exists err, e = Transport err)
           /\ ~ In (EvStdout Uploading100) (emitted w w')
           /\ bytes_sent (self w') = length (concat (firstn (k - 1) (chunks data)))
       end.
Proof.
  intros Hb. cbv zeta. rewrite (stream_firmware_run w data Hb).
  destruct (client (self w)) as [b|] eqn:Hc.
  - destruct (for_each _ _ 0 _) as [res w1] eqn:Hloop.
    destruct (stream_loop_any data (length data) _ 0
                (update_self (set_bytes_sent 0) w) b res w1 Hc Hloop)
      as (k & evs & Htr & Hd & Hn & Hres).
    fold (chunks data) in Hd, Hres.
    change (bytes_sent (self (update_self (set_bytes_sent 0) w))) with 0 in Hres.
    change (trace (update_self (set_bytes_sent 0) w)) with (trace w) in Htr.
    exists k. destruct res as [r|e]; cbn [fst snd].
    + destruct Hres as [Hk Hbs]. rewrite range_length in Hk. subst k.
      rewrite firstn_all in Hd.
      split; [lia|]. rewrite firstn_all. split.
      * rewrite (emitted_app w _ (evs ++ [EvStdout Uploading100])).
        -- rewrite data_writes_app, Hd. cbn. now rewrite app_nil_r.
        -- cbn [log trace]. now rewrite Htr, app_assoc.
      * split; [reflexivity|]. cbn [log self]. now rewrite Hbs, chunks_concat.
    + destruct Hres as (Hk & He & Hbs). rewrite range_length in Hk.
      split; [lia|].
      rewrite (emitted_app w w1 evs Htr). split; [exact Hd|].
      split; [now right|]. split; [exact Hn | exact Hbs].
  - destruct (range 0 (length data) chunk_size) as [|i offs] eqn:Hr.
    + exists 0. cbn [for_each ret fst snd].
      assert (Hch : chunks data = []) by (unfold chunks; now rewrite Hr).
      rewrite Hch. split; [cbn; lia|]. split.
      * rewrite (emitted_app w _ [EvStdout Uploading100]) by reflexivity. reflexivity.
      * split; [reflexivity|]. cbn [log update_self self bytes_sent set_bytes_sent].
        rewrite <- (chunks_concat data), Hch. reflexivity.
    + exists 0.
      assert (Hfail : for_each (i :: offs) (stream_chunk data (length data)) 0
                               (update_self (set_bytes_sent 0) w)
                      = (Raise AttributeError, update_self (set_bytes_sent 0) w)).
      { cbn [for_each]. unfold bind at 1, stream_chunk at 1.
        unfold bind at 1, client_write at 1, bind at 1, get_self at 1.
        change (client (self (update_self (set_bytes_sent 0) w)))
          with (client (self w)).
        rewrite Hc. reflexivity. }
      rewrite Hfail. cbn [fst snd]. split; [lia|].
      rewrite (emitted_app w _ []) by (cbn; now rewrite app_nil_r).
      split; [reflexivity|]. split; [now left|]. split; [intros []|reflexivity].
Qed.

Lemma stream_firmware_stops_at_first_error_witness :
  fst (_stream_firmware (sample_world 0 [quiet; fails (BleakError "link lost")]))
  = Raise (Transport (BleakError "link lost"))
  /\ exists k,
      data_writes (emitted (sample_world 0 [quiet; fails (BleakError "link lost")])
                           (snd (_stream_firmware
                                   (sample_world 0 [quiet; fails (BleakError "link lost")]))))
      = firstn k (chunks sample_image).
Proof.
  split; [reflexivity|].
  destruct (stream_firmware_stops_at_first_error
              (sample_world 0 [quiet; fails (BleakError "link lost")])
              sample_image eq_refl) as (k & _ & H & _).
  now exists k.
Defined.

(** ** Packed fields *)

Lemma byte_val_of_Z z : byte_val (byte_of_Z z) = (z mod 256)%Z.
Proof.
  unfold byte_val, byte_of_Z.
  assert (Hr : (0 <= z mod 256 < 256)%Z) by (apply Z.mod_pos_bound; lia).
  destruct (Byte.of_N (Z.to_N (z mod 256))) as [b|] eqn:E.
  - apply Byte.to_of_N in E. rewrite E. lia.
  - apply Byte.of_N_None_iff in E. lia.
Qed.

Lemma le_bytes_succ k n :
  le_bytes (S k) n = byte_of_Z n :: le_bytes k (n / 256).
Proof.
  unfold le_bytes. cbn [seq map]. f_equal.
  rewrite <- seq_shift, map_map. apply map_ext. intros i.
  f_equal. rewrite !Z.shiftr_div_pow2 by lia.
  replace (8 * Z.of_nat (S i))%Z with (8 + 8 * Z.of_nat i)%Z by lia.
  rewrite Z.pow_add_r by lia. change (2 ^ 8)%Z with 256%Z.
  rewrite Z.div_div by lia. reflexivity.
Qed.

Lemma le_value_le_bytes k : forall n,
  le_value (le_bytes k n) = (n mod 2 ^ (8 * Z.of_nat k))%Z.
Proof.
  induction k as [|k IH]; intros n.
  - cbn. now rewrite Z.mod_1_r.
  - rewrite le_bytes_succ. cbn [le_value]. rewrite IH, byte_val_of_Z.
    replace (8 * Z.of_nat (S k))%Z with (8 + 8 * Z.of_nat k)%Z by lia.
    rewrite Z.pow_add_r by lia. change (2 ^ 8)%Z with 256%Z.
    rewrite Z.rem_mul_r by lia. reflexivity.
Qed.

Lemma le_bytes_length k n : length (le_bytes k n) = k.
Proof. unfold le_bytes. now rewrite length_map, length_seq. Qed.

(** X9.  Packing an unsigned little-endian field of [k] bytes and reading
    it back: a value in range gives [k] bytes whose little-endian value is
    the value; a value out of range raises [struct.error]; nothing else
    changes. *)
Theorem pack_uint_round_trip k n w :
  match fst (pack_uint k n w) with
  | Ok bs =>
      (0 <= n < 2 ^ (8 * Z.of_nat k))%Z /\ length bs = k /\ le_value bs = n
  | Raise e =>
      e = StructError /\ ~ (0 <= n < 2 ^ (8 * Z.of_nat k))%Z
  end
  /\ snd (pack_uint k n w) = w.
Proof.
  unfold pack_uint.
  destruct (0 <=? n)%Z eqn:E0; destruct (n <? 2 ^ (8 * Z.of_nat k))%Z eqn:E1;
    cbn [andb fst snd ret raise];
    try apply Z.leb_le in E0; try apply Z.leb_gt in E0;
    try apply Z.ltb_lt in E1; try apply Z.ltb_ge in E1;
    (split; [|reflexivity]); try (split; [reflexivity | lia]).
  split; [lia|]. split; [apply le_bytes_length|].
  rewrite le_value_le_bytes. apply Z.mod_small. lia.
Qed.

(** ** The writes of a session that goes through *)

Lemma runs_to_refl w : runs_to w w [].
Proof. split; [now rewrite app_nil_r | split; reflexivity]. Qed.

Lemma runs_to_trans w1 w2 w3 e1 e2 :
  runs_to w1 w2 e1 -> runs_to w2 w3 e2 -> runs_to w1 w3 (e1 ++ e2).
Proof.
  intros (T1 & C1 & L1) (T2 & C2 & L2). split; [|split]; try congruence.
  now rewrite T2, T1, app_assoc.
Qed.

Lemma runs_to_step e w : runs_to w (advance (log e w)) [e].
Proof.
  split; [reflexivity|]. split.
  - exact (advance_config (log e w)).
  - exact (advance_client (log e w)).
Qed.

Lemma runs_to_requeue q w w' evs :
  runs_to w w' evs -> runs_to w (update_self (set_response_queue q) w') evs.
Proof. intros H. exact H. Qed.

Lemma write_ok uuid payload response w w' :
  write_gatt_char uuid payload response w = (Ok tt, w') ->
  runs_to w w' [EvWrite uuid payload response].
Proof.
  rewrite write_run. destruct (fault (next_reply w)); [discriminate|].
  intros H. inversion H. apply runs_to_step.
Qed.

Lemma wait_ok op timeout w status w' :
  _wait_for_response op timeout w = (Ok status, w') ->
  runs_to w w' [EvQueueGet timeout].
Proof.
  rewrite wait_for_response_run. cbv zeta.
  destruct (timeout <=? 0)%Z; [intros H; inversion H; apply runs_to_step|].
  destruct (response_queue _) as [|[? ?] ?]; intros H; inversion H;
    [|apply runs_to_requeue]; apply runs_to_step.
Qed.

Lemma stabilize_ok w w' :
  stabilize w = (Ok tt, w') ->
  runs_to w w' [EvStartNotify DFU_CONTROL_POINT_UUID].
Proof.
  rewrite stabilize_run. cbv zeta. destruct (fault (next_reply w)); [discriminate|].
  intros H. inversion H. apply runs_to_requeue, runs_to_step.
Qed.

Lemma pack_uint_ok k n w bs w' :
  pack_uint k n w = (Ok bs, w') -> bs = le_bytes k n /\ w' = w.
Proof.
  destruct (pack_uint_cases k n w) as [-> | ->]; intros H; inversion H. now split.
Qed.

Lemma start_dfu_ok w status w' data :
  bin_data (self w) = Some data ->
  start_dfu w = (Ok status, w') ->
  exists evs,
    runs_to w w' evs
    /\ control_writes evs = [[OP_CODE_START_DFU; UPLOAD_MODE_APPLICATION]]
    /\ data_writes evs
       = [le_bytes 4 0 ++ le_bytes 4 0 ++ le_bytes 4 (Z.of_nat (length data))].
Proof.
  intros Hb H. unfold start_dfu in H.
  apply bind_ok in H as ([] & w1 & H1 & H). apply write_ok in H1.
  apply bind_ok in H as (o & w1' & Ho & H). inversion Ho; subst o w1'; clear Ho.
  apply bind_ok in H as ([] & w2 & H2 & H).
  assert (R2 : exists evs, runs_to w1 w2 evs /\ control_writes evs = []
                           /\ data_writes evs = []).
  { destruct (0 <? packet_delay (self w1))%Z.
    - rewrite sleep_run in H2. inversion H2. eexists. split; [apply runs_to_step|].
      split; reflexivity.
    - inversion H2. exists []. split; [apply runs_to_refl | split; reflexivity]. }
  destruct R2 as (e2 & R2 & C2 & D2).
  apply bind_ok in H as (o & w2' & Ho & H). inversion Ho; subst o w2'; clear Ho.
  pose proof (runs_to_trans _ _ _ _ _ H1 R2) as R12.
  destruct R12 as (T12 & Cf12 & L12).
  rewrite (config_bin_data _ _ Cf12), Hb in H.
  apply bind_ok in H as (sd & w3 & Hsd & H). apply pack_uint_ok in Hsd as [-> ->].
  apply bind_ok in H as (bl & w3 & Hbl & H). apply pack_uint_ok in Hbl as [-> ->].
  apply bind_ok in H as (app & w3 & Happ & H). apply pack_uint_ok in Happ as [-> ->].
  apply bind_ok in H as ([] & w4 & H4 & H). apply write_ok in H4. apply wait_ok in H.
  pose proof (runs_to_trans _ _ _ _ _ (runs_to_trans _ _ _ _ _
               (runs_to_trans _ _ _ _ _ H1 R2) H4) H) as R.
  eexists. split; [exact R|].
  rewrite !control_writes_app, !data_writes_app, C2, D2. split; reflexivity.
Qed.

Lemma start_dfu_check_ok status w w' :
  start_dfu_check status w = (Ok tt, w') -> w' = w.
Proof.
  unfold start_dfu_check. destruct (negb (status =? 1)%Z).
  - unfold bind. destruct (write_gatt_char _ _ _ w) as [[[]|e] w1]; discriminate.
  - intros H. now inversion H.
Qed.

Lemma init_packet_ok w w' dat :
  dat_data (self w) = Some dat ->
  init_packet w = (Ok tt, w') ->
  exists evs,
    runs_to w w' evs
    /\ control_writes evs
       = [[OP_CODE_INIT_DFU_PARAMS; x00]; [OP_CODE_INIT_DFU_PARAMS; x01]]
    /\ data_writes evs = [dat].
Proof.
  intros Hd H. unfold init_packet in H.
  apply bind_ok in H as ([] & w1 & H1 & H). apply write_ok in H1.
  apply bind_ok in H as (o & w1' & Ho & H). inversion Ho; subst o w1'; clear Ho.
  destruct H1 as (T1 & C1 & L1).
  rewrite (config_dat_data _ _ C1), Hd in H.
  apply bind_ok in H as ([] & w2 & H2 & H). apply write_ok in H2.
  apply bind_ok in H as ([] & w3 & H3 & H). apply write_ok in H3.
  apply bind_ok in H as (status & w4 & H4 & H). apply wait_ok in H4.
  destruct (negb (status =? 1)%Z); [discriminate|]. inversion H; subst w'.
  pose proof (runs_to_trans _ _ _ _ _ (runs_to_trans _ _ _ _ _
               (runs_to_trans _ _ _ _ _ (conj T1 (conj C1 L1)) H2) H3) H4) as R.
  eexists. split; [exact R | split; reflexivity].
Qed.

Lemma configure_prn_ok w w' :
  configure_prn w = (Ok tt, w') ->
  exists evs,
    runs_to w w' evs
    /\ control_writes evs
       = (if (0 <? prn (self w))%Z
          then [OP_CODE_PACKET_RECEIPT_NOTIF_REQ :: le_bytes 2 (prn (self w))]
          else [])
    /\ data_writes evs = [].
Proof.
  unfold configure_prn. intros H.
  apply bind_ok in H as (o & w0 & Ho & H). inversion Ho; subst o w0; clear Ho.
  destruct (0 <? prn (self w))%Z.
  - apply bind_ok in H as (bs & w1 & Hp & H). apply pack_uint_ok in Hp as [-> ->].
    apply write_ok in H. eexists. split; [exact H | split; reflexivity].
  - inversion H; subst. exists []. split; [apply runs_to_refl | split; reflexivity].
Qed.

Lemma stream_firmware_ok w w' data :
  bin_data (self w) = Some data ->
  _stream_firmware w = (Ok tt, w') ->
  exists evs,
    runs_to w w' evs /\ control_writes evs = [] /\ data_writes evs = chunks data.
Proof.
  intros Hb H. rewrite (stream_firmware_run w data Hb) in H.
  destruct (for_each _ _ 0 _) as [[r|e] w1] eqn:Hloop; [|discriminate].
  inversion H; subst w'; clear H.
  destruct (client (self w)) as [b|] eqn:Hc.
  - destruct (stream_loop_shape _ _ _ _ (update_self (set_bytes_sent 0) w) b _ _
                Hc Hloop) as (evs & Htr & Hsh & Hcfg & Hcl).
    apply shape_writes in Hsh as [Hd Hcw].
    exists (evs ++ [EvStdout Uploading100]). split; [|split].
    + split; [|split].
      * cbn [log trace]. rewrite Htr. cbn [update_self trace]. now rewrite app_assoc.
      * exact Hcfg.
      * cbn [log self]. rewrite Hcl. reflexivity.
    + rewrite control_writes_app, Hcw. reflexivity.
    + rewrite data_writes_app, Hd. cbn. now rewrite app_nil_r.
  - destruct (range 0 (length data) chunk_size) as [|i offs] eqn:Hr.
    + inversion Hloop; subst. exists [EvStdout Uploading100].
      split; [|split]; try reflexivity.
      * split; [reflexivity|]. split; [reflexivity|]. cbn. now rewrite Hc.
      * unfold chunks. now rewrite Hr.
    + cbn [for_each] in Hloop. unfold bind at 1, stream_chunk at 1 in Hloop.
      unfold bind at 1, client_write at 1, bind at 1, get_self at 1 in Hloop.
      change (client (self (update_self (set_bytes_sent 0) w)))
        with (client (self w)) in Hloop.
      rewrite Hc in Hloop. discriminate.
Qed.

Lemma check_upload_ok w w' :
  check_upload w = (Ok tt, w') -> runs_to w w' [EvQueueGet 30000].
Proof.
  unfold check_upload. intros H.
  apply bind_ok in H as (status & w1 & H1 & H). apply wait_ok in H1.
  destruct (negb (status =? 1)%Z); [discriminate|]. now inversion H; subst.
Qed.

Lemma validate_ok w w' :
  validate w = (Ok tt, w') ->
  runs_to w w' [EvWrite DFU_CONTROL_POINT_UUID [OP_CODE_VALIDATE] true;
                EvQueueGet 30000].
Proof.
  unfold validate. intros H.
  apply bind_ok in H as ([] & w1 & H1 & H). apply write_ok in H1.
  apply bind_ok in H as (status & w2 & H2 & H). apply wait_ok in H2.
  destruct (negb (status =? 1)%Z); [discriminate|]. inversion H; subst.
  exact (runs_to_trans _ _ _ _ _ H1 H2).
Qed.

(** X10.  The writes of a session that goes through.  On the control
    point, in this order: start [01 04], init begin [02 00], init end
    [02 01], the receipt request [08 lo hi] when the interval is positive,
    receive [03], validate [04], activate [05].  On the packet
    characteristic: the three sizes (0, 0, length of the image) in one
    write of 12 bytes, the init packet in one write, then the chunks of
    the image. *)
Theorem session_writes_on_success device w w' data dat :
  bin_data (self w) = Some data ->
  dat_data (self w) = Some dat ->
  dfu_session device w = (Ok tt, w') ->
  control_writes (emitted w w')
  = [[OP_CODE_START_DFU; UPLOAD_MODE_APPLICATION];
     [OP_CODE_INIT_DFU_PARAMS; x00]; [OP_CODE_INIT_DFU_PARAMS; x01]]
    ++ (if (0 <? prn (self w))%Z
        then [OP_CODE_PACKET_RECEIPT_NOTIF_REQ :: le_bytes 2 (prn (self w))]
        else [])
    ++ [[OP_CODE_RECEIVE_FIRMWARE_IMAGE]; [OP_CODE_VALIDATE];
        [OP_CODE_ACTIVATE_AND_RESET]]
  /\ data_writes (emitted w w')
     = (le_bytes 4 0 ++ le_bytes 4 0 ++ le_bytes 4 (Z.of_nat (length data)))
       :: dat :: chunks data.
Proof.
  intros Hb Hd H. unfold dfu_session in H.
  apply bind_ok in H as ([] & w0 & H0 & H). inversion H0; subst w0; clear H0.
  set (w0 := {| self := set_client (Some device) (self w);
                future := future w; trace := trace w |}) in H.
  assert (Hcfg0 : config (self w0) = config (self w)) by reflexivity.
  apply bind_ok in H as ([] & w1 & H1 & H). apply stabilize_ok in H1.
  apply bind_ok in H as (status & w2 & H2 & H).
  assert (Hb1 : bin_data (self w1) = Some data).
  { destruct H1 as (_ & C & _). now rewrite (config_bin_data _ _ C). }
  destruct (start_dfu_ok w1 status w2 data Hb1 H2) as (e2 & R2 & C2 & D2).
  apply bind_ok in H as ([] & w3 & H3 & H). apply start_dfu_check_ok in H3. subst w3.
  unfold transfer in H.
  apply bind_ok in H as ([] & w4 & H4 & H).
  apply bind_ok in H4 as ([] & w5 & H5 & H4).
  pose proof (runs_to_trans _ _ _ _ _ H1 R2) as R12.
  assert (Hd2 : dat_data (self w2) = Some dat).
  { destruct R12 as (_ & C & _). now rewrite (config_dat_data _ _ C). }
  destruct (init_packet_ok w2 w5 dat Hd2 H5) as (e5 & R5 & C5 & D5).
  apply bind_ok in H4 as ([] & w6 & H6 & H4).
  destruct (configure_prn_ok w5 w6 H6) as (e6 & R6 & C6 & D6).
  apply bind_ok in H4 as ([] & w7 & H7 & H4). unfold receive_firmware in H7.
  apply write_ok in H7.
  apply bind_ok in H4 as ([] & w8 & H8 & H4).
  pose proof (runs_to_trans _ _ _ _ _ (runs_to_trans _ _ _ _ _
               (runs_to_trans _ _ _ _ _ R12 R5) R6) H7) as R17.
  assert (Hb7 : bin_data (self w7) = Some data).
  { destruct R17 as (_ & C & _). now rewrite (config_bin_data _ _ C). }
  destruct (stream_firmware_ok w7 w8 data Hb7 H8) as (e8 & R8 & C8 & D8).
  apply bind_ok in H4 as ([] & w9 & H9 & H4). apply check_upload_ok in H9.
  apply validate_ok in H4.
  rewrite activate_and_reset_run in H. inversion H; subst w'; clear H.
  pose proof (runs_to_trans _ _ _ _ _ (runs_to_trans _ _ _ _ _
               (runs_to_trans _ _ _ _ _ (runs_to_trans _ _ _ _ _ R17 R8) H9) H4)
               (runs_to_step (EvWrite DFU_CONTROL_POINT_UUID
                                      [OP_CODE_ACTIVATE_AND_RESET] true) w4)) as R.
  destruct R as (T & _ & _).
  assert (Hprn : prn (self w5) = prn (self w)).
  { destruct (runs_to_trans _ _ _ _ _ R12 R5) as (_ & C & _).
    now rewrite (config_prn _ _ C). }
  rewrite (emitted_app w _ _ T).
  rewrite !control_writes_app, !data_writes_app, C2, D2, C5, D5, C6, D6, C8, D8, Hprn.
  remember (le_bytes 4 0 ++ le_bytes 4 0 ++ le_bytes 4 (Z.of_nat (length data)))
    as size_payload.
  remember (chunks data) as image_chunks.
  remember (le_bytes 2 (prn (self w))) as interval.
  split.
  - destruct (0 <? prn (self w))%Z; reflexivity.
  - cbn. now rewrite !app_nil_r.
Qed.

Lemma session_writes_on_success_witness :
  data_writes (emitted (sample_world 0 (tl (good_script quiet)))
                       (snd (dfu_session sample_device
                               (sample_world 0 (tl (good_script quiet))))))
  = (le_bytes 4 0 ++ le_bytes 4 0 ++ le_bytes 4 41) :: sample_dat :: chunks sample_image.
Proof.
  set (w := sample_world 0 (tl (good_script quiet))).
  assert (H : dfu_session sample_device w
              = (Ok tt, snd (dfu_session sample_device w)))
    by (vm_compute; reflexivity).
  exact (proj2 (session_writes_on_success sample_device w _ sample_image sample_dat
                  eq_refl eq_refl H)).
Defined.

Lemma configure_prn_run w :
  configure_prn w =
  if (0 <? prn (self w))%Z then
    if ((0 <=? prn (self w))%Z && (prn (self w) <? 65536)%Z)%bool
    then write_gatt_char DFU_CONTROL_POINT_UUID
           (OP_CODE_PACKET_RECEIPT_NOTIF_REQ :: le_bytes 2 (prn (self w))) true w
    else (Raise StructError, w)
  else (Ok tt, w).
Proof.
  unfold configure_prn, bind at 1, get_self.
  destruct (0 <? prn (self w))%Z; [|reflexivity].
  unfold bind, pack_uint. change (2 ^ (8 * Z.of_nat 2))%Z with 65536%Z.
  destruct (_ && _)%bool; reflexivity.
Qed.

(** X11.  The receipt interval at the PRN step.  An interval of zero or
    less writes nothing.  An interval from 1 to 65535 writes [08 lo hi]
    with [lo + 256 * hi] the interval.  A larger interval raises
    [struct.error] before anything is written, so the transfer fails right
    after the init packet was accepted, before the receive command. *)
Theorem configure_prn_cases w :
  ((prn (self w) <= 0)%Z -> configure_prn w = (Ok tt, w))
  /\ ((0 < prn (self w) <= 65535)%Z ->
      exists lo hi,
        (byte_val lo + 256 * byte_val hi = prn (self w))%Z
        /\ configure_prn w
           = write_gatt_char DFU_CONTROL_POINT_UUID
                             [OP_CODE_PACKET_RECEIPT_NOTIF_REQ; lo; hi] true w)
  /\ ((65535 < prn (self w))%Z ->
      configure_prn w = (Raise StructError, w)
      /\ forall w1, init_packet w1 = (Ok tt, w) ->
                    transfer w1 = (Raise StructError, w)).
Proof.
  rewrite configure_prn_run. split; [|split].
  - intros H. replace (0 <? prn (self w))%Z with false
      by (symmetry; apply Z.ltb_ge; lia). reflexivity.
  - intros H. replace (0 <? prn (self w))%Z with true
      by (symmetry; apply Z.ltb_lt; lia).
    replace (0 <=? prn (self w))%Z with true by (symmetry; apply Z.leb_le; lia).
    replace (prn (self w) <? 65536)%Z with true by (symmetry; apply Z.ltb_lt; lia).
    cbn [andb].
    pose proof (le_value_le_bytes 2 (prn (self w))) as Hv.
    remember (le_bytes 2 (prn (self w))) as bs eqn:Ebs.
    assert (Hlen : length bs = 2) by (subst bs; apply le_bytes_length).
    destruct bs as [|lo [|hi [|x bs]]]; cbn [length] in Hlen; try lia.
    exists lo, hi. split; [|reflexivity].
    cbn [le_value] in Hv. change (2 ^ (8 * Z.of_nat 2))%Z with 65536%Z in Hv.
    rewrite Z.mod_small in Hv by lia. lia.
  - intros H. replace (0 <? prn (self w))%Z with true
      by (symmetry; apply Z.ltb_lt; lia).
    replace (prn (self w) <? 65536)%Z with false by (symmetry; apply Z.ltb_ge; lia).
    rewrite andb_false_r. split; [reflexivity|].
    intros w1 Hi. unfold transfer, bind at 1. rewrite Hi.
    unfold bind at 1. rewrite configure_prn_run.
    replace (0 <? prn (self w))%Z with true by (symmetry; apply Z.ltb_lt; lia).
    replace (prn (self w) <? 65536)%Z with false by (symmetry; apply Z.ltb_ge; lia).
    now rewrite andb_false_r.
Qed.

Lemma configure_prn_cases_witness :
  configure_prn (sample_world 70000 [])
  = (Raise StructError, sample_world 70000 [])
  /\ configure_prn (sample_world 0 []) = (Ok tt, sample_world 0 [])
  /\ exists lo hi,
      (byte_val lo + 256 * byte_val hi = 300)%Z
      /\ configure_prn (sample_world 300 [])
         = write_gatt_char DFU_CONTROL_POINT_UUID
                           [OP_CODE_PACKET_RECEIPT_NOTIF_REQ; lo; hi] true
                           (sample_world 300 []).
Proof.
  split; [|split].
  - destruct (configure_prn_cases (sample_world 70000 [])) as (_ & _ & H).
    apply H. reflexivity.
  - destruct (configure_prn_cases (sample_world 0 [])) as (H & _).
    apply H. discriminate.
  - destruct (configure_prn_cases (sample_world 300 [])) as (_ & H & _).
    apply H. split; [reflexivity | discriminate].
Defined.

(** ** Packages that do not load *)

Lemma getinfo_in_namelist z s c :
  getinfo z s = Some c -> existsb (String.eqb s) (namelist z) = true.
Proof.
  unfold getinfo, namelist.
  destruct (find _ (rev z)) as [[n m]|] eqn:E; [|discriminate]. intros _.
  apply find_some in E as [Hin Hn]. cbn [fst] in Hn. apply String.eqb_eq in Hn.
  subst n. apply in_rev in Hin.
  apply existsb_exists. exists s. split; [|apply String.eqb_refl].
  apply in_map_iff. now exists (s, m).
Qed.

(** X12.  Three ways a package fails to load.  A missing file raises
    [FileNotFoundError] and leaves the object as it was.  An archive
    without [manifest.json] in which no member name ends in [.bin], or none
    in [.dat], with "application" in it raises "Could not auto-detect
    firmware files in ZIP." and leaves the object as it was.  An archive
    with a [manifest.json] that decodes to an object without the key
    [manifest] raises "Zip must contain an Application firmware
    manifest.", whatever other members it has: there is no fallback to the
    names.  In this last case the decoded manifest is already stored in
    the object; nothing else of it has changed. *)
Theorem parse_zip_failures disk json_load w :
  (disk (zip_path (self w)) = Absent ->
   parse_zip disk json_load w = (Raise FileNotFoundError, w))
  /\ (forall z,
        disk (zip_path (self w)) = Zip z ->
        existsb (String.eqb "manifest.json") (namelist z) = false ->
        first_application ".bin" (namelist z) = None
        \/ first_application ".dat" (namelist z) = None ->
        parse_zip disk json_load w = (Raise (DfuException NoFirmwareFiles), w))
  /\ (forall z raw members,
        disk (zip_path (self w)) = Zip z ->
        getinfo z "manifest.json" = Some (Some raw) ->
        json_load raw = Some (JObj members) ->
        existsb (fun m => String.eqb (fst m) "manifest") members = false ->
        parse_zip disk json_load w
        = (Raise (DfuException NoApplicationManifest),
           update_self (set_manifest (Some (JObj members))) w)).
Proof.
  split; [|split].
  - intros H. unfold parse_zip, bind at 1, get_self. now rewrite H.
  - intros z Hz Hm H. unfold parse_zip, bind at 1, get_self. rewrite Hz, Hm.
    destruct (first_application ".bin" (namelist z)) as [b|];
      destruct (first_application ".dat" (namelist z)) as [d|];
      try reflexivity.
    destruct H; discriminate.
  - intros z raw members Hz Hg Hj Hm.
    unfold parse_zip, bind at 1, get_self. rewrite Hz.
    rewrite (getinfo_in_namelist z "manifest.json" _ Hg).
    unfold bind at 1, lift at 1, zread. rewrite Hg, Hj.
    unfold bind at 1, modify_self at 1.
    unfold bind at 1, lift at 1. cbn [py_in]. rewrite Hm.
    unfold bind at 1, ret at 1. reflexivity.
Qed.

Lemma parse_zip_failures_witness :
  parse_zip (fun _ => Absent) (fun _ => None) fresh_world
  = (Raise FileNotFoundError, fresh_world)
  /\ fst (parse_zip (fun _ => Zip [("readme.txt"%string, Some [])])
                    (fun _ => None) fresh_world)
     = Raise (DfuException NoFirmwareFiles).
Proof.
  split.
  - destruct (parse_zip_failures (fun _ => Absent) (fun _ => None) fresh_world)
      as (H & _).
    exact (H eq_refl).
  - destruct (parse_zip_failures (fun _ => Zip [("readme.txt"%string, Some [])])
                (fun _ => None) fresh_world) as (_ & H & _).
    rewrite (H _ eq_refl eq_refl (or_introl eq_refl)). reflexivity.
Defined.

(** ** Addresses without a hint *)

(** X13.  No hint is computed for an address that is not 17 characters
    long, has no colon, or does not end in two characters [int(_, 16)]
    accepts.  Then a failed scan by service UUID ends the rediscovery at
    once with "Could not locate DFU Bootloader device.", without a second
    lookup. *)
Theorem bootloader_not_found_without_hint app_device adapter w e w1 :
  (forall s,
      String.length s <> 17 \/ Str.contains ":" s = false
      \/ Str.int16 (Str.last2 s) = None ->
      bootloader_mac_hint s = None)
  /\ (find_device "DFU" true adapter (Some DFU_SERVICE_UUID) w
      = (Raise (DfuException e), w1) ->
      bootloader_mac_hint (address app_device) = None ->
      locate_bootloader app_device adapter w
      = (Raise (DfuException BootloaderNotFound), w1)).
Proof.
  split.
  - intros s H. unfold bootloader_mac_hint.
    destruct (Str.contains ":" s) eqn:Hc; cbn [andb]; [|reflexivity].
    destruct (String.length s =? 17) eqn:Hl; [|reflexivity].
    apply Nat.eqb_eq in Hl.
    destruct H as [H | [H | H]]; [contradiction | discriminate |].
    now rewrite H.
  - intros H Hh. unfold locate_bootloader, bind at 1, try_except at 1, bind at 1.
    rewrite H. cbn [is_DfuException ret]. rewrite Hh. reflexivity.
Qed.

Lemma bootloader_not_found_without_hint_witness :
  fst (locate_bootloader
         (mkDevice "5F0B1E30-6F2C-4E3A-9C55-0A1B2C3D4E5F" None) None
         (sample_world 0 [sees []; sees sample_scan]))
  = Raise (DfuException BootloaderNotFound)
  /\ bootloader_mac_hint "5F0B1E30-6F2C-4E3A-9C55-0A1B2C3D4E5F" = None.
Proof.
  set (w := sample_world 0 [sees []; sees sample_scan]).
  destruct (bootloader_not_found_without_hint
              (mkDevice "5F0B1E30-6F2C-4E3A-9C55-0A1B2C3D4E5F" None) None w
              DeviceNotFound (advance (log (EvDiscover 5000) w))) as (Hs & H).
  split.
  - rewrite (H eq_refl eq_refl). reflexivity.
  - apply Hs. left. discriminate.
Defined.

(** ** The case of an address *)

Lemma upper_char_idem c :
  Str.upper_char (Str.upper_char c) = Str.upper_char c
  /\ Str.upper_char (Str.lower_char c) = Str.upper_char c.
Proof. destruct c as [[] [] [] [] [] [] [] []]; split; reflexivity. Qed.

Lemma upper_lower s : Str.upper (Str.lower s) = Str.upper s.
Proof.
  induction s as [|c s IH]; [reflexivity|].
  cbn [Str.upper Str.lower Str.map_string]. f_equal.
  - apply upper_char_idem.
  - exact IH.
Qed.

Lemma upper_upper s : Str.upper (Str.upper s) = Str.upper s.
Proof.
  induction s as [|c s IH]; [reflexivity|].
  cbn [Str.upper Str.map_string]. f_equal.
  - apply upper_char_idem.
  - exact IH.
Qed.

Lemma find_ext_on {A} (f g : A -> bool) xs :
  (forall x, In x xs -> f x = g x) -> find f xs = find g xs.
Proof.
  induction xs as [|x xs IH]; intros H; [reflexivity|].
  cbn [find]. rewrite (H x (or_introl eq_refl)).
  destruct (g x); [reflexivity|]. apply IH. intros y Hy. apply H. now right.
Qed.

(** X14.  The address criterion ignores the case of the identifier; the
    name criterion does not.  So the device selected from a sweep is the
    same for an identifier and for its lower-case spelling whenever no
    device is told apart from it by name. *)
Theorem address_case_is_ignored id service_uuid items :
  (forall item, address_matches (Str.upper id) item = address_matches id item
                /\ address_matches (Str.lower id) item = address_matches id item)
  /\ ((forall item, In item items ->
                    name_matches id item = name_matches (Str.lower id) item) ->
      scan_loop (Str.lower id) service_uuid items = scan_loop id service_uuid items).
Proof.
  assert (Ha : forall item,
             address_matches (Str.upper id) item = address_matches id item
             /\ address_matches (Str.lower id) item = address_matches id item).
  { intros item. unfold address_matches. now rewrite upper_upper, upper_lower. }
  split; [exact Ha|]. intros Hn.
  rewrite !scan_loop_first_match. f_equal. apply find_ext_on. intros item Hin.
  unfold matches. rewrite (proj2 (Ha item)), (Hn item Hin). reflexivity.
Qed.

Lemma address_case_is_ignored_witness :
  scan_loop (Str.lower "AA:BB:CC:DD:EE:00") None sample_scan
  = scan_loop "AA:BB:CC:DD:EE:00" None sample_scan.
Proof.
  destruct (address_case_is_ignored "AA:BB:CC:DD:EE:00" None sample_scan) as (_ & H).
  apply H. intros item [<- | [<- | []]]; reflexivity.
Defined.

(** ** From a notification to the answer of a wait *)

(** X15. With a positive timeout the answer of [_wait_for_response] is
    decided by the oldest status event that is pending once the wait is
    over, queued before the call or notified during the wait: none gives
    -1, one for another opcode gives -1, one for the expected opcode
    gives 1 for status 1 and the status byte otherwise.  That one event
    is consumed and the later ones stay queued in order.  With a timeout
    of zero or less the answer is -1 and every pending event stays
    queued.  Either way a receipt notification that arrives during the
    wait still sets the receipt event. *)
Theorem wait_answers_from_oldest_status expected timeout w :
  let pending := response_queue (self w) ++ statuses (notes (next_reply w)) in
  let run := _wait_for_response expected timeout w in
  ((0 < timeout)%Z ->
   fst run
   = Ok (match pending with
         | [] => (-1)%Z
         | (op, st) :: _ =>
             if Byte.eqb op expected
             then if (byte_val st =? 1)%Z then 1%Z else byte_val st
             else (-1)%Z
         end)
   /\ response_queue (self (snd run)) = tl pending)
  /\ ((timeout <= 0)%Z ->
      fst run = Ok (-1)%Z /\ response_queue (self (snd run)) = pending)
  /\ pkg_receipt_event (self (snd run))
     = (pkg_receipt_event (self w) || has_receipt (notes (next_reply w)))%bool.
Proof.
  cbv zeta. rewrite wait_for_response_run. cbv zeta.
  assert (Hq : response_queue (self (advance (log (EvQueueGet timeout) w)))
               = response_queue (self w) ++ statuses (notes (next_reply w)))
    by apply deliver_response_queue.
  assert (He : pkg_receipt_event (self (advance (log (EvQueueGet timeout) w)))
               = (pkg_receipt_event (self w) || has_receipt (notes (next_reply w)))%bool)
    by apply deliver_receipt_event.
  rewrite <- Hq, <- He.
  destruct (timeout <=? 0)%Z eqn:Ht.
  - apply Z.leb_le in Ht. cbn [fst snd].
    split; [intros H; lia|]. split; [intros _; split; reflexivity | reflexivity].
  - apply Z.leb_gt in Ht.
    destruct (response_queue (self (advance (log (EvQueueGet timeout) w))))
      as [|[op st] rest] eqn:E; cbn [fst snd tl].
    + split; [intros _; split; [reflexivity | exact E]|].
      split; [intros H; lia | reflexivity].
    + split; [|split; [intros H; lia | reflexivity]].
      intros _. split; [|reflexivity].
      destruct (Byte.eqb op expected); cbn [negb]; [|reflexivity].
      destruct (byte_val st =? 1)%Z; reflexivity.
Qed.

Lemma wait_answers_from_oldest_status_witness :
  fst (_wait_for_response OP_CODE_VALIDATE 30000
         (update_self (set_response_queue [(x04, x01)])
                      (sample_world 8 [notifies [[x10; x04; x06]]])))
  = Ok 1%Z
  /\ response_queue
       (self (snd (_wait_for_response OP_CODE_VALIDATE 30000
                     (update_self (set_response_queue [(x04, x01)])
                                  (sample_world 8 [notifies [[x10; x04; x06]]])))))
     = [(x04, x06)]
  /\ response_queue
       (self (snd (_wait_for_response OP_CODE_VALIDATE 0
                     (update_self (set_response_queue [(x04, x01)])
                                  (sample_world 8 [notifies [[x10; x04; x06]]])))))
     = [(x04, x01); (x04, x06)].
Proof.
  set (w0 := update_self (set_response_queue [(x04, x01)])
                         (sample_world 8 [notifies [[x10; x04; x06]]])).
  destruct (wait_answers_from_oldest_status OP_CODE_VALIDATE 30000 w0)
    as (H & _ & _).
  destruct (H ltac:(lia)) as [H1 H2].
  destruct (wait_answers_from_oldest_status OP_CODE_VALIDATE 0 w0)
    as (_ & H0 & _).
  destruct (H0 ltac:(lia)) as [_ H3].
  split; [exact H1|]. split; [exact H2 | exact H3].
Defined.

(** ** Commands that are written only in one situation *)

Lemma eo_stream_no_activate : emits_only not_activate _stream_firmware.
Proof.
  unfold _stream_firmware, stream_chunk, client_write, receipt_wait.
  emits; discriminate.
Qed.

Lemma eo_stream_no_reset : emits_only not_reset _stream_firmware.
Proof.
  unfold _stream_firmware, stream_chunk, client_write, receipt_wait.
  emits; discriminate.
Qed.

Lemma eo_transfer_no_reset : emits_only not_reset transfer.
Proof.
  unfold transfer, init_packet, configure_prn, receive_firmware, check_upload,
    validate.
  emits; first [discriminate | apply eo_stream_no_reset].
Qed.

Lemma eo_before_activation device :
  emits_only not_activate
    (modify_self (set_client (Some device)) ;;
     stabilize ;;
     status <- start_dfu ;;
     start_dfu_check status ;;
     transfer).
Proof.
  unfold stabilize, start_dfu, start_dfu_check, transfer, init_packet,
    configure_prn, receive_firmware, check_upload, validate.
  emits; first [discriminate | apply eo_stream_no_activate].
Qed.

Lemma dfu_session_by_prefix device w :
  dfu_session device w =
  match (modify_self (set_client (Some device)) ;;
         stabilize ;;
         status <- start_dfu ;;
         start_dfu_check status ;;
         transfer) w with
  | (Ok _, w7) => activate_and_reset w7
  | (Raise e, w7) => (Raise e, w7)
  end.
Proof.
  unfold dfu_session, bind.
  destruct (modify_self _ w) as [[u|e] w1]; [|reflexivity].
  destruct (stabilize w1) as [[u2|e] w2]; [|reflexivity].
  destruct (start_dfu w2) as [[status|e] w3]; [|reflexivity].
  destruct (start_dfu_check status w3) as [[u4|e] w4]; [|reflexivity].
  destruct (transfer w4) as [[u5|e] w5]; reflexivity.
Qed.

(** X16. The activate-and-reset command is written in a session exactly
    when the session returns normally: never before a step has failed,
    and always when all of them went through. *)
Theorem activate_written_iff_session_succeeds device w :
  In (EvWrite DFU_CONTROL_POINT_UUID [OP_CODE_ACTIVATE_AND_RESET] true)
     (emitted w (snd (dfu_session device w)))
  <-> fst (dfu_session device w) = Ok tt.
Proof.
  rewrite dfu_session_by_prefix.
  destruct (eo_before_activation device w) as (evs & Htr & HP).
  destruct ((modify_self (set_client (Some device)) ;; _) w) as [[[]|e] w7];
    cbn [snd] in Htr.
  - rewrite activate_and_reset_run. cbn [fst snd]. split; [reflexivity|]. intros _.
    rewrite (emitted_app w _ (evs ++ [EvWrite DFU_CONTROL_POINT_UUID
                                        [OP_CODE_ACTIVATE_AND_RESET] true])).
    + apply in_or_app. right. now left.
    + cbn [trace advance log]. now rewrite Htr, app_assoc.
  - cbn [fst snd]. rewrite (emitted_app w w7 evs Htr). split; [|discriminate].
    intros Hin. exfalso.
    rewrite Forall_forall in HP. exact (HP _ Hin eq_refl).
Qed.

Lemma eo_start_dfu_no_reset : emits_only not_reset start_dfu.
Proof. unfold start_dfu. emits; discriminate. Qed.

Lemma eo_after_start_no_reset :
  emits_only not_reset (transfer ;; activate_and_reset).
Proof.
  apply eo_bind; [apply eo_transfer_no_reset | intros _].
  unfold activate_and_reset. emits. discriminate.
Qed.

Lemma start_dfu_ok_control w status w' :
  start_dfu w = (Ok status, w') ->
  exists evs,
    trace w' = trace w ++ evs
    /\ control_writes evs = [[OP_CODE_START_DFU; UPLOAD_MODE_APPLICATION]]
    /\ Forall not_reset evs.
Proof.
  intros H.
  destruct (eo_start_dfu_no_reset w) as (evs & Htr & HP). rewrite H in Htr.
  cbn [snd] in Htr. exists evs. split; [exact Htr|]. split; [|exact HP].
  destruct (bin_data (self w)) as [data|] eqn:Hb.
  - destruct (start_dfu_ok w status w' data Hb H) as (evs' & (Htr' & _) & Hc & _).
    rewrite Htr in Htr'. apply app_inv_head in Htr'. now subst evs'.
  - exfalso. unfold start_dfu in H.
    apply bind_ok in H as ([] & w1 & H1 & H). apply write_ok in H1.
    apply bind_ok in H as (o & w1' & Ho & H). inversion Ho; subst o w1'; clear Ho.
    apply bind_ok in H as ([] & w2 & H2 & H).
    assert (C2 : config (self w2) = config (self w1)).
    { destruct (0 <? packet_delay (self w1))%Z.
      - rewrite sleep_run in H2. inversion H2.
        exact (advance_config (log (EvSleep (packet_delay (self w1))) w1)).
      - now inversion H2. }
    apply bind_ok in H as (o & w2' & Ho & H). inversion Ho; subst o w2'; clear Ho.
    destruct H1 as (_ & C1 & _).
    rewrite (config_bin_data _ _ C2), (config_bin_data _ _ C1), Hb in H.
    discriminate.
Qed.

Lemma session_steps_run w :
  session_steps w =
  match start_dfu w with
  | (Raise e, w2) => (Raise e, w2)
  | (Ok status, w2) =>
      match start_dfu_check status w2 with
      | (Raise e, w3) => (Raise e, w3)
      | (Ok _, w3) => (transfer ;; activate_and_reset) w3
      end
  end.
Proof.
  unfold session_steps, bind.
  destruct (start_dfu w) as [[status|e] w2]; [|reflexivity].
  destruct (start_dfu_check status w2) as [[[]|e] w3]; reflexivity.
Qed.

(** X17. The reset command is written only on the failure path of the
    start step: a session that writes it has written nothing else to
    the control point than the start command before it, and fails. *)
Theorem reset_written_only_after_failed_start device w :
  In (EvWrite DFU_CONTROL_POINT_UUID [OP_CODE_RESET] true)
     (emitted w (snd (dfu_session device w))) ->
  (exists e, fst (dfu_session device w) = Raise e)
  /\ control_writes (emitted w (snd (dfu_session device w)))
     = [[OP_CODE_START_DFU; UPLOAD_MODE_APPLICATION]; [OP_CODE_RESET]].
Proof.
  rewrite dfu_session_split. cbv zeta.
  set (w0 := update_self (set_client (Some device)) w).
  destruct (fault (next_reply w0)).
  { cbn [snd]. rewrite (emitted_app w _ [EvStartNotify DFU_CONTROL_POINT_UUID])
      by reflexivity.
    intros [H | []]. discriminate. }
  set (w1 := requeue _ _).
  assert (Htr1 : trace w1 = trace w ++ [EvStartNotify DFU_CONTROL_POINT_UUID])
    by reflexivity.
  rewrite session_steps_run.
  destruct (start_dfu w1) as [[status|e] w2] eqn:Hs.
  - destruct (start_dfu_ok_control w1 status w2 Hs) as (evs & Htr2 & Hc2 & HP2).
    destruct (Z.eq_dec status 1) as [-> | Hne].
    + cbn [start_dfu_check Z.eqb Pos.eqb negb ret].
      destruct (eo_after_start_no_reset w2) as (evs3 & Htr3 & HP3).
      rewrite (emitted_app w _ ([EvStartNotify DFU_CONTROL_POINT_UUID] ++ evs ++ evs3))
        by (rewrite Htr3, Htr2, Htr1; now rewrite <- !app_assoc).
      intros Hin. exfalso.
      apply in_app_or in Hin as [[H | []] | Hin]; [discriminate H|].
      apply in_app_or in Hin as [Hin | Hin].
      * rewrite Forall_forall in HP2. exact (HP2 _ Hin eq_refl).
      * rewrite Forall_forall in HP3. exact (HP3 _ Hin eq_refl).
    + rewrite (start_dfu_check_failed status w2 Hne). intros _.
      split; [destruct (fault (next_reply w2)); eexists; reflexivity|].
      destruct (fault (next_reply w2)); cbn [snd];
      (rewrite (emitted_app w _ ([EvStartNotify DFU_CONTROL_POINT_UUID] ++ evs
                                ++ [EvWrite DFU_CONTROL_POINT_UUID [OP_CODE_RESET] true]));
       [ rewrite !control_writes_app, Hc2; reflexivity
       | cbn [trace advance log]; rewrite Htr2, Htr1; now rewrite <- !app_assoc ]).
  - destruct (eo_start_dfu_no_reset w1) as (evs & Htr & HP). rewrite Hs in Htr.
    cbn [snd] in *.
    rewrite (emitted_app w _ ([EvStartNotify DFU_CONTROL_POINT_UUID] ++ evs))
      by (rewrite Htr, Htr1; now rewrite <- app_assoc).
    intros Hin. exfalso.
    apply in_app_or in Hin as [[H | []] | Hin]; [discriminate H|].
    rewrite Forall_forall in HP. exact (HP _ Hin eq_refl).
Qed.

Lemma reset_written_only_after_failed_start_witness :
  (exists e,
     fst (dfu_session sample_device (sample_world 0 (start_timeout_script quiet)))
     = Raise e)
  /\ control_writes
       (emitted (sample_world 0 (start_timeout_script quiet))
          (snd (dfu_session sample_device
                  (sample_world 0 (start_timeout_script quiet)))))
     = [[OP_CODE_START_DFU; UPLOAD_MODE_APPLICATION]; [OP_CODE_RESET]].
Proof.
  apply (reset_written_only_after_failed_start sample_device
           (sample_world 0 (start_timeout_script quiet))).
  vm_compute. repeat (first [left; reflexivity | right]).
Defined.

(** ** Progress lines *)

Lemma progress_lines_app a b :
  progress_lines (a ++ b) = progress_lines a ++ progress_lines b.
Proof. apply flat_map_app. Qed.

Lemma slice_length (data : bytes) i :
  length (slice data i (i + chunk_size)) = Nat.min 20 (length data - i).
Proof.
  unfold slice, chunk_size. rewrite length_firstn, length_skipn.
  replace (i + 20 - i) with 20 by lia. reflexivity.
Qed.

Lemma stream_loop_progress data :
  forall n a acc w b res w',
    client (self w) = Some b ->
    (forall k, a <= k < a + n -> k * 20 < length data) ->
    (n <> 0 -> bytes_sent (self w) = a * 20) ->
    for_each (map (fun k => k * 20) (seq a n))
             (stream_chunk data (length data)) acc w = (res, w') ->
    exists evs,
      trace w' = trace w ++ evs
      /\ Forall (fun p => snd p = length data /\ 0 < fst p <= length data)
                (progress_lines evs)
      /\ (forall x, res = Ok x ->
          progress_lines evs
          = map (fun i => (Nat.min (i + 20) (length data), length data))
                (filter (fun i => i mod 2000 =? 0)
                        (map (fun k => k * 20) (seq a n)))).
Proof.
  induction n as [|n IH]; intros a acc w b res w' Hc Hlt Hbs Hrun.
  - inversion Hrun; subst. exists []. rewrite app_nil_r.
    split; [reflexivity|]. split; [constructor|]. reflexivity.
  - cbn [seq map for_each] in Hrun. unfold bind in Hrun.
    rewrite (stream_chunk_run data (length data) (a * 20) acc w b Hc) in Hrun.
    cbv zeta in Hrun.
    set (chunk := slice data (a * 20) (a * 20 + chunk_size)) in *.
    set (w1 := advance (log (EvWrite DFU_PACKET_UUID chunk false) w)) in *.
    assert (Hbs1 : bytes_sent (self w1) = bytes_sent (self w))
      by exact (advance_bytes_sent (log (EvWrite DFU_PACKET_UUID chunk false) w)).
    destruct (fault (next_reply w)) as [err|].
    { inversion Hrun; subst res w'. exists [EvWrite DFU_PACKET_UUID chunk false].
      split; [reflexivity|]. split; [constructor|]. discriminate. }
    set (w2 := update_self _ w1) in *.
    assert (Hcl2 : client (self w2) = Some b).
    { rewrite <- Hc.
      exact (advance_client (log (EvWrite DFU_PACKET_UUID chunk false) w)). }
    assert (Ha : a * 20 < length data) by (apply Hlt; lia).
    assert (Hbs2 : bytes_sent (self w2) = Nat.min (a * 20 + 20) (length data)).
    { cbn [w2 update_self self bytes_sent set_bytes_sent].
      rewrite Hbs1, Hbs by discriminate. unfold chunk.
      rewrite slice_length. lia. }
    assert (Htr2 : trace w2 = trace w ++ [EvWrite DFU_PACKET_UUID chunk false])
      by reflexivity.
    set (line := (Nat.min (a * 20 + 20) (length data), length data)).
    set (w3 := if a * 20 mod 2000 =? 0 then _ else w2) in *.
    assert (H3 : trace w3
                 = trace w2 ++ map (fun p => EvStdout (Uploading (fst p) (snd p)))
                                   (if a * 20 mod 2000 =? 0 then [line] else [])
                 /\ client (self w3) = Some b
                 /\ bytes_sent (self w3) = Nat.min (a * 20 + 20) (length data)).
    { subst w3. destruct (a * 20 mod 2000 =? 0).
      - cbn [log trace self map fst snd line]. rewrite Hbs2. auto.
      - cbn [map]. rewrite app_nil_r. auto. }
    destruct H3 as (Htr3 & Hcl3 & Hbs3).
    assert (Hnext : forall k, S a <= k < S a + n -> k * 20 < length data)
      by (intros k Hk; apply Hlt; lia).
    assert (Hinv : n <> 0 -> Nat.min (a * 20 + 20) (length data) = S a * 20).
    { intros Hn. assert (S a * 20 < length data) by (apply Hlt; lia). lia. }
    assert (Hline : 0 < fst line <= length data /\ snd line = length data)
      by (cbn [line fst snd]; lia).
    assert (Hgoal : forall evs' evs,
      progress_lines evs' = [] ->
      Forall (fun p => snd p = length data /\ 0 < fst p <= length data)
             (progress_lines evs) ->
      Forall (fun p => snd p = length data /\ 0 < fst p <= length data)
             (progress_lines
                (EvWrite DFU_PACKET_UUID chunk false
                 :: map (fun p => EvStdout (Uploading (fst p) (snd p)))
                        (if a * 20 mod 2000 =? 0 then [line] else [])
                 ++ evs' ++ evs))
      /\ (forall x, res = Ok x ->
          (forall x, res = Ok x ->
           progress_lines evs
           = map (fun i => (Nat.min (i + 20) (length data), length data))
                 (filter (fun i => i mod 2000 =? 0)
                         (map (fun k => k * 20) (seq (S a) n)))) ->
          progress_lines
            (EvWrite DFU_PACKET_UUID chunk false
             :: map (fun p => EvStdout (Uploading (fst p) (snd p)))
                    (if a * 20 mod 2000 =? 0 then [line] else [])
             ++ evs' ++ evs)
          = map (fun i => (Nat.min (i + 20) (length data), length data))
                (filter (fun i => i mod 2000 =? 0)
                        (map (fun k => k * 20) (seq a (S n)))))).
    { intros evs' evs He' HF.
      change (progress_lines (EvWrite DFU_PACKET_UUID chunk false :: ?l))
        with (progress_lines l).
      rewrite !progress_lines_app, He'. cbn [app seq map filter].
      destruct (a * 20 mod 2000 =? 0).
      - change (progress_lines (map _ [line])) with [line]. cbn [app map].
        split.
        + constructor; [tauto | exact HF].
        + intros x Hx Hp. now rewrite (Hp x Hx).
      - cbn [map]. change (progress_lines []) with (@nil (nat * nat)). cbn [app].
        split; [exact HF|]. intros x Hx Hp. exact (Hp x Hx). }
    destruct (takes_receipt (prn (self w3)) (acc + 1)).
    + set (w4 := advance _) in Hrun.
      assert (Hcl4 : client (self w4) = Some b)
        by (subst w4; rewrite advance_client; exact Hcl3).
      assert (Hbs4 : n <> 0 -> bytes_sent (self w4) = S a * 20).
      { intros Hn. subst w4. rewrite advance_bytes_sent.
        cbn [update_self log self bytes_sent set_pkg_receipt_event].
        rewrite Hbs3. exact (Hinv Hn). }
      destruct (IH (S a) 0 w4 b res w' Hcl4 Hnext Hbs4 Hrun) as (evs & Htr & HF & Hp).
      exists (EvWrite DFU_PACKET_UUID chunk false
              :: map (fun p => EvStdout (Uploading (fst p) (snd p)))
                     (if a * 20 mod 2000 =? 0 then [line] else [])
              ++ [EvReceiptClear; EvReceiptWait 5000] ++ evs).
      destruct (Hgoal [EvReceiptClear; EvReceiptWait 5000] evs eq_refl HF) as [G1 G2].
      split; [|split; [exact G1 | intros x Hx; exact (G2 x Hx Hp)]].
      rewrite Htr. subst w4. rewrite advance_trace. cbn [trace log update_self].
      rewrite Htr3, Htr2. repeat rewrite <- app_assoc. reflexivity.
    + assert (Hbs4 : n <> 0 -> bytes_sent (self w3) = S a * 20)
        by (intros Hn; rewrite Hbs3; exact (Hinv Hn)).
      destruct (IH (S a) (acc + 1) w3 b res w' Hcl3 Hnext Hbs4 Hrun)
        as (evs & Htr & HF & Hp).
      exists (EvWrite DFU_PACKET_UUID chunk false
              :: map (fun p => EvStdout (Uploading (fst p) (snd p)))
                     (if a * 20 mod 2000 =? 0 then [line] else [])
              ++ [] ++ evs).
      destruct (Hgoal [] evs eq_refl HF) as [G1 G2].
      split; [|split; [exact G1 | intros x Hx; exact (G2 x Hx Hp)]].
      rewrite Htr, Htr3, Htr2. repeat rewrite <- app_assoc. reflexivity.
Qed.

Lemma range_offsets (L : nat) :
  range 0 L chunk_size = map (fun k => k * 20) (seq 0 ((L + 19) / 20)).
Proof.
  unfold range, chunk_size. rewrite Nat.sub_0_r.
  replace (20 - 1) with 19 by reflexivity. reflexivity.
Qed.

(** X18. The progress lines of the stream.  Every line the stream prints
    before the closing one reports a count of bytes sent that is positive
    and at most the size of the image, and the size of the image as the
    total: the percentage is never computed from an empty image and never
    exceeds 100, also in a stream that fails.  A stream that returns
    normally has printed one line for each offset of the range that is a
    multiple of 2000, in order, each with the bytes sent up to and with
    the chunk at that offset, whatever the receipt interval and the
    notifications. *)
Theorem stream_progress_lines w data :
  bin_data (self w) = Some data ->
  let w' := snd (_stream_firmware w) in
  Forall (fun p => snd p = length data /\ 0 < fst p <= length data)
         (progress_lines (emitted w w'))
  /\ (fst (_stream_firmware w) = Ok tt ->
      progress_lines (emitted w w')
      = map (fun i => (Nat.min (i + 20) (length data), length data))
            (filter (fun i => i mod 2000 =? 0)
                    (range 0 (length data) chunk_size))).
Proof.
  intros Hb. cbv zeta. rewrite (stream_firmware_run w data Hb).
  rewrite range_offsets.
  assert (Hlt : forall k, 0 <= k < 0 + (length data + 19) / 20 ->
                          k * 20 < length data).
  { intros k Hk. pose proof (Nat.Div0.mul_div_le (length data + 19) 20). lia. }
  destruct (client (self w)) as [b|] eqn:Hc.
  - destruct (for_each _ _ 0 _) as [res w1] eqn:Hloop.
    destruct (stream_loop_progress data _ 0 0
                (update_self (set_bytes_sent 0) w) b res w1 Hc Hlt
                (fun _ => eq_refl) Hloop) as (evs & Htr & HF & Hp).
    change (trace (update_self (set_bytes_sent 0) w)) with (trace w) in Htr.
    destruct res as [r|e]; cbn [fst snd].
    + rewrite (emitted_app w _ (evs ++ [EvStdout Uploading100]))
        by (cbn [log trace]; now rewrite Htr, app_assoc).
      rewrite progress_lines_app. change (progress_lines [EvStdout Uploading100])
        with (@nil (nat * nat)). rewrite app_nil_r.
      split; [exact HF|]. intros _. exact (Hp r eq_refl).
    + rewrite (emitted_app w w1 evs Htr). split; [exact HF | discriminate].
  - destruct ((length data + 19) / 20) as [|n].
    + cbn [seq map for_each ret fst snd filter].
      rewrite (emitted_app w _ [EvStdout Uploading100]) by reflexivity.
      split; [constructor | reflexivity].
    + assert (Hfail : for_each (map (fun k => k * 20) (seq 0 (S n)))
                               (stream_chunk data (length data)) 0
                               (update_self (set_bytes_sent 0) w)
                      = (Raise AttributeError, update_self (set_bytes_sent 0) w)).
      { cbn [seq map for_each]. unfold bind at 1, stream_chunk at 1.
        unfold bind at 1, client_write at 1, bind at 1, get_self at 1.
        change (client (self (update_self (set_bytes_sent 0) w)))
          with (client (self w)).
        rewrite Hc. reflexivity. }
      rewrite Hfail. cbn [fst snd].
      rewrite (emitted_app w _ []) by (cbn; now rewrite app_nil_r).
      split; [constructor | discriminate].
Qed.

Lemma stream_progress_lines_witness :
  progress_lines (emitted (sample_world 2 [])
                          (snd (_stream_firmware (sample_world 2 []))))
  = [(20, 41)].
Proof.
  destruct (stream_progress_lines (sample_world 2 []) sample_image eq_refl)
    as [_ H].
  rewrite (H eq_refl). reflexivity.
Defined.
